(** * Order lifecycle and payment reconciliation of the KhawwWS backend

    A shallow embedding of the order handlers of [server.js] (and of the
    older duplicate flow kept beside it): order creation with price
    verification, the two payment-confirmation paths (verify-payment and
    the gateway webhook), the accept / reject actions, the generic status
    update and the auto-reject timer.  Around them: the endpoints for the
    restaurant's status and notification preference, the availability
    and deletion of menu items, the customers' saved addresses, the
    verification of a restaurant, [sendFCMNotification], and the older
    verify-payment, webhook and status update.

    Conventions of the model:
    - a JavaScript number is an exact rational ([Q]) or one of the special
      values [NaN], [Infinity]; rounding, overflow and underflow of
      binary64 are not modelled;
    - a string is a sequence of bytes ([string]);
    - [undefined] is [None] of an [option];
    - the relational store always answers, and its schema is taken as
      the handlers use it: [status] and [payment_status] hold any string,
      column widths and collations are not modelled, and a
      [WHERE uid = ?] is equality of strings. *)

From Stdlib Require Import ZArith QArith Qabs Qround Lqa Ascii String.
From stdpp Require Import gmap strings pretty.

Local Open Scope Z_scope.
Local Open Scope string_scope.

(** ** JavaScript values and the built-ins the handlers use *)

Module JS.

(** A parsed JSON value; [JObj] lists the own properties of an object. *)
#[warnings="-register-all"]
Inductive json : Type :=
| JNull
| JBool (b : bool)
| JNum (q : Q)
| JStr (s : string)
| JArr (items : list json)
| JObj (fields : list (string * json)).

(** A JavaScript number. *)
Inductive number : Type :=
| NaN
| Infinity (negative : bool)
| Fin (q : Q).

Fixpoint assoc (k : string) (fields : list (string * json)) : option json :=
  match fields with
  | [] => None
  | (k', v) :: rest => if String.eqb k k' then Some v else assoc k rest
  end.

(** [v?.k]: property [k] of [v], [undefined] when [v] is [undefined],
    [null], or has no such property.  None of the property names the
    handlers read exists on a string, a number or an array. *)
Definition prop (k : string) (v : option json) : option json :=
  match v with
  | Some (JObj fields) => assoc k fields
  | _ => None
  end.

(** Truthiness, as tested by [if (v)] and [!v]. *)
Definition truthy (v : option json) : bool :=
  match v with
  | None | Some JNull => false
  | Some (JBool b) => b
  | Some (JNum q) => negb (Qeq_bool q 0)
  | Some (JStr s) => negb (String.eqb s "")
  | Some (JArr _) | Some (JObj _) => true
  end.

Definition truthy_number (n : number) : bool :=
  match n with
  | NaN => false
  | Infinity _ => true
  | Fin q => negb (Qeq_bool q 0)
  end.

(** *** Characters and digit strings *)

Definition is_digit (c : ascii) : bool :=
  let n := nat_of_ascii c in (48 <=? n)%nat && (n <=? 57)%nat.

Definition digit_value (c : ascii) : Z := Z.of_nat (nat_of_ascii c) - 48.

(** White space skipped by [parseFloat], [parseInt], [trim] and by the
    store's string-to-number conversion: tab, LF, VT, FF, CR, space. *)
Definition is_space (c : ascii) : bool :=
  let n := nat_of_ascii c in ((9 <=? n)%nat && (n <=? 13)%nat) || (n =? 32)%nat.

Fixpoint skip_spaces (s : string) : string :=
  match s with
  | String c rest => if is_space c then skip_spaces rest else s
  | EmptyString => s
  end.

(** [String.prototype.trim]. *)
Definition trim (s : string) : string :=
  String.rev (skip_spaces (String.rev (skip_spaces s))).

(** The longest prefix of digits, and what follows it. *)
Fixpoint span_digits (s : string) : string * string :=
  match s with
  | String c rest =>
      if is_digit c
      then let '(ds, tl) := span_digits rest in (String c ds, tl)
      else ("", s)
  | EmptyString => ("", "")
  end.

Fixpoint digits_to_Z (acc : Z) (ds : string) : Z :=
  match ds with
  | String c rest => digits_to_Z (10 * acc + digit_value c) rest
  | EmptyString => acc
  end.

(** An optional sign: [true] for a minus. *)
Definition read_sign (s : string) : bool * string :=
  match s with
  | String "-" rest => (true, rest)
  | String "+" rest => (false, rest)
  | _ => (false, s)
  end.

Definition is_exponent_mark (c : ascii) : bool :=
  Ascii.eqb c "e" || Ascii.eqb c "E".

(** The exponent part [e[+-]ddd] when it is well formed, 0 otherwise. *)
Definition read_exponent (s : string) : Z :=
  match s with
  | String c rest =>
      if is_exponent_mark c then
        let '(neg, rest') := read_sign rest in
        let '(ds, _) := span_digits rest' in
        if String.eqb ds "" then 0
        else if neg then - digits_to_Z 0 ds else digits_to_Z 0 ds
      else 0
  | EmptyString => 0
  end.

(** The longest unsigned decimal literal that starts [s]:
    [ddd], [ddd.], [ddd.ddd], [.ddd], each with an optional exponent. *)
Definition read_decimal (s : string) : option Q :=
  let '(ip, r1) := span_digits s in
  let '(fp, r2) :=
    match r1 with
    | String "." r => span_digits r
    | _ => ("", r1)
    end in
  if String.eqb ip "" && String.eqb fp "" then None
  else
    let scale := 10 ^ Z.of_nat (String.length fp) in
    let mantissa := digits_to_Z (digits_to_Z 0 ip) fp in
    Some ((inject_Z mantissa / inject_Z scale) * Qpower (inject_Z 10) (read_exponent r2))%Q.

(** [parseFloat] of a string. *)
Definition parseFloat_string (s : string) : number :=
  let '(neg, r) := read_sign (skip_spaces s) in
  if String.prefix "Infinity" r then Infinity neg
  else match read_decimal r with
       | None => NaN
       | Some q => Fin (if neg then - q else q)%Q
       end.

(** *** [toString] *)

(** Up to [fuel] decimal places of [r / d] for [0 <= r < d], stopping
    when the expansion ends. *)
Fixpoint fraction_digits (fuel : nat) (r d : Z) : string :=
  match fuel with
  | O => ""
  | S fuel' =>
      if (r =? 0)%Z then ""
      else pretty ((10 * r) / d)%Z +:+ fraction_digits fuel' ((10 * r) mod d)%Z d
  end.

(** [Number.prototype.toString] in radix 10: exact on integers below
    1e21 (the ids a gateway echoes); a fraction is printed to at most 17
    places. *)
Definition number_toString (q : Q) : string :=
  let n := Qnum q in
  let d := Z.pos (Qden q) in
  let a := Z.abs n in
  let sign := if (n <? 0)%Z then "-" else "" in
  let fr := fraction_digits 17 (a mod d)%Z d in
  sign +:+ pretty (a / d)%Z +:+ (if String.eqb fr "" then "" else "." +:+ fr).

(** [v.toString()] for a value that passed a truthiness test; an element
    [null] of an array prints as the empty string. *)
Fixpoint toString (v : json) : string :=
  match v with
  | JNull => "null"
  | JBool b => if b then "true" else "false"
  | JNum q => number_toString q
  | JStr s => s
  | JObj _ => "[object Object]"
  | JArr items =>
      (fix join (l : list json) : string :=
         match l with
         | [] => ""
         | x :: rest =>
             let sx := match x with JNull => "" | _ => toString x end in
             match rest with
             | [] => sx
             | _ => sx +:+ "," +:+ join rest
             end
         end) items
  end.

(** [parseFloat(v)]: a number is its own value, anything else is
    converted to a string first. *)
Definition parseFloat (v : option json) : number :=
  match v with
  | None => NaN
  | Some (JNum q) => Fin q
  | Some w => parseFloat_string (toString w)
  end.

(** [s.replace(pat, rep)] with a string pattern: the first occurrence. *)
Fixpoint replace_first (pat rep s : string) : string :=
  if String.prefix pat s
  then rep +:+ String.substring (String.length pat) (String.length s - String.length pat) s
  else match s with
       | String c rest => String c (replace_first pat rep rest)
       | EmptyString => EmptyString
       end.

(** *** [Number.parseInt] without a radix *)

Definition hex_value (c : ascii) : option Z :=
  let n := nat_of_ascii c in
  if is_digit c then Some (digit_value c)
  else if (97 <=? n)%nat && (n <=? 102)%nat then Some (Z.of_nat n - 87)
  else if (65 <=? n)%nat && (n <=? 70)%nat then Some (Z.of_nat n - 55)
  else None.

Fixpoint read_hex (acc : option Z) (s : string) : option Z :=
  match s with
  | String c rest =>
      match hex_value c with
      | Some d => read_hex (Some (16 * default 0 acc + d)) rest
      | None => acc
      end
  | EmptyString => acc
  end.

(** [None] is [NaN]. *)
Definition parseInt (s : string) : option Z :=
  let '(neg, r) := read_sign (skip_spaces s) in
  let magnitude :=
    if String.prefix "0x" r || String.prefix "0X" r
    then read_hex None (String.substring 2 (String.length r - 2) r)
    else let '(ds, _) := span_digits r in
         if String.eqb ds "" then None else Some (digits_to_Z 0 ds) in
  (fun m => if neg then - m else m) <$> magnitude.

(** *** Arithmetic of [Math.abs(a - b) > t] *)

Definition sub (a b : number) : number :=
  match a, b with
  | NaN, _ | _, NaN => NaN
  | Infinity s, Infinity s' => if Bool.eqb s s' then NaN else Infinity s
  | Infinity s, Fin _ => Infinity s
  | Fin _, Infinity s => Infinity (negb s)
  | Fin x, Fin y => Fin (x - y)
  end.

Definition abs (a : number) : number :=
  match a with
  | NaN => NaN
  | Infinity _ => Infinity false
  | Fin x => Fin (Qabs x)
  end.

(** [a > t] for a finite [t]; a comparison with [NaN] is false. *)
Definition gt (a : number) (t : Q) : bool :=
  match a with
  | NaN => false
  | Infinity negative => negb negative
  | Fin x => negb (Qle_bool x t)
  end.

End JS.

Import JS.

(** ** The store

    Each table is a finite map from its key to a row.  A [DECIMAL] column
    is held as the value the driver hands back for it ([total_price]: the
    pool of [db.js] does not set [decimalNumbers], so a stored price comes
    back as a string such as ["529.00"]); the handlers convert it with
    [parseFloat].  A menu price is held as the number [Number(price)]
    yields. *)

(** The columns of [orders] written once, at creation. *)
Record OrderDetails : Type := mkOrderDetails {
  customer_name : string;
  phone_number : string;
  delivery_address : string;
  delivery_latitude : option json;
  delivery_longitude : option json;
  location_accuracy : option string;
  payment_method : string;
  notes : option string;
  response_deadline : option Z;
}.

Record Order : Type := mkOrder {
  customer_uid : string;
  restaurant_uid : string;
  status : string;
  payment_status : string;
  total_price : json;
  payment_session_id : option string;
  payment_id : option string;
  rejection_reason : option string;
  auto_rejected : bool;
  details : OrderDetails;
}.

(** A row of [orders] as a [SELECT *] returns it: the id and the columns. *)
Definition Row : Type := Z * Order.

Record Restaurant : Type := mkRestaurant {
  is_online : Z;
}.

Record MenuItem : Type := mkMenuItem {
  item_restaurant_uid : string;
  price : Q;
  is_available : Z;
  is_deleted : Z;
}.

Record OrderItem : Type := mkOrderItem {
  order_id : Z;
  menu_item_id : Z;
  quantity : Z;
}.

Record Db : Type := mkDb {
  orders : gmap Z Order;
  next_order_id : Z;
  order_items : list OrderItem;
  restaurant_owners : gmap string Restaurant;
  restaurant_preferences : gmap string Z;
  customers : gmap string string;
  menu_items1 : gmap Z MenuItem;
}.

Definition with_orders (f : gmap Z Order → gmap Z Order) (d : Db) : Db :=
  mkDb (f (orders d)) (next_order_id d) (order_items d) (restaurant_owners d)
       (restaurant_preferences d) (customers d) (menu_items1 d).

(** [SET status = ?, payment_status = ?] *)
Definition set_status_payment (st ps : string) (o : Order) : Order :=
  mkOrder (customer_uid o) (restaurant_uid o) st ps (total_price o)
          (payment_session_id o) (payment_id o) (rejection_reason o)
          (auto_rejected o) (details o).

(** [SET status = ?] *)
Definition set_status (st : string) (o : Order) : Order :=
  set_status_payment st (payment_status o) o.

(** [SET status = ?, rejection_reason = ?, auto_rejected = ?] *)
Definition set_rejected (st reason : string) (auto : bool) (o : Order) : Order :=
  mkOrder (customer_uid o) (restaurant_uid o) st (payment_status o) (total_price o)
          (payment_session_id o) (payment_id o) (Some reason) auto (details o).

(** [SET payment_session_id = ?, payment_id = ?] *)
Definition set_payment_session (session cf_order : string) (o : Order) : Order :=
  mkOrder (customer_uid o) (restaurant_uid o) (status o) (payment_status o)
          (total_price o) (Some session) (Some cf_order) (rejection_reason o)
          (auto_rejected o) (details o).

(** The store compares an integer column with a string parameter as
    numbers: the value of the string is its leading numeric literal, 0
    when there is none. *)
Definition sql_number (s : string) : Q :=
  let '(neg, r) := read_sign (skip_spaces s) in
  match read_decimal r with
  | None => 0
  | Some q => if neg then - q else q
  end.

(** The integer an [id = ?] parameter can match, if any. *)
Definition id_of_param (s : string) : option Z :=
  let q := sql_number s in
  let z := Qfloor q in
  if Qeq_bool (inject_Z z) q then Some z else None.

(** [SELECT * FROM orders WHERE id = ?] *)
Definition select_order (d : Db) (orderId : string) : option Row :=
  id ← id_of_param orderId;
  o ← orders d !! id;
  Some (id, o).

(** [UPDATE orders SET ... WHERE id = ?]; the second component is
    [affectedRows]. *)
Definition update_order (f : Order → Order) (orderId : string) (d : Db) : Db * nat :=
  match select_order d orderId with
  | Some (id, o) => (with_orders (insert id (f o)) d, 1%nat)
  | None => (d, 0%nat)
  end.

(** ** The server process *)

(** A key of the [orderTimers] map.  A [Map] tells a string from a
    number: ["7"] and [7] are different keys. *)
Inductive MapKey : Type :=
| KString (s : string)
| KNumber (n : Z)
| KNaN.

Global Instance MapKey_eq_dec : EqDecision MapKey.
Proof. solve_decision. Defined.

Global Instance MapKey_countable : Countable MapKey.
Proof.
  refine (inj_countable'
    (λ k, match k with
          | KString s => inl s
          | KNumber n => inr (Some n)
          | KNaN => inr None
          end)
    (λ x, match x with
          | inl s => KString s
          | inr (Some n) => KNumber n
          | inr None => KNaN
          end) _).
  by intros [].
Defined.

(** What the process sends out. *)
Inductive Event : Type :=
| Emit (room event : string) (payload : Row)
    (* io.to(room).emit(event, payload) *)
| Push (restaurantUid title : string) (data : list (string * string)).
    (* a call sendFCMNotification(restaurantUid, title, body, data) *)

Record Server : Type := mkServer {
  db : Db;
  orderTimers : gmap MapKey nat;
    (* order id -> handle returned by setTimeout *)
  timeouts : gmap nat string;
    (* the scheduled callbacks: handle -> argument of autoRejectOrder *)
  next_timeout : nat;
  emitted : list Event;
}.

Definition with_db (f : Db → Db) (s : Server) : Server :=
  mkServer (f (db s)) (orderTimers s) (timeouts s) (next_timeout s) (emitted s).

Definition emit (e : Event) (s : Server) : Server :=
  mkServer (db s) (orderTimers s) (timeouts s) (next_timeout s) (emitted s ++ [e]).

(** [db.query("UPDATE orders ...")] outside a transaction. *)
Definition query_update (f : Order → Order) (orderId : string) (s : Server) : Server * nat :=
  let '(d, n) := update_order f orderId (db s) in
  (with_db (λ _, d) s, n).

(** [const timer = setTimeout(() => autoRejectOrder(orderId), 90000);
     orderTimers.set(orderId, timer)] *)
Definition start_timer (orderId : string) (s : Server) : Server :=
  let h := next_timeout s in
  mkServer (db s) (<[KString orderId := h]> (orderTimers s))
           (<[h := orderId]> (timeouts s)) (S h) (emitted s).

(** [if (orderTimers.has(k)) { clearTimeout(orderTimers.get(k)); orderTimers.delete(k) }] *)
Definition clear_timer (k : MapKey) (s : Server) : Server :=
  match orderTimers s !! k with
  | Some h =>
      mkServer (db s) (delete k (orderTimers s)) (delete h (timeouts s))
               (next_timeout s) (emitted s)
  | None => s
  end.

(** [orderTimers.delete(k)] *)
Definition forget_timer (k : MapKey) (s : Server) : Server :=
  mkServer (db s) (delete k (orderTimers s)) (timeouts s) (next_timeout s) (emitted s).

(** The answer of a handler: the status code and the [success],
    [message] and [error] fields of its body. *)
Record Response : Type := mkResponse {
  http_status : nat;
  success : bool;
  message : option string;
  error : option string;
}.

Definition restaurant_room (uid : string) : string := "restaurant_" +:+ uid.
Definition customer_room (uid : string) : string := "customer_" +:+ uid.

(** ** Auto-reject *)

Definition auto_reject_reason : string := "Order was not accepted within the time limit".

(** [autoRejectOrder(orderId)] *)
Definition autoRejectOrder (orderId : string) (s : Server) : Server :=
  match select_order (db s) orderId with
  | Some (id, order) =>
      if String.eqb (status order) "pending" then
        let '(s1, _) := query_update (set_rejected "rejected" auto_reject_reason true) orderId s in
        match select_order (db s1) orderId with
        | Some updatedOrder =>
            let s2 := emit (Emit (restaurant_room (restaurant_uid order)) "orderAutoRejected" updatedOrder) s1 in
            let s3 := emit (Emit (customer_room (customer_uid order)) "orderStatusUpdated" updatedOrder) s2 in
            forget_timer (KString orderId) s3
        | None => s1
        end
      else s
  | None => s
  end.

(** The scheduled callback of handle [h] runs. *)
Definition fire (h : nat) (s : Server) : Server :=
  match timeouts s !! h with
  | Some orderId =>
      autoRejectOrder orderId
        (mkServer (db s) (orderTimers s) (delete h (timeouts s)) (next_timeout s) (emitted s))
  | None => s
  end.

(** ** Payment confirmation: the client's verify-payment call *)

(** What the handlers can throw. *)
Inductive Exception : Type :=
| ReferenceError (name : string)
| TypeError (msg : string)
| Error (msg : string).

(** [err.message] *)
Definition exception_message (e : Exception) : string :=
  match e with
  | ReferenceError name => name +:+ " is not defined"
  | TypeError msg => msg
  | Error msg => msg
  end.

(** [res.status(code).json({ success: ok, message: msg })] *)
Definition respond (code : nat) (ok : bool) (msg : string) : Response :=
  mkResponse code ok (Some msg) None.

(** [res.status(code).json({ success: ok, error: err })] *)
Definition respond_error (code : nat) (ok : bool) (err : string) : Response :=
  mkResponse code ok None (Some err).

(** [v === "lit"] *)
Definition is_string (lit : string) (v : option json) : bool :=
  match v with
  | Some (JStr s) => String.eqb s lit
  | _ => false
  end.

Definition is_null (v : json) : bool :=
  match v with
  | JNull => true
  | _ => false
  end.

(** The loop that logs every attempt, then
    [payments.find((p) => p.payment_status === "SUCCESS")]: both read
    [payment_status] of an attempt, which throws on [null]. *)
Definition find_success (payments : list json) : Exception + option json :=
  if existsb is_null payments
  then inl (TypeError "Cannot read properties of null (reading 'payment_status')")
  else inr (List.find (λ p, is_string "SUCCESS" (prop "payment_status" (Some p))) payments).

Definition new_order_data (orderId : string) : list (string * string) :=
  [("type", "newOrder"); ("orderId", orderId); ("status", "pending");
   ("paymentVerified", "true")].

(** [POST /api/orders/:orderId/verify-payment].  [gateway] is the answer
    of the gateway to [GET /pg/orders/{payment_id}/payments]: [None] when
    the request fails, the response body otherwise. *)
Definition verifyPayment (orderId : string) (gateway : option json) (s : Server)
  : Server * Response :=
  match select_order (db s) orderId with
  | None => (s, respond_error 404 false "Order not found")
  | Some (_, order) =>
      if String.eqb (payment_status order) "success" then
        (s, respond 200 true "Payment already verified")
      else if String.eqb (payment_status order) "failed"
              || String.eqb (payment_status order) "cancelled" then
        (s, respond 200 false "Payment has already failed")
      else
        match gateway with
        | None => (s, respond_error 500 false "Unable to verify payment with payment gateway")
        | Some (JArr payments) =>
            match find_success payments with
            | inl _ => (s, respond_error 500 false "Failed to verify payment")
            | inr None =>
                let '(s1, _) := query_update (set_status_payment "cancelled" "failed") orderId s in
                (s1, respond 200 false "Payment verification failed - No successful payment found")
            | inr (Some successfulPayment) =>
                let paidAmount := parseFloat (prop "payment_amount" (Some successfulPayment)) in
                let orderAmount := parseFloat (Some (total_price order)) in
                if gt (abs (sub paidAmount orderAmount)) 0.02 then
                  let '(s1, _) := query_update (set_status_payment "cancelled" "failed") orderId s in
                  (s1, respond_error 400 false "Payment amount mismatch")
                else
                  let '(s1, _) := query_update (set_status_payment "pending" "success") orderId s in
                  match select_order (db s1) orderId with
                  | Some updatedOrder =>
                      let s2 := emit (Emit (restaurant_room (restaurant_uid order)) "newOrder" updatedOrder) s1 in
                      let s3 := emit (Push (restaurant_uid order) ("New Order #" +:+ orderId)
                                           (new_order_data orderId)) s2 in
                      (s3, respond 200 true "Payment verified successfully")
                  | None => (s1, respond 200 true "Payment verified successfully")
                  end
            end
        | Some _ => (s, respond_error 500 false "Failed to verify payment")
        end
  end.

(** ** Payment confirmation: the gateway's webhook *)

(** The body [bodyParser.json()] hands to the handler: an object or an
    array, so the handler's [Buffer] and string branches are never
    taken. *)
Inductive Body : Type :=
| BodyObject (fields : list (string * json))
| BodyArray (items : list json).

Definition body_value (b : Body) : json :=
  match b with
  | BodyObject fields => JObj fields
  | BodyArray items => JArr items
  end.

(** [Object.keys(req.body).length === 0] *)
Definition body_is_empty (b : Body) : bool :=
  match b with
  | BodyObject fields => (length fields =? 0)%nat
  | BodyArray items => (length items =? 0)%nat
  end.

(** The first truthy candidate, in the order the handler tries them. *)
Definition first_truthy (candidates : list (option json)) : option json :=
  mjoin (List.find truthy candidates).

(** [x.toString().replace("order_", "")] *)
Definition strip_order_prefix (v : json) : string :=
  replace_first "order_" "" (toString v).

Definition extract_order_id (payload : json) : option string :=
  let p := Some payload in
  strip_order_prefix <$>
    first_truthy [prop "order_id" (prop "order" (prop "data" p));
                  prop "order_id" (prop "order" p);
                  prop "order_id" p].

Definition extract_payment_status (payload : json) : option json :=
  let p := Some payload in
  first_truthy [prop "payment_status" (prop "payment" (prop "data" p));
                prop "payment_status" (prop "payment" p);
                prop "payment_status" p;
                prop "order_status" (prop "order" (prop "data" p))].

(** [None] is the initial [null]. *)
Definition extract_payment_amount (payload : json) : option number :=
  let p := Some payload in
  (λ v, parseFloat (Some v)) <$>
    first_truthy [prop "payment_amount" (prop "payment" (prop "data" p));
                  prop "payment_amount" (prop "payment" p);
                  prop "order_amount" (prop "order" (prop "data" p))].

(** [if (paymentAmount)] *)
Definition amount_present (a : option number) : bool :=
  match a with
  | Some n => truthy_number n
  | None => false
  end.

(** The object [validatePaymentSecurity] is expected to resolve to. *)
Record Validation : Type := mkValidation {
  valid : bool;
  alreadyProcessed : bool;
}.

(** A binding of the identifier [validatePaymentSecurity]:
    [(order, paymentAmount, paymentStatus) => validation]. *)
Definition Validator : Type := Row → number → option json → Validation.

(** [server.js] calls [validatePaymentSecurity] but neither declares nor
    imports it: in the module's scope the identifier is unbound. *)
Definition validatePaymentSecurity : option Validator := None.

(** The outcome of the status mapping of the webhook. *)
Inductive Mapping : Type :=
| Acknowledge
    (* the early return on validation.alreadyProcessed *)
| Write (dbPaymentStatus dbOrderStatus : string) (shouldNotifyRestaurant : bool).

Definition map_payment_status (binding : option Validator) (order : Row)
    (paymentStatus : option json) (paymentAmount : option number) : Exception + Mapping :=
  if is_string "SUCCESS" paymentStatus || is_string "PAID" paymentStatus then
    if amount_present paymentAmount then
      match binding with
      | None => inl (ReferenceError "validatePaymentSecurity")
      | Some validate =>
          let validation := validate order (default NaN paymentAmount) paymentStatus in
          if negb (valid validation) then
            if alreadyProcessed validation then inr Acknowledge
            else inr (Write "failed" "cancelled" false)
          else inr (Write "success" "pending" true)
      end
    else inr (Write "success" "pending" true)
  else if is_string "FAILED" paymentStatus then inr (Write "failed" "cancelled" false)
  else if is_string "CANCELLED" paymentStatus then inr (Write "cancelled" "cancelled" false)
  else inr (Write "pending" "payment_pending" false).

(** The row of the join of [restaurant_owners] with
    [restaurant_preferences]: [(is_online, COALESCE(order_notifications, 1))]. *)
Definition restaurant_status (d : Db) (uid : string) : option (Z * Z) :=
  r ← restaurant_owners d !! uid;
  Some (is_online r, default 1 (restaurant_preferences d !! uid)).

Definition can_be_notified (d : Db) (uid : string) : bool :=
  match restaurant_status d uid with
  | Some (online, notifications) => (online =? 1)%Z && (notifications =? 1)%Z
  | None => false
  end.

(** [x.toFixed(2)] exists on numbers only. *)
Definition has_toFixed (v : json) : bool :=
  match v with
  | JNum _ => true
  | _ => false
  end.

(** The block guarded by [shouldNotifyRestaurant && dbPaymentStatus === "success"].
    The [newOrder] payload is the row (the handler adds
    [seconds_remaining: 90] to it).  The push is requested inside a
    [try]: when [total_price] has no [toFixed], building its text throws
    and the [catch] only logs. *)
Definition notify_restaurant (orderId : string) (orderData : Row) (s : Server) : Server :=
  let uid := restaurant_uid orderData.2 in
  if can_be_notified (db s) uid then
    let s1 := start_timer orderId s in
    let s2 := emit (Emit (restaurant_room uid) "newOrder" orderData) s1 in
    if has_toFixed (total_price orderData.2)
    then emit (Push uid ("New Order #" +:+ orderId) (new_order_data orderId)) s2
    else s2
  else
    (query_update (set_status "pending_restaurant_online") orderId s).1.

(** The handler from the database update on. *)
Definition apply_mapping (orderId dbPaymentStatus dbOrderStatus : string)
    (shouldNotifyRestaurant : bool) (s : Server) : Server * Response :=
  let '(s1, affectedRows) :=
    query_update (set_status_payment dbOrderStatus dbPaymentStatus) orderId s in
  let s' :=
    if (0 <? affectedRows)%nat then
      match select_order (db s1) orderId with
      | Some orderData =>
          let s2 :=
            if shouldNotifyRestaurant && String.eqb dbPaymentStatus "success"
            then notify_restaurant orderId orderData s1
            else s1 in
          emit (Emit (customer_room (customer_uid orderData.2)) "orderStatusUpdated" orderData) s2
      | None => s1
      end
    else s1 in
  (s', respond 200 true "Webhook processed").

(** [POST /api/cashfree/webhook], for a given binding of
    [validatePaymentSecurity]. *)
Definition webhook_with (binding : option Validator) (body : Body) (s : Server)
  : Server * Response :=
  if body_is_empty body then (s, respond 200 true "Webhook endpoint is working")
  else
    let payload := body_value body in
    let paymentStatus := extract_payment_status payload in
    let paymentAmount := extract_payment_amount payload in
    match extract_order_id payload with
    | None => (s, respond_error 200 true "No order ID found")
    | Some orderId =>
        if String.eqb orderId "" then (s, respond_error 200 true "No order ID found")
        else
          match select_order (db s) orderId with
          | None => (s, respond_error 200 true "Order not found")
          | Some order =>
              if String.eqb (payment_status order.2) "success" then
                (s, respond 200 true "Payment already processed")
              else
                match map_payment_status binding order paymentStatus paymentAmount with
                | inl err =>
                    (s, mkResponse 200 false (Some "Webhook received but processing failed")
                                   (Some (exception_message err)))
                | inr Acknowledge => (s, respond 200 true "Payment already processed")
                | inr (Write dbPaymentStatus dbOrderStatus shouldNotifyRestaurant) =>
                    apply_mapping orderId dbPaymentStatus dbOrderStatus
                                  shouldNotifyRestaurant s
                end
          end
    end.

(** The handler as [server.js] runs it. *)
Definition webhookPaymentEvent : Body → Server → Server * Response :=
  webhook_with validatePaymentSecurity.

(** ** The restaurant's accept and reject actions *)

(** [!v] for a string that may be missing. *)
Definition missing (v : option string) : bool :=
  match v with
  | Some s => String.eqb s ""
  | None => true
  end.

(** The key [Number.parseInt(orderId)] of a [Map]. *)
Definition parsed_key (orderId : string) : MapKey :=
  match parseInt orderId with
  | Some n => KNumber n
  | None => KNaN
  end.

(** [validateRestaurantUid(uid)] for a non-empty trimmed [uid]: it
    throws unless the restaurant exists. *)
Definition validateRestaurantUid (uid : string) (d : Db) : Exception + unit :=
  match restaurant_owners d !! trim uid with
  | Some _ => inr ()
  | None => inl (Error ("Failed to validate restaurant UID: Restaurant not found for UID: "
                        +:+ trim uid))
  end.

(** [SELECT * FROM orders WHERE id = ? AND restaurant_uid = ? AND status = 'pending'] *)
Definition select_pending_of (d : Db) (orderId restaurant : string) : option Row :=
  match select_order d orderId with
  | Some (id, o) =>
      if String.eqb (restaurant_uid o) restaurant && String.eqb (status o) "pending"
      then Some (id, o) else None
  | None => None
  end.

(** [PUT /api/orders/:id/accept?restaurant_uid=...] *)
Definition acceptOrder (orderId : string) (query_restaurant_uid : option string)
    (s : Server) : Server * Response :=
  let restaurant := trim <$> query_restaurant_uid in
  if missing restaurant then (s, respond_error 400 false "Restaurant UID is required")
  else
    let uid := default "" restaurant in
    match validateRestaurantUid uid (db s) with
    | inl _ => (s, respond_error 500 false "accepting order failed")
    | inr _ =>
        match select_pending_of (db s) orderId uid with
        | None => (s, respond_error 404 false "Order not found, not yours, or already processed")
        | Some _ =>
            let s1 := clear_timer (parsed_key orderId) s in
            let '(s2, affectedRows) := query_update (set_status "preparing") orderId s1 in
            if (affectedRows =? 0)%nat then (s2, respond_error 404 false "Failed to accept order")
            else
              match select_order (db s2) orderId with
              | Some updatedOrder =>
                  let s3 := emit (Emit (restaurant_room uid) "orderAccepted" updatedOrder) s2 in
                  let s4 := emit (Emit (customer_room (customer_uid updatedOrder.2))
                                       "orderStatusUpdated" updatedOrder) s3 in
                  (s4, respond 200 true "Order accepted successfully")
              | None => (s2, respond_error 500 false "accepting order failed")
              end
        end
    end.

(** [PUT /api/orders/:id/reject?restaurant_uid=...] with body
    [{ rejection_reason }] *)
Definition rejectOrder (orderId : string) (query_restaurant_uid : option string)
    (rejection_reason : option string) (s : Server) : Server * Response :=
  let restaurant := trim <$> query_restaurant_uid in
  if missing restaurant then (s, respond_error 400 false "Restaurant UID is required")
  else if missing (trim <$> rejection_reason) then
    (s, respond_error 400 false "Rejection reason is required")
  else
    let uid := default "" restaurant in
    match validateRestaurantUid uid (db s) with
    | inl _ => (s, respond_error 500 false "rejecting order failed")
    | inr _ =>
        match select_pending_of (db s) orderId uid with
        | None => (s, respond_error 404 false "Order not found, not yours, or already processed")
        | Some _ =>
            let s1 := clear_timer (parsed_key orderId) s in
            let '(s2, affectedRows) :=
              query_update (set_rejected "rejected" (trim (default "" rejection_reason)) false)
                           orderId s1 in
            if (affectedRows =? 0)%nat then (s2, respond_error 404 false "Failed to reject order")
            else
              match select_order (db s2) orderId with
              | Some updatedOrder =>
                  let s3 := emit (Emit (restaurant_room uid) "orderRejected" updatedOrder) s2 in
                  let s4 := emit (Emit (customer_room (customer_uid updatedOrder.2))
                                       "orderStatusUpdated" updatedOrder) s3 in
                  (s4, respond 200 true "Order rejected successfully")
              | None => (s2, respond_error 500 false "rejecting order failed")
              end
        end
    end.

(** ** The generic status update *)

Definition allowed : list string :=
  ["pending"; "preparing"; "ready"; "on_the_way"; "delivered"; "cancelled"; "rejected"].

Definition allowed_has (st : string) : bool :=
  existsb (String.eqb st) allowed.

(** The two guards on an order that is currently [pending]; [None] when
    the update may go ahead. *)
Definition transition_guard (current target : string) : option string :=
  if String.eqb current "pending"
     && negb (String.eqb target "preparing") && negb (String.eqb target "rejected")
     && negb (String.eqb target "cancelled")
  then Some "Pending orders can only move to preparing, rejected, or cancelled. Use /accept or /reject endpoints."
  else if String.eqb current "pending"
          && (String.eqb target "preparing" || String.eqb target "rejected")
  then Some "Use /accept or /reject endpoints for pending orders"
  else None.

(** [PUT /api/orders/:id/status] with body [{ status }] *)
Definition updateOrderStatus (id : string) (new_status : option string) (s : Server)
  : Server * Response :=
  if missing new_status || negb (allowed_has (default "" new_status)) then
    (s, respond_error 400 false "Invalid or missing status")
  else
    let target := default "" new_status in
    match select_order (db s) id with
    | None => (s, respond_error 404 false "Order not found")
    | Some (_, currentOrder) =>
        match transition_guard (status currentOrder) target with
        | Some refusal => (s, respond_error 400 false refusal)
        | None =>
            let '(s1, affectedRows) := query_update (set_status target) id s in
            if (affectedRows =? 0)%nat then (s1, respond_error 404 false "Order not found")
            else
              match select_order (db s1) id with
              | Some updatedOrder =>
                  let uid := restaurant_uid updatedOrder.2 in
                  let s2 := emit (Emit (restaurant_room uid) "orderStatusUpdated" updatedOrder) s1 in
                  let s3 := emit (Emit (customer_room (customer_uid updatedOrder.2))
                                       "orderStatusUpdated" updatedOrder) s2 in
                  let s4 :=
                    if String.eqb target "delivered"
                       && negb (default 1 (restaurant_preferences (db s3) !! uid) =? 0)%Z
                    then emit (Push uid ("Order #" +:+ pretty updatedOrder.1 +:+ " Delivered")
                                    [("type", "orderStatusUpdated");
                                     ("orderId", pretty updatedOrder.1);
                                     ("status", "delivered")]) s3
                    else s3 in
                  (s4, respond 200 true "Status updated")
              | None => (s1, respond_error 500 false "updating order status failed")
              end
        end
    end.

(** ** Order creation *)

(** A line of the [items] array of a submission. *)
Record Item : Type := mkItem {
  item_menu_item_id : Z;
  item_quantity : Z;
}.

(** The body of [POST /api/orders].  The declared fee breakdown
    ([delivery_fee], [packing_fee], [gst_amount], [platform_fee]) is read
    from the body and never used. *)
Record Submission : Type := mkSubmission {
  sub_customer_uid : option string;
  sub_restaurant_uid : option string;
  sub_items : option (list Item);
  sub_delivery_address : option string;
  sub_payment_method : option string;
  sub_notes : option string;
  sub_customer_name : option string;
  sub_phone_number : option string;
  sub_subtotal : option Q;
  sub_total_amount : option Q;
  sub_delivery_coordinates : option json;
  sub_location_accuracy : option string;
}.

Definition missing_required_fields (r : Submission) : bool :=
  missing (sub_customer_uid r) || missing (sub_restaurant_uid r)
  || negb (bool_decide (is_Some (sub_items r)))
  || missing (sub_delivery_address r) || missing (sub_payment_method r)
  || missing (sub_customer_name r) || missing (sub_phone_number r)
  || negb (bool_decide (is_Some (sub_total_amount r))).

Fixpoint all_digits (s : string) : bool :=
  match s with
  | String c rest => is_digit c && all_digits rest
  | EmptyString => true
  end.

(** [/^\+?[0-9]{10,15}$/.test(phone)] *)
Definition valid_phone (phone : string) : bool :=
  let ds := match phone with String "+" rest => rest | _ => phone end in
  all_digits ds && (10 <=? String.length ds)%nat && (String.length ds <=? 15)%nat.

(** The checks on [delivery_coordinates]: the refusal, or the latitude
    and longitude to store. *)
Definition read_coordinates (c : option json)
  : string + (option json * option json) :=
  match c with
  | Some (JObj _ as v) | Some (JArr _ as v) =>
      let latitude := prop "latitude" (Some v) in
      let longitude := prop "longitude" (Some v) in
      match latitude, longitude with
      | Some JNull, _ | _, Some JNull => inr (latitude, longitude)
      | Some (JNum la), Some (JNum lo) =>
          if negb (Qle_bool (-90) la) || negb (Qle_bool la 90)
          then inl "Invalid latitude - must be between -90 and 90"
          else if negb (Qle_bool (-180) lo) || negb (Qle_bool lo 180)
          then inl "Invalid longitude - must be between -180 and 180"
          else inr (latitude, longitude)
      | _, _ => inl "Invalid coordinate format - must be numbers"
      end
  | _ => inr (Some JNull, Some JNull)
  end.

(** [SELECT * FROM menu_items1 WHERE id = ? AND restaurant_uid = ?
     AND is_available = 1 AND is_deleted = 0] *)
Definition select_menu_item (d : Db) (id : Z) (restaurant : string) : option MenuItem :=
  match menu_items1 d !! id with
  | Some m =>
      if String.eqb (item_restaurant_uid m) restaurant
         && (is_available m =? 1)%Z && (is_deleted m =? 0)%Z
      then Some m else None
  | None => None
  end.

(** The loop that recomputes the subtotal from the menu. *)
Fixpoint calculate_subtotal (d : Db) (restaurant : string) (items : list Item)
    (calculatedSubtotal : Q) : Exception + Q :=
  match items with
  | [] => inr calculatedSubtotal
  | item :: rest =>
      match select_menu_item d (item_menu_item_id item) restaurant with
      | None => inl (Error ("Menu item " +:+ pretty (item_menu_item_id item)
                            +:+ " not found or unavailable"))
      | Some m =>
          calculate_subtotal d restaurant rest
            (calculatedSubtotal + price m * inject_Z (item_quantity item))%Q
      end
  end.

(** [Math.abs(a - b) > t] on finite numbers. *)
Definition deviates (a b t : Q) : bool := negb (Qle_bool (Qabs (a - b)) t).

(** The fee breakdown the handler expects. *)
Record Fees : Type := mkFees {
  expectedDeliveryFee : Q;
  expectedPackingFee : Q;
  expectedGst : Q;
  expectedPlatformFee : Q;
}.

Definition expectedTotal (calculatedSubtotal : Q) (f : Fees) : Q :=
  (calculatedSubtotal + expectedDeliveryFee f + expectedPackingFee f
   + expectedGst f + expectedPlatformFee f)%Q.

(** [a >= b] *)
Definition Qgeb (a b : Q) : bool := Qle_bool b a.

(** The fee policy of [server.js]. *)
Definition expected_fees (calculatedSubtotal : Q) : Fees :=
  mkFees (if Qgeb calculatedSubtotal 500 then 0 else 0)
         0
         (calculatedSubtotal * 0.05)%Q
         0.

(** A [DECIMAL(10,2)] value as the driver returns it: rounded to two
    places, as a string. *)
Definition decimal_column (q : Q) : json :=
  let cents := Qfloor (Qabs q * 100 + (1 # 2))%Q in
  let frac := (cents mod 100)%Z in
  JStr ((if Qle_bool 0 q then "" else "-")
        +:+ pretty (cents / 100)%Z +:+ "."
        +:+ (if (frac <? 10)%Z then "0" else "") +:+ pretty frac).

(** [INSERT INTO orders ...]: the new row takes the next id. *)
Definition insert_order (o : Order) (d : Db) : Db * Z :=
  let id := next_order_id d in
  (mkDb (<[id := o]> (orders d)) (id + 1)%Z (order_items d) (restaurant_owners d)
        (restaurant_preferences d) (customers d) (menu_items1 d), id).

(** The loop of [INSERT INTO order_items ...]. *)
Definition insert_items (orderId : Z) (items : list Item) (d : Db) : Db :=
  mkDb (orders d) (next_order_id d)
       (order_items d ++ map (λ i, mkOrderItem orderId (item_menu_item_id i) (item_quantity i)) items)
       (restaurant_owners d) (restaurant_preferences d) (customers d) (menu_items1 d).

(** The checks made inside the transaction before anything is written. *)
Definition validate_submission (restaurant customer : string) (items : list Item)
    (subtotal : option Q) (total_amount : Q) (d : Db) : Exception + Q :=
  match restaurant_owners d !! restaurant with
  | None => inl (Error "Restaurant not found")
  | Some r =>
      if negb (is_online r =? 1)%Z then inl (Error "Restaurant is currently offline")
      else
        match customers d !! customer with
        | None => inl (Error "Customer not found")
        | Some _ =>
            match calculate_subtotal d restaurant items 0 with
            | inl e => inl e
            | inr calculatedSubtotal =>
                if deviates calculatedSubtotal (default 0%Q subtotal) 0.01
                then inl (Error "Subtotal mismatch")
                else if deviates (expectedTotal calculatedSubtotal (expected_fees calculatedSubtotal))
                                 total_amount 0.02
                then inl (Error "Total mismatch")
                else inr calculatedSubtotal
            end
        end
  end.

(** The row [INSERT INTO orders] writes. *)
Definition new_row (r : Submission) (latitude longitude : option json) (now : Z) : Order :=
  mkOrder (default "" (sub_customer_uid r)) (default "" (sub_restaurant_uid r))
          "payment_pending" "pending"
          (decimal_column (default 0%Q (sub_total_amount r))) None None None false
          (mkOrderDetails (default "" (sub_customer_name r))
             (default "" (sub_phone_number r))
             (default "" (sub_delivery_address r)) latitude longitude
             (Some (default "address_only" (sub_location_accuracy r)))
             (default "" (sub_payment_method r))
             (if missing (sub_notes r) then None else sub_notes r)
             (Some (now + 10000)%Z)).

(** The part of the handler between [beginTransaction] and the call of
    the gateway: the checks, then the order row in [payment_pending] and
    its line items.  It works on the connection's view [d] of the store
    and answers the new view and the new id, or what it threw. *)
Definition insert_validated_order (r : Submission) (latitude longitude : option json)
    (now : Z) (d : Db) : Exception + (Db * Z) :=
  match validate_submission (default "" (sub_restaurant_uid r))
          (default "" (sub_customer_uid r)) (default [] (sub_items r))
          (sub_subtotal r) (default 0%Q (sub_total_amount r)) d with
  | inl err => inl err
  | inr _ =>
      let '(d1, orderId) := insert_order (new_row r latitude longitude now) d in
      inr (insert_items orderId (default [] (sub_items r)) d1, orderId)
  end.

(** [POST /api/orders].  [now] is [Date.now()]; [gateway] is the answer
    of the payment gateway to the creation of its order: [None] when the
    request fails, [(payment_session_id, cf_order_id)] otherwise.  The
    amounts quoted after the colon of a mismatch message are left out. *)
Definition createOrder (r : Submission) (now : Z) (gateway : option (string * string))
    (s : Server) : Server * Response :=
  if missing_required_fields r then
    (s, respond_error 400 false "Missing required fields including total_amount")
  else if negb (valid_phone (default "" (sub_phone_number r))) then
    (s, respond_error 400 false "Invalid phone number format")
  else
    match read_coordinates (sub_delivery_coordinates r) with
    | inl refusal => (s, respond_error 400 false refusal)
    | inr (latitude, longitude) =>
        (* beginTransaction *)
        match insert_validated_order r latitude longitude now (db s) with
        | inl err =>
            (* rollback *)
            (s, respond_error 500 false (exception_message err))
        | inr (d2, orderId) =>
            match gateway with
            | Some (payment_session_id, cf_order_id) =>
                let d3 := with_orders (alter (set_payment_session payment_session_id cf_order_id) orderId) d2 in
                (* commit *)
                (with_db (λ _, d3) s, respond 201 true "Order created, proceed to payment")
            | None =>
                let d3 := with_orders (alter (set_status_payment "cancelled" "failed") orderId) d2 in
                (* commit *)
                (with_db (λ _, d3) s,
                 respond_error 500 false "Payment processing unavailable. Please try again.")
            end
        end
    end.

(** ** The older duplicate of the order creation

    The second server file keeps an earlier [POST /api/orders]: no
    coordinates, no check that the restaurant is online, and a fee policy
    of its own. *)

Module Legacy.

(** The fee policy of the older flow. *)
Definition expected_fees (calculatedSubtotal : Q) : Fees :=
  mkFees (if Qgeb calculatedSubtotal 500 then 0 else 20)
         5
         (calculatedSubtotal * 0.05)%Q
         (if Qgeb calculatedSubtotal 300 then 0 else 2).

Definition validate_submission (restaurant customer : string) (items : list Item)
    (subtotal : option Q) (total_amount : Q) (d : Db) : Exception + Q :=
  match restaurant_owners d !! restaurant with
  | None => inl (Error "Restaurant not found")
  | Some _ =>
      match customers d !! customer with
      | None => inl (Error "Customer not found")
      | Some _ =>
          match calculate_subtotal d restaurant items 0 with
          | inl e => inl e
          | inr calculatedSubtotal =>
              if deviates calculatedSubtotal (default 0%Q subtotal) 0.01
              then inl (Error "Subtotal mismatch")
              else if deviates (expectedTotal calculatedSubtotal (expected_fees calculatedSubtotal))
                               total_amount 0.02
              then inl (Error "Total amount mismatch")
              else inr calculatedSubtotal
          end
      end
  end.

(** The row the older flow inserts: the columns it does not name keep
    their defaults. *)
Definition new_row (r : Submission) : Order :=
  mkOrder (default "" (sub_customer_uid r)) (default "" (sub_restaurant_uid r))
          "payment_pending" "pending"
          (decimal_column (default 0%Q (sub_total_amount r))) None None None false
          (mkOrderDetails (default "" (sub_customer_name r))
             (default "" (sub_phone_number r))
             (default "" (sub_delivery_address r)) None None None
             (default "" (sub_payment_method r))
             (if missing (sub_notes r) then None else sub_notes r)
             None).

Definition insert_validated_order (r : Submission) (d : Db) : Exception + (Db * Z) :=
  match validate_submission (default "" (sub_restaurant_uid r))
          (default "" (sub_customer_uid r)) (default [] (sub_items r))
          (sub_subtotal r) (default 0%Q (sub_total_amount r)) d with
  | inl err => inl err
  | inr _ =>
      let '(d1, orderId) := insert_order (new_row r) d in
      inr (insert_items orderId (default [] (sub_items r)) d1, orderId)
  end.

Definition createOrder (r : Submission) (gateway : option (string * string))
    (s : Server) : Server * Response :=
  if missing_required_fields r then
    (s, respond_error 400 false "Missing required fields including total_amount")
  else if negb (valid_phone (default "" (sub_phone_number r))) then
    (s, respond_error 400 false "Invalid phone number format")
  else
    match insert_validated_order r (db s) with
    | inl err => (s, respond_error 500 false (exception_message err))
    | inr (d2, orderId) =>
        match gateway with
        | Some (payment_session_id, cf_order_id) =>
            let d3 := with_orders (alter (set_payment_session payment_session_id cf_order_id) orderId) d2 in
            (with_db (λ _, d3) s, respond 201 true "Order created, proceed to payment")
        | None =>
            let d3 := with_orders (alter (set_status_payment "cancelled" "failed") orderId) d2 in
            (with_db (λ _, d3) s,
             respond_error 500 false "Payment processing unavailable. Please try again.")
        end
    end.

End Legacy.

(** ** Runs of the process *)

(** One confirmation attempt, with what the outside world answers. *)
Inductive Call : Type :=
| VerifyCall (orderId : string) (gateway : option json)
| WebhookCall (body : Body).

Definition run_call (c : Call) (s : Server) : Server * Response :=
  match c with
  | VerifyCall orderId gateway => verifyPayment orderId gateway s
  | WebhookCall body => webhookPaymentEvent body s
  end.

(** The id of the order a call is for: the id its order parameter
    selects. *)
Definition call_target (c : Call) : option Z :=
  match c with
  | VerifyCall orderId _ => id_of_param orderId
  | WebhookCall body =>
      if body_is_empty body then None
      else
        orderId ← extract_order_id (body_value body);
        if String.eqb orderId "" then None else id_of_param orderId
  end.

Fixpoint run_calls (cs : list Call) (s : Server) : Server * list Response :=
  match cs with
  | [] => (s, [])
  | c :: rest =>
      let '(s1, r) := run_call c s in
      let '(s2, rs) := run_calls rest s1 in
      (s2, r :: rs)
  end.

(** The answer of the idempotency short-circuit. *)
Definition already_processed (r : Response) : Prop :=
  http_status r = 200%nat ∧ success r = true ∧
  (message r = Some "Payment already verified" ∨
   message r = Some "Payment already processed").

(** Every operation on the state of the process: the handlers above, a
    timer that fires, and any other endpoint, which only touches the
    store. *)
Inductive Op : Type :=
| OpCreate (r : Submission) (now : Z) (gateway : option (string * string))
| OpVerify (orderId : string) (gateway : option json)
| OpWebhook (body : Body)
| OpAccept (orderId : string) (query_restaurant_uid : option string)
| OpReject (orderId : string) (query_restaurant_uid rejection_reason : option string)
| OpStatus (id : string) (new_status : option string)
| OpFire (h : nat)
| OpStore (f : Db → Db).

Definition run_op (op : Op) (s : Server) : Server :=
  match op with
  | OpCreate r now gateway => (createOrder r now gateway s).1
  | OpVerify orderId gateway => (verifyPayment orderId gateway s).1
  | OpWebhook body => (webhookPaymentEvent body s).1
  | OpAccept orderId uid => (acceptOrder orderId uid s).1
  | OpReject orderId uid reason => (rejectOrder orderId uid reason s).1
  | OpStatus id st => (updateOrderStatus id st s).1
  | OpFire h => fire h s
  | OpStore f => with_db f s
  end.

(** The states the process can be in: it starts with no timer and has
    emitted nothing. *)
Inductive reachable : Server → Prop :=
| reachable_start (d : Db) : reachable (mkServer d ∅ ∅ 0 [])
| reachable_step (op : Op) (s : Server) : reachable s → reachable (run_op op s).

(** Every key of the timer map is a string. *)
Definition string_keyed (s : Server) : Prop :=
  ∀ k, is_Some (orderTimers s !! k) → ∃ str, k = KString str.

(** ** Valid submissions *)

(** The submission gets through the checks made before the transaction. *)
Definition well_formed (r : Submission) (latitude longitude : option json) : Prop :=
  missing_required_fields r = false
  ∧ valid_phone (default "" (sub_phone_number r)) = true
  ∧ read_coordinates (sub_delivery_coordinates r) = inr (latitude, longitude).

(** The restaurant is there and online, the customer is there, and every
    line is an available item of the restaurant: the menu gives the
    subtotal [calculatedSubtotal]. *)
Definition orderable (r : Submission) (d : Db) (calculatedSubtotal : Q) : Prop :=
  (∃ rest, restaurant_owners d !! default "" (sub_restaurant_uid r) = Some rest
           ∧ is_online rest = 1)
  ∧ is_Some (customers d !! default "" (sub_customer_uid r))
  ∧ calculate_subtotal d (default "" (sub_restaurant_uid r)) (default [] (sub_items r)) 0
    = inr calculatedSubtotal.

(** The same for the older flow, which does not ask for the restaurant
    to be online. *)
Definition legacy_orderable (r : Submission) (d : Db) (calculatedSubtotal : Q) : Prop :=
  is_Some (restaurant_owners d !! default "" (sub_restaurant_uid r))
  ∧ is_Some (customers d !! default "" (sub_customer_uid r))
  ∧ calculate_subtotal d (default "" (sub_restaurant_uid r)) (default [] (sub_items r)) 0
    = inr calculatedSubtotal.

(** The submission with another declared total. *)
Definition with_total (t : Q) (r : Submission) : Submission :=
  mkSubmission (sub_customer_uid r) (sub_restaurant_uid r) (sub_items r)
               (sub_delivery_address r) (sub_payment_method r) (sub_notes r)
               (sub_customer_name r) (sub_phone_number r) (sub_subtotal r) (Some t)
               (sub_delivery_coordinates r) (sub_location_accuracy r).

(** ** The wording of the specification *)

(** The moves the transition table of the specification grants to the
    generic update: out of [pending] and [payment_pending] only to
    [cancelled], forward along [preparing], [ready], [on_the_way],
    [delivered], and from any state that is not terminal to [cancelled]. *)
Definition spec_generic_transitions : list (string * string) :=
  [("payment_pending", "cancelled"); ("pending", "cancelled");
   ("preparing", "ready"); ("ready", "on_the_way"); ("on_the_way", "delivered");
   ("preparing", "cancelled"); ("ready", "cancelled"); ("on_the_way", "cancelled")].

Definition spec_generic_transition (current target : string) : bool :=
  existsb (λ p, String.eqb current p.1 && String.eqb target p.2) spec_generic_transitions.

(** Modelled from the spec: the absent [validatePaymentSecurity], as
    section 4.4 step 3 words it: the amount is validated against the
    order's stored total with a tolerance of 0.02. *)
Definition spec_validatePaymentSecurity : Validator :=
  λ order paymentAmount _,
    mkValidation
      (negb (gt (abs (sub paymentAmount (parseFloat (Some (total_price order.2))))) 0.02))
      false.

(** ** Sample data

    Restaurant [rest1] sells item 1 at 240 and item 2 at 60; customer
    [cust1] has placed order 7, stored with the total 529.00. *)

Definition sample_details : OrderDetails :=
  mkOrderDetails "Asha" "9876543210" "12 Lake Road" (Some JNull) (Some JNull)
                 (Some "address_only") "upi" None (Some 1700000010000).

Definition sample_order (st ps : string) : Order :=
  mkOrder "cust1" "rest1" st ps (JStr "529.00") (Some "sess") (Some "cf7") None false
          sample_details.

Definition sample_db (o : Order) (online : Z) : Db :=
  mkDb {[ 7 := o ]} 8 [] {[ "rest1" := mkRestaurant online ]} ∅
       {[ "cust1" := "asha@example.com" ]}
       {[ 1 := mkMenuItem "rest1" 240 1 0; 2 := mkMenuItem "rest1" 60 1 0 ]}.

(** The process just started on a store that holds order 7 as [o]. *)
Definition sample_server (o : Order) (online : Z) : Server :=
  mkServer (sample_db o online) ∅ ∅ 0 [].

(** Order 7 awaits payment. *)
Definition unpaid_server (online : Z) : Server :=
  sample_server (sample_order "payment_pending" "pending") online.

(** Order 7 is paid and waits for the restaurant. *)
Definition paid_server : Server := sample_server (sample_order "pending" "success") 1.

(** The payment of order 7 has failed. *)
Definition failed_server : Server := sample_server (sample_order "cancelled" "failed") 1.

(** Order 7 has been delivered. *)
Definition delivered_server : Server := sample_server (sample_order "delivered" "success") 1.

(** Two of item 1: a subtotal of 480. *)
Definition sample_submission (total : Q) : Submission :=
  mkSubmission (Some "cust1") (Some "rest1") (Some [mkItem 1 2]) (Some "12 Lake Road")
               (Some "upi") None (Some "Asha") (Some "9876543210") (Some 480%Q) (Some total)
               None None.

Definition sample_success_body : Body :=
  BodyObject [("data", JObj [("order", JObj [("order_id", JStr "order_7")]);
                             ("payment", JObj [("payment_status", JStr "SUCCESS");
                                               ("payment_amount", JNum 529)])])].

Definition sample_mismatch_body : Body :=
  BodyObject [("data", JObj [("order", JObj [("order_id", JStr "order_7")]);
                             ("payment", JObj [("payment_status", JStr "SUCCESS");
                                               ("payment_amount", JNum 100)])])].

Definition sample_body_without_amount : Body :=
  BodyObject [("order_id", JStr "order_7"); ("payment_status", JStr "SUCCESS")].

Definition sample_pending_body : Body :=
  BodyObject [("order_id", JStr "order_7"); ("payment_status", JStr "PENDING")].

Definition sample_gateway_success : option json :=
  Some (JArr [JObj [("payment_status", JStr "FAILED"); ("payment_amount", JNum 529)];
              JObj [("payment_status", JStr "SUCCESS"); ("payment_amount", JNum 529)]]).

(** The state after the webhook has confirmed the payment of order 7 and
    notified the restaurant. *)
Definition notified_server : Server :=
  (webhookPaymentEvent sample_body_without_amount (unpaid_server 1)).1.

(** ** The order at the gateway, and the columns of a payment *)


(** The columns of an order that only the payment paths write. *)
Definition payment_columns (o : Order) : string * json * option string * option string :=
  (payment_status o, total_price o, payment_session_id o, payment_id o).

(** The restaurant's side of the lifecycle: accept, reject, the generic
    status update, and the auto-reject timer. *)
Definition restaurant_side (op : Op) : bool :=
  match op with
  | OpAccept _ _ | OpReject _ _ _ | OpStatus _ _ | OpFire _ => true
  | _ => false
  end.

(** ** The restaurant's settings and its menu *)

Definition with_restaurants (f : gmap string Restaurant → gmap string Restaurant)
    (d : Db) : Db :=
  mkDb (orders d) (next_order_id d) (order_items d) (f (restaurant_owners d))
       (restaurant_preferences d) (customers d) (menu_items1 d).

Definition with_preferences (f : gmap string Z → gmap string Z) (d : Db) : Db :=
  mkDb (orders d) (next_order_id d) (order_items d) (restaurant_owners d)
       (f (restaurant_preferences d)) (customers d) (menu_items1 d).

Definition with_menu (f : gmap Z MenuItem → gmap Z MenuItem) (d : Db) : Db :=
  mkDb (orders d) (next_order_id d) (order_items d) (restaurant_owners d)
       (restaurant_preferences d) (customers d) (f (menu_items1 d)).

(** [validateRestaurantUid(uid)] from its first line on: a blank [uid]
    is refused before the store is asked. *)
Definition validateRestaurantUid_guarded (uid : string) (d : Db) : Exception + unit :=
  if String.eqb uid "" || String.eqb (trim uid) ""
  then inl (Error "Restaurant UID is required and must be a non-empty string")
  else validateRestaurantUid uid d.

(** [PUT /api/restaurants/:uid/status] with body [{ is_online }] *)
Definition updateRestaurantStatus (uid : string) (is_online : option json) (s : Server)
  : Server * Response :=
  match is_online with
  | None | Some JNull => (s, respond_error 400 false "is_online field is required")
  | Some _ =>
      let trimmedUid := trim uid in
      let isOnlineValue := if truthy is_online then 1 else 0 in
      match restaurant_owners (db s) !! trimmedUid with
      | None => (s, respond_error 404 false ("Restaurant not found for UID: " +:+ trimmedUid))
      | Some _ =>
          (with_db (with_restaurants (insert trimmedUid (mkRestaurant isOnlineValue))) s,
           respond 200 true "Restaurant status updated successfully")
      end
  end.

(** The value of [order_notifications] when it is [=== 0] or [=== 1]. *)
Definition zero_or_one (v : option json) : option Z :=
  match v with
  | Some (JNum q) =>
      if Qeq_bool q 0 then Some 0 else if Qeq_bool q 1 then Some 1 else None
  | _ => None
  end.

(** [PUT /api/restaurants/:uid/notification-preferences] with body
    [{ order_notifications }] *)
Definition updateNotificationPreferences (uid : string) (order_notifications : option json)
    (s : Server) : Server * Response :=
  match zero_or_one order_notifications with
  | None => (s, respond_error 400 false "order_notifications must be 0 or 1")
  | Some v =>
      let trimmedUid := trim uid in
      match validateRestaurantUid_guarded trimmedUid (db s) with
      | inl _ => (s, respond_error 500 false "updating notification preferences failed")
      | inr _ =>
          (with_db (with_preferences (insert trimmedUid v)) s,
           respond 200 true "Notification preferences updated")
      end
  end.

(** [GET /api/restaurants/:uid/notification-preferences]: the answer and
    its [data.order_notifications]. *)
Definition getNotificationPreferences (uid : string) (s : Server) : Response * option Z :=
  let trimmedUid := trim uid in
  match validateRestaurantUid_guarded trimmedUid (db s) with
  | inl _ => (respond_error 500 false "fetching notification preferences failed", None)
  | inr _ =>
      let orderNotifications :=
        match restaurant_preferences (db s) !! trimmedUid with
        | Some v => if (v =? 0)%Z then 0 else 1
        | None => 1
        end in
      (mkResponse 200 true None None, Some orderNotifications)
  end.

(** [SELECT id FROM menu_items1 WHERE id = ? AND restaurant_uid = ? AND is_deleted = 0] *)
Definition select_live_item (d : Db) (id restaurant : string) : option (Z * MenuItem) :=
  i ← id_of_param id;
  m ← menu_items1 d !! i;
  if String.eqb (item_restaurant_uid m) restaurant && (is_deleted m =? 0)%Z
  then Some (i, m) else None.

(** [UPDATE menu_items1 SET ... WHERE id=? AND restaurant_uid=?], with
    [AND is_deleted=0] when [live] is set; the second component is
    [affectedRows]. *)
Definition update_menu_item (f : MenuItem → MenuItem) (live : bool)
    (id restaurant : string) (d : Db) : Db * nat :=
  match id_of_param id with
  | Some i =>
      match menu_items1 d !! i with
      | Some m =>
          if String.eqb (item_restaurant_uid m) restaurant
             && (negb live || (is_deleted m =? 0)%Z)
          then (with_menu (insert i (f m)) d, 1%nat)
          else (d, 0%nat)
      | None => (d, 0%nat)
      end
  | None => (d, 0%nat)
  end.

(** [SET is_available=?] *)
Definition set_available (v : Z) (m : MenuItem) : MenuItem :=
  mkMenuItem (item_restaurant_uid m) (price m) v (is_deleted m).

(** [SET is_deleted=1, is_available=0] *)
Definition set_deleted (m : MenuItem) : MenuItem :=
  mkMenuItem (item_restaurant_uid m) (price m) 0 1.

(** [PATCH /api/menu/:id/availability?restaurant_uid=...] with body
    [{ is_available }] *)
Definition updateAvailability (id : string) (is_available : option json)
    (query_restaurant_uid : option string) (s : Server) : Server * Response :=
  let restaurant := trim <$> query_restaurant_uid in
  if negb (bool_decide (is_Some is_available)) || missing restaurant then
    (s, respond_error 400 false "is_available and restaurant_uid are required")
  else
    let uid := default "" restaurant in
    match validateRestaurantUid uid (db s) with
    | inl _ => (s, respond_error 500 false "updating availability failed")
    | inr _ =>
        let '(d, affectedRows) :=
          update_menu_item (set_available (if truthy is_available then 1 else 0)) true
                           id uid (db s) in
        if (affectedRows =? 0)%nat
        then (s, respond_error 404 false "Menu item not found or deleted")
        else (with_db (λ _, d) s, respond 200 true "Availability updated")
    end.

(** [DELETE /api/menu/:id?restaurant_uid=...]: a soft delete. *)
Definition deleteMenuItem (id : string) (query_restaurant_uid : option string)
    (s : Server) : Server * Response :=
  let restaurant := trim <$> query_restaurant_uid in
  if missing restaurant then (s, respond_error 400 false "Restaurant UID is required")
  else
    let uid := default "" restaurant in
    match validateRestaurantUid uid (db s) with
    | inl _ => (s, respond_error 500 false "deleting menu item failed")
    | inr _ =>
        match select_live_item (db s) id uid with
        | None => (s, respond_error 404 false "Menu item not found or already deleted")
        | Some _ =>
            let '(d, affectedRows) := update_menu_item set_deleted false id uid (db s) in
            if (affectedRows =? 0)%nat
            then (s, respond_error 404 false "Menu item not found or already deleted")
            else (with_db (λ _, d) s, respond 200 true "Menu item deleted")
        end
    end.

(** A call of one of the two endpoints that change an existing menu
    item's availability. *)
Inductive MenuCall : Type :=
| AvailabilityCall (id : string) (is_available : option json)
    (query_restaurant_uid : option string)
| DeleteCall (id : string) (query_restaurant_uid : option string).

Definition run_menu_call (c : MenuCall) (s : Server) : Server :=
  match c with
  | AvailabilityCall id v uid => (updateAvailability id v uid s).1
  | DeleteCall id uid => (deleteMenuItem id uid s).1
  end.

Definition run_menu_calls (cs : list MenuCall) (s : Server) : Server :=
  fold_left (λ s c, run_menu_call c s) cs s.

(** ** Customers and their saved addresses

    The [address] column of [customers] is a [TEXT] that holds
    [JSON.stringify] of the list of addresses.  It is kept here as the
    value that text denotes ([JSON.parse] undoes [JSON.stringify] on the
    values a request body can hold); [None] stands for [NULL], the empty
    text, and text that does not parse. *)

Module Customers.

Record Customer : Type := mkCustomer {
  name : string;
  email : string;
  phone : string;
  address : option json;
}.

(** [SET address = ?] *)
Definition set_address (a : json) (c : Customer) : Customer :=
  mkCustomer (name c) (email c) (phone c) (Some a).

(** [parseJsonSafe(value, fallback)] on such a column. *)
Definition parseJsonSafe (value : option json) (fallback : json) : json :=
  default fallback value.

(** The [map] of [validateAddresses], from index [i] on. *)
Fixpoint validate_each (i : nat) (addresses : list json) : Exception + list string :=
  match addresses with
  | [] => inr []
  | addr :: rest =>
      match addr with
      | JStr a =>
          if String.eqb (trim a) ""
          then inl (Error ("Address at index " +:+ pretty i +:+ " must be a non-empty string"))
          else match validate_each (S i) rest with
               | inl e => inl e
               | inr validated => inr (trim a :: validated)
               end
      | _ => inl (Error ("Address at index " +:+ pretty i +:+ " must be a non-empty string"))
      end
  end.

(** [validateAddresses(addresses)] *)
Definition validateAddresses (addresses : option json) : Exception + list string :=
  match addresses with
  | None => inr []
  | Some (JArr items) =>
      if (3 <? length items)%nat then inl (Error "Maximum 3 addresses allowed")
      else validate_each 0 items
  | Some _ => inl (Error "Addresses must be an array")
  end.

(** [POST /api/customers] with body [{ uid, name, email, phone, addresses }] *)
Definition registerCustomer (uid name email phone : option string)
    (addresses : option json) (t : gmap string Customer) : gmap string Customer * Response :=
  if missing uid || missing name || missing email then
    (t, respond_error 400 false "UID, name, and email are required")
  else
    match validateAddresses (if truthy addresses then addresses else Some (JArr [])) with
    | inl _ => (t, respond_error 500 false "registering/updating customer failed")
    | inr validatedAddresses =>
        let row := mkCustomer (default "" name) (default "" email)
                              (if missing phone then "" else default "" phone)
                              (Some (JArr (JStr <$> validatedAddresses))) in
        match t !! default "" uid with
        | Some _ => (<[default "" uid := row]> t, respond 200 true "Customer updated")
        | None => (<[default "" uid := row]> t, respond 201 true "Customer registered")
        end
    end.


(** [POST /api/customers/:uid/addresses] with body [{ address }] *)
Definition addAddress (uid : string) (new_address : option json) (t : gmap string Customer)
  : gmap string Customer * Response :=
  match new_address with
  | Some (JStr a) =>
      if String.eqb (trim a) "" then
        (t, respond_error 400 false "Address must be a non-empty string")
      else
        match t !! uid with
        | None => (t, respond_error 404 false "Customer not found")
        | Some c =>
            match parseJsonSafe (address c) (JArr []) with
            | JArr current =>
                if (3 <=? length current)%nat then
                  (t, respond_error 400 false "Maximum 3 addresses allowed")
                else
                  (<[uid := set_address (JArr (current ++ [JStr (trim a)])) c]> t,
                   respond 200 true "Address added")
            | _ => (t, respond_error 500 false "Invalid stored address format")
            end
        end
  | _ => (t, respond_error 400 false "Address must be a non-empty string")
  end.

(** [Number.parseInt(s, 10)]; [None] is [NaN]. *)
Definition parseInt10 (s : string) : option Z :=
  let '(neg, r) := read_sign (skip_spaces s) in
  let '(ds, _) := span_digits r in
  if String.eqb ds "" then None
  else Some (if neg then - digits_to_Z 0 ds else digits_to_Z 0 ds).

(** [DELETE /api/customers/:uid/addresses/:index] *)
Definition removeAddress (uid index : string) (t : gmap string Customer) : gmap string Customer * Response :=
  match parseInt10 index with
  | None => (t, respond_error 400 false "Invalid index")
  | Some idx =>
      if (idx <? 0)%Z then (t, respond_error 400 false "Invalid index")
      else
        match t !! uid with
        | None => (t, respond_error 404 false "Customer not found")
        | Some c =>
            match parseJsonSafe (address c) (JArr []) with
            | JArr current =>
                if (Z.of_nat (length current) <=? idx)%Z then
                  (t, respond_error 400 false "Index out of range")
                else
                  (<[uid := set_address (JArr (delete (Z.to_nat idx) current)) c]> t,
                   respond 200 true "Address removed")
            | _ => (t, respond_error 500 false "Invalid stored address format")
            end
        end
  end.

(** [PUT /api/customers/:uid/addresses-only] with body [{ addresses }] *)
Definition replaceAddresses (uid : string) (addresses : option json) (t : gmap string Customer)
  : gmap string Customer * Response :=
  match addresses with
  | Some (JArr items) =>
      if (3 <? length items)%nat then
        (t, respond_error 400 false "Maximum 3 addresses allowed")
      else
        let trimmedUid := trim uid in
        match t !! trimmedUid with
        | None =>
            (t, respond_error 404 false "Customer not found. Please complete your profile first.")
        | Some c =>
            (<[trimmedUid := set_address (JArr items) c]> t,
             respond 200 true "Addresses updated successfully")
        end
  | _ => (t, respond_error 400 false "Addresses must be provided as an array")
  end.

(** A request to one of the endpoints that write the table. *)
Inductive Request : Type :=
| Register (uid name email phone : option string) (addresses : option json)
| AddAddress (uid : string) (new_address : option json)
| RemoveAddress (uid index : string)
| ReplaceAddresses (uid : string) (addresses : option json).

Definition handle (q : Request) (t : gmap string Customer) : gmap string Customer * Response :=
  match q with
  | Register uid name email phone addresses => registerCustomer uid name email phone addresses t
  | AddAddress uid a => addAddress uid a t
  | RemoveAddress uid index => removeAddress uid index t
  | ReplaceAddresses uid addresses => replaceAddresses uid addresses t
  end.

(** No customer has more than three saved addresses. *)
Definition bounded (t : gmap string Customer) : Prop :=
  ∀ uid c items, t !! uid = Some c → address c = Some (JArr items) → (length items ≤ 3)%nat.

End Customers.

(** ** Verification of a restaurant

    The columns of [restaurant_owners] the three verification endpoints
    read and write, by [uid]. *)

Module Verification.

Record Status : Type := mkStatus {
  verification_status : string;
  documents_submitted : Z;
  verification_notes : option string;
}.

(** [POST /api/restaurants/:uid/documents-submitted] *)
Definition documentsSubmitted (uid : string) (t : gmap string Status) : gmap string Status * Response :=
  let trimmedUid := trim uid in
  match t !! trimmedUid with
  | None => (t, respond_error 404 false ("Restaurant not found for UID: " +:+ trimmedUid))
  | Some st =>
      (<[trimmedUid := mkStatus (verification_status st) 1 (verification_notes st)]> t,
       respond 200 true "Documents submission recorded successfully")
  end.

(** The [data] of [GET /api/restaurants/:uid/verification-status]. *)
Record StatusData : Type := mkStatusData {
  data_verification_status : string;
  data_documents_submitted : bool;
  can_access_dashboard : bool;
}.

(** [GET /api/restaurants/:uid/verification-status] *)
Definition verificationStatus (uid : string) (t : gmap string Status) : Response * option StatusData :=
  let trimmedUid := trim uid in
  match t !! trimmedUid with
  | None => (respond_error 404 false ("Restaurant not found for UID: " +:+ trimmedUid), None)
  | Some st =>
      (mkResponse 200 true None None,
       Some (mkStatusData (verification_status st) (documents_submitted st =? 1)%Z
                          (String.eqb (verification_status st) "verified")))
  end.

(** [s] between double quotes. *)
Definition quoted (s : string) : string :=
  String (ascii_of_nat 34) (s +:+ String (ascii_of_nat 34) EmptyString).

Definition invalid_status : string :=
  "Invalid verification status. Must be " +:+ quoted "verified" +:+ " or "
  +:+ quoted "rejected".

(** [PUT /api/admin/restaurants/:uid/verification] with body
    [{ verification_status, verification_notes }]; the third component
    is the room [verificationStatusUpdated] is emitted to and the status
    it carries. *)
Definition adminVerification (uid : string) (new_status : option json)
    (notes : option string) (t : gmap string Status) : gmap string Status * Response * option (string * string) :=
  match new_status with
  | Some (JStr status) =>
      if String.eqb status "verified" || String.eqb status "rejected" then
        let trimmedUid := trim uid in
        match t !! trimmedUid with
        | None =>
            (t, respond_error 404 false ("Restaurant not found for UID: " +:+ trimmedUid), None)
        | Some st =>
            if negb (documents_submitted st =? 1)%Z then
              (t, respond_error 400 false "Cannot verify restaurant without submitted documents",
               None)
            else
              (<[trimmedUid := mkStatus status (documents_submitted st)
                                        (if missing notes then None else notes)]> t,
               respond 200 true ("Restaurant " +:+ status +:+ " successfully"),
               Some (restaurant_room trimmedUid, status))
        end
      else (t, respond_error 400 false invalid_status, None)
  | _ => (t, respond_error 400 false invalid_status, None)
  end.

(** A request to one of the two endpoints that write these columns. *)
Inductive Request : Type :=
| DocumentsSubmitted (uid : string)
| AdminVerification (uid : string) (new_status : option json) (notes : option string).

Definition handle (q : Request) (t : gmap string Status) : gmap string Status :=
  match q with
  | DocumentsSubmitted uid => (documentsSubmitted uid t).1
  | AdminVerification uid new_status notes => (adminVerification uid new_status notes t).1.1
  end.

(** Every verified restaurant has its documents on file. *)
Definition documented (t : gmap string Status) : Prop :=
  ∀ uid st, t !! uid = Some st →
            verification_status st = "verified" → documents_submitted st = 1.

End Verification.

(** ** The older duplicates of the payment paths and of the status update

    The second server file keeps earlier versions of verify-payment, of
    the webhook and of [PUT /api/orders/:id/status]. *)

Module LegacyFlow.

(** [payments.find(p => p.payment_status === 'SUCCESS')]: reading
    [payment_status] of a [null] attempt throws. *)
Fixpoint find_success (payments : list json) : Exception + option json :=
  match payments with
  | [] => inr None
  | p :: rest =>
      if is_null p
      then inl (TypeError "Cannot read properties of null (reading 'payment_status')")
      else if is_string "SUCCESS" (prop "payment_status" (Some p)) then inr (Some p)
      else find_success rest
  end.

(** [SELECT * FROM orders WHERE id = ? AND payment_status = 'pending'] *)
Definition select_unpaid (d : Db) (orderId : string) : option Row :=
  match select_order d orderId with
  | Some (id, o) => if String.eqb (payment_status o) "pending" then Some (id, o) else None
  | None => None
  end.

(** The older [POST /api/orders/:orderId/verify-payment]. *)
Definition verifyPayment (orderId : string) (gateway : option json) (s : Server)
  : Server * Response :=
  match select_unpaid (db s) orderId with
  | None => (s, respond_error 404 false "Order not found or already processed")
  | Some (_, order) =>
      match gateway with
      | Some (JArr payments) =>
          match find_success payments with
          | inl _ => (s, respond_error 500 false "Failed to verify payment")
          | inr (Some _) =>
              let '(s1, _) := query_update (set_status_payment "pending" "success") orderId s in
              match select_order (db s1) orderId with
              | Some updatedOrder =>
                  (emit (Emit (restaurant_room (restaurant_uid order)) "newOrder" updatedOrder) s1,
                   respond 200 true "Payment verified successfully")
              | None => (s1, respond 200 true "Payment verified successfully")
              end
          | inr None => (s, respond 200 false "Payment not completed")
          end
      | _ => (s, respond_error 500 false "Failed to verify payment")
      end
  end.

(** The status mapping of the older webhook:
    [(dbPaymentStatus, dbOrderStatus)]. *)
Definition map_payment_status (paymentStatus : option json) : string * string :=
  if is_string "SUCCESS" paymentStatus || is_string "PAID" paymentStatus
  then ("success", "pending")
  else if is_string "FAILED" paymentStatus || is_string "FAILED" paymentStatus
  then ("failed", "cancelled")
  else if is_string "CANCELLED" paymentStatus then ("cancelled", "cancelled")
  else ("pending", "pending").

(** The older [POST /api/cashfree/webhook]. *)
Definition webhookPaymentEvent (body : Body) (s : Server) : Server * Response :=
  if body_is_empty body then (s, respond 200 true "Webhook endpoint is working")
  else
    let payload := body_value body in
    let paymentStatus := extract_payment_status payload in
    match extract_order_id payload with
    | None => (s, respond_error 200 true "No order ID found")
    | Some orderId =>
        if String.eqb orderId "" then (s, respond_error 200 true "No order ID found")
        else
          let '(dbPaymentStatus, dbOrderStatus) := map_payment_status paymentStatus in
          let '(s1, affectedRows) :=
            query_update (set_status_payment dbOrderStatus dbPaymentStatus) orderId s in
          let s' :=
            if (0 <? affectedRows)%nat then
              match select_order (db s1) orderId with
              | Some order =>
                  emit (Emit (customer_room (customer_uid order.2)) "orderStatusUpdated" order)
                    (emit (Emit (restaurant_room (restaurant_uid order.2)) "orderStatusUpdated"
                                order) s1)
              | None => s1
              end
            else s1 in
          (s', respond 200 true "Webhook processed")
    end.

Definition allowed : list string :=
  ["pending"; "preparing"; "ready"; "on_the_way"; "delivered"; "cancelled"].

(** The older [PUT /api/orders/:id/status]. *)
Definition updateOrderStatus (id : string) (new_status : option string) (s : Server)
  : Server * Response :=
  if missing new_status || negb (existsb (String.eqb (default "" new_status)) allowed) then
    (s, respond_error 400 false "Invalid or missing status")
  else
    match select_order (db s) id with
    | None => (s, respond_error 404 false "Order not found")
    | Some _ =>
        let '(s1, affectedRows) := query_update (set_status (default "" new_status)) id s in
        if (affectedRows =? 0)%nat then (s1, respond_error 404 false "Order not found")
        else
          match select_order (db s1) id with
          | Some updatedOrder =>
              (emit (Emit (customer_room (customer_uid updatedOrder.2)) "orderStatusUpdated"
                          updatedOrder)
                 (emit (Emit (restaurant_room (restaurant_uid updatedOrder.2))
                             "orderStatusUpdated" updatedOrder) s1),
               respond 200 true "Status updated")
          | None => (s1, respond_error 500 false "updating order status failed")
          end
    end.

End LegacyFlow.

(** ** Push notifications

    [sendFCMNotification] against the [device_tokens] table.  What the
    messaging service answers to a multicast is a parameter; the answer
    to a single [send] is only logged. *)

Module Notifications.

(** A row of [device_tokens]; a [NULL] token is [None]. *)
Record DeviceToken : Type := mkDeviceToken {
  token_restaurant_uid : string;
  token : option string;
}.

(** One entry of [response.responses]: [success] and [error?.code]. *)
Record SendResponse : Type := mkSendResponse {
  delivered : bool;
  error_code : option string;
}.

(** What [sendMulticast] resolves to. *)
Record BatchResponse : Type := mkBatchResponse {
  failureCount : nat;
  responses : list SendResponse;
}.

(** A message handed to the messaging service. *)
Inductive Message : Type :=
| Single (to : string) (title body : string) (data : gmap string string)
| Multicast (to : list string) (title body : string) (data : gmap string string).

(** [v === undefined || v === null ? "" : String(v)] *)
Definition string_of (v : option json) : string :=
  match v with
  | None | Some JNull => ""
  | Some w => toString w
  end.

(** [normalizedData.k = normalizedData.k || (data?.k ? String(data.k) : "")] *)
Definition ensure_key (data : list (string * json)) (k : string)
    (normalizedData : gmap string string) : gmap string string :=
  let current := default "" (normalizedData !! k) in
  <[k := if negb (String.eqb current "") then current
         else if truthy (assoc k data) then string_of (assoc k data) else ""]>
    normalizedData.

(** The data of a message: every value as a string, and the keys
    [orderId], [type] and [status] present. *)
Definition normalize (data : list (string * json)) : gmap string string :=
  let normalizedData :=
    fold_left (λ m k, <[k := string_of (assoc k data)]> m) (fst <$> data) ∅ in
  ensure_key data "status" (ensure_key data "type" (ensure_key data "orderId" normalizedData)).

(** [rows.map((r) => r.token).filter(Boolean)] *)
Definition valid_tokens (rows : list DeviceToken) : list string :=
  omap (λ r, match token r with
             | Some t => if String.eqb t "" then None else Some t
             | None => None
             end) rows.

Definition not_registered : string := "messaging/registration-token-not-registered".

(** The tokens the multicast reported as no longer registered. *)
Fixpoint failed_tokens (tokens : list string) (i : nat) (rs : list SendResponse)
  : list string :=
  match rs with
  | [] => []
  | r :: rest =>
      let later := failed_tokens tokens (S i) rest in
      if negb (delivered r)
         && bool_decide (error_code r = Some not_registered)
      then match tokens !! i with
           | Some t => t :: later
           | None => later
           end
      else later
  end.

(** [DELETE FROM device_tokens WHERE token IN (?)] *)
Definition delete_tokens (failedTokens : list string) (table : list DeviceToken)
  : list DeviceToken :=
  List.filter (λ r, match token r with
               | Some t => negb (existsb (String.eqb t) failedTokens)
               | None => true
               end) table.

(** [sendFCMNotification(restaurantUid, title, body, data)]: the
    messages handed to the service and the table afterwards.  [answer]
    is what [sendMulticast] resolves to, or what it throws. *)
Definition sendFCMNotification (restaurantUid title body : string)
    (data : list (string * json)) (answer : Exception + BatchResponse)
    (table : list DeviceToken) : list Message * list DeviceToken :=
  let rows := List.filter (λ r, String.eqb (token_restaurant_uid r) restaurantUid) table in
  if (length rows =? 0)%nat then ([], table)
  else
    let tokens := valid_tokens rows in
    match tokens with
    | [] => ([], table)
    | [t] => ([Single t title body (normalize data)], table)
    | _ =>
        let multicast := Multicast tokens title body (normalize data) in
        match answer with
        | inl _ => ([multicast], table)
        | inr response =>
            if (0 <? failureCount response)%nat then
              let failedTokens := failed_tokens tokens 0 (responses response) in
              if (0 <? length failedTokens)%nat
              then ([multicast], delete_tokens failedTokens table)
              else ([multicast], table)
            else ([multicast], table)
        end
    end.

(** The tokens a message is addressed to, and its data. *)
Definition recipients (m : Message) : list string :=
  match m with
  | Single t _ _ _ => [t]
  | Multicast ts _ _ _ => ts
  end.

Definition message_data (m : Message) : gmap string string :=
  match m with
  | Single _ _ _ d | Multicast _ _ _ d => d
  end.

End Notifications.

(** ** Sample data for the endpoints above *)

(** A customer with one saved address. *)
Definition sample_customers : gmap string Customers.Customer :=
  {[ "cust1" := Customers.mkCustomer "Asha" "asha@example.com" "9876543210"
                  (Some (JArr [JStr "12 Lake Road"])) ]}.

(** A restaurant that has not yet submitted its documents. *)
Definition sample_verification : gmap string Verification.Status :=
  {[ "rest1" := Verification.mkStatus "pending" 0 None ]}.

(** Two devices of [rest1]; [rest2] shares one of the tokens. *)
Definition sample_device_tokens : list Notifications.DeviceToken :=
  [Notifications.mkDeviceToken "rest1" (Some "tokA");
   Notifications.mkDeviceToken "rest1" (Some "tokB");
   Notifications.mkDeviceToken "rest2" (Some "tokA")].

Definition sample_failed_body : Body :=
  BodyObject [("order_id", JStr "order_7"); ("payment_status", JStr "FAILED")].

(** * Properties *)

Local Open Scope list_scope.

(** ** The built-ins on sample inputs *)

Example parseFloat_samples :
  parseFloat (Some (JStr "529.00")) = Fin 529.00
  ∧ parseFloat (Some (JNum 100)) = Fin 100
  ∧ parseFloat (Some (JStr " -1.5e2 INR")) = Fin (- (15 / 10 * 100))
  ∧ parseFloat (Some (JStr "abc")) = NaN
  ∧ parseFloat (Some (JStr ".")) = NaN
  ∧ parseFloat (Some (JStr "-Infinity")) = Infinity true
  ∧ parseFloat (Some (JArr [JNum 5])) = Fin 5
  ∧ parseFloat None = NaN.
Proof. vm_compute. repeat split. Qed.

Example toString_samples :
  toString (JNum 7) = "7"
  ∧ toString (JNum (-25 # 2)) = "-12.5"
  ∧ toString (JArr [JNum 7; JNull; JStr "a"]) = "7,,a"
  ∧ toString (JObj [("order_id", JNum 7)]) = "[object Object]".
Proof. vm_compute. repeat split. Qed.

Example parseInt_samples :
  parseInt "7" = Some 7 ∧ parseInt " 12abc" = Some 12 ∧ parseInt "0x1F" = Some 31
  ∧ parseInt "-8.9" = Some (-8) ∧ parseInt "order_7" = None.
Proof. vm_compute. repeat split. Qed.

Example id_of_param_samples :
  id_of_param "7" = Some 7 ∧ id_of_param " 07" = Some 7 ∧ id_of_param "7.0" = Some 7
  ∧ id_of_param "1e1" = Some 10 ∧ id_of_param "7.5" = None ∧ id_of_param "abc" = Some 0.
Proof. vm_compute. repeat split. Qed.

(** The three shapes of a webhook payload, the first match winning. *)
Example extract_samples :
  extract_order_id (body_value sample_success_body) = Some "7"
  ∧ extract_order_id (JObj [("order", JObj [("order_id", JStr "order_8")]);
                            ("order_id", JNum 9)]) = Some "8"
  ∧ extract_order_id (JObj [("order_id", JNum 9)]) = Some "9"
  ∧ extract_order_id (JObj [("order_id", JStr "order_")]) = Some ""
  ∧ extract_order_id (JObj [("id", JNum 9)]) = None
  ∧ extract_payment_status (JObj [("data", JObj [("order", JObj [("order_status", JStr "PAID")])])])
    = Some (JStr "PAID")
  ∧ extract_payment_amount (JObj [("data", JObj [("order", JObj [("order_amount", JStr "529.00")])])])
    = Some (Fin 529.00)
  ∧ extract_payment_amount (JObj [("payment_amount", JNum 529)]) = None
  ∧ amount_present (extract_payment_amount (JObj [("payment", JObj [("payment_amount", JStr "n/a")])]))
    = false.
Proof. vm_compute. repeat split. Qed.

Example valid_phone_samples :
  valid_phone "9876543210" = true ∧ valid_phone "+919876543210" = true
  ∧ valid_phone "98765" = false ∧ valid_phone "98765-43210" = false.
Proof. vm_compute. repeat split. Qed.

Example decimal_column_samples :
  decimal_column 529 = JStr "529.00" ∧ decimal_column (504005 # 1000) = JStr "504.01"
  ∧ decimal_column (5 # 100) = JStr "0.05".
Proof. vm_compute. repeat split. Qed.

(** ** The store *)

Lemma String_eqb_neq_false (a b : string) : a ≠ b → String.eqb a b = false.
Proof. intros H. by apply String.eqb_neq. Qed.

Lemma select_order_Some (d : Db) (orderId : string) (id : Z) (o : Order) :
  select_order d orderId = Some (id, o) ↔
  id_of_param orderId = Some id ∧ orders d !! id = Some o.
Proof.
  unfold select_order. split.
  - destruct (id_of_param orderId) as [z|]; simpl; [|done].
    destruct (orders d !! z) as [o'|] eqn:E; simpl; [|done].
    intros [= <- <-]. done.
  - intros [-> H]. simpl. by rewrite H.
Qed.

Lemma query_update_found (f : Order → Order) (orderId : string) (s : Server)
    (id : Z) (o : Order) :
  select_order (db s) orderId = Some (id, o) →
  query_update f orderId s = (with_db (with_orders (insert id (f o))) s, 1%nat).
Proof.
  intros H. unfold query_update, update_order. rewrite H.
  by destruct s.
Qed.

Lemma select_after_update (f : Order → Order) (orderId : string) (s : Server)
    (id : Z) (o : Order) :
  select_order (db s) orderId = Some (id, o) →
  select_order (db (with_db (with_orders (insert id (f o))) s)) orderId = Some (id, f o).
Proof.
  intros [Hid _]%select_order_Some. apply select_order_Some. split; [done|].
  simpl. apply lookup_insert_eq.
Qed.

(** A store update touches neither the timers nor what was emitted. *)
Lemma query_update_runtime (f : Order → Order) (orderId : string) (s : Server) :
  timeouts (query_update f orderId s).1 = timeouts s
  ∧ orderTimers (query_update f orderId s).1 = orderTimers s.
Proof. unfold query_update. by destruct (update_order f orderId (db s)). Qed.

(** ** C1: the short-circuit on an order already paid *)

Lemma verifyPayment_already_verified (orderId : string) (gateway : option json)
    (s : Server) (id : Z) (o : Order) :
  select_order (db s) orderId = Some (id, o) →
  payment_status o = "success" →
  verifyPayment orderId gateway s = (s, respond 200 true "Payment already verified").
Proof.
  intros Hsel Hps. unfold verifyPayment. rewrite Hsel, Hps. done.
Qed.

Lemma webhook_already_processed (binding : option Validator) (body : Body)
    (s : Server) (id : Z) (o : Order) :
  call_target (WebhookCall body) = Some id →
  orders (db s) !! id = Some o →
  payment_status o = "success" →
  webhook_with binding body s = (s, respond 200 true "Payment already processed").
Proof.
  unfold call_target, webhook_with. intros Ht Ho Hps.
  destruct (body_is_empty body); [done|].
  destruct (extract_order_id (body_value body)) as [orderId|]; simpl in Ht; [|done].
  destruct (String.eqb orderId ""); [done|].
  assert (select_order (db s) orderId = Some (id, o)) as ->
    by by apply select_order_Some.
  simpl. by rewrite Hps.
Qed.

Lemma run_call_already_processed (c : Call) (s : Server) (id : Z) (o : Order) :
  call_target c = Some id →
  orders (db s) !! id = Some o →
  payment_status o = "success" →
  ∃ r, run_call c s = (s, r) ∧ already_processed r.
Proof.
  intros Ht Ho Hps. destruct c as [orderId gateway|body]; simpl.
  - eexists. split.
    + eapply verifyPayment_already_verified; [|done].
      apply select_order_Some. split; [exact Ht|exact Ho].
    + repeat split. by left.
  - eexists. split.
    + by eapply webhook_already_processed.
    + repeat split. by right.
Qed.

(** C1.  Once an order's [payment_status] is [success], any run of
    [verifyPayment] and [webhookPaymentEvent] calls for that order, of any
    length, leaves the whole server as it was (the order row, the timers,
    and what was emitted: no restaurant notification is sent), answers
    every call with the "already verified / already processed" success,
    and so the order's [payment_status] is still [success]. *)
Theorem paid_order_short_circuits (cs : list Call) (s : Server) (id : Z) (o : Order) :
  orders (db s) !! id = Some o →
  payment_status o = "success" →
  Forall (λ c, call_target c = Some id) cs →
  ∃ rs, run_calls cs s = (s, rs)
        ∧ Forall already_processed rs
        ∧ length rs = length cs
        ∧ payment_status <$> orders (db (run_calls cs s).1) !! id = Some "success"
        ∧ emitted (run_calls cs s).1 = emitted s.
Proof.
  intros Ho Hps Hcs.
  assert (∃ rs, run_calls cs s = (s, rs) ∧ Forall already_processed rs
                ∧ length rs = length cs) as (rs & Hrun & Hrs & Hlen).
  { induction Hcs as [|c cs Hc _ IH]; simpl.
    - by exists [].
    - destruct (run_call_already_processed c s id o Hc Ho Hps) as (r & -> & Hr).
      destruct IH as (rs & -> & Hrs & Hlen).
      exists (r :: rs). repeat split; [by constructor|simpl; by rewrite Hlen]. }
  exists rs. rewrite Hrun. simpl. rewrite Ho. simpl. rewrite Hps. done.
Qed.

Lemma paid_order_short_circuits_witness :
  ∃ rs, run_calls [VerifyCall "7" None; WebhookCall sample_success_body;
                   WebhookCall sample_body_without_amount] paid_server = (paid_server, rs)
        ∧ Forall already_processed rs
        ∧ length rs = 3%nat
        ∧ payment_status <$> orders (db (run_calls
            [VerifyCall "7" None; WebhookCall sample_success_body;
             WebhookCall sample_body_without_amount] paid_server).1) !! 7 = Some "success"
        ∧ emitted (run_calls [VerifyCall "7" None; WebhookCall sample_success_body;
             WebhookCall sample_body_without_amount] paid_server).1 = emitted paid_server.
Proof.
  apply (paid_order_short_circuits
           [VerifyCall "7" None; WebhookCall sample_success_body;
            WebhookCall sample_body_without_amount]
           paid_server 7 (sample_order "pending" "success")).
  - vm_compute. reflexivity.
  - reflexivity.
  - repeat constructor.
Defined.

(** ** The notification block of the webhook *)

Lemma notify_restaurant_online (orderId : string) (orderData : Row) (s : Server) :
  can_be_notified (db s) (restaurant_uid orderData.2) = true →
  let s' := notify_restaurant orderId orderData s in
  db s' = db s
  ∧ timeouts s' = <[next_timeout s := orderId]> (timeouts s)
  ∧ orderTimers s' = <[KString orderId := next_timeout s]> (orderTimers s)
  ∧ emitted s' =
      emitted s ++ Emit (restaurant_room (restaurant_uid orderData.2)) "newOrder" orderData
        :: (if has_toFixed (total_price orderData.2)
            then [Push (restaurant_uid orderData.2) ("New Order #" +:+ orderId)
                       (new_order_data orderId)]
            else []).
Proof.
  intros H. unfold notify_restaurant. rewrite H.
  destruct (has_toFixed _); simpl; repeat split; by rewrite <-?(assoc_L (++)).
Qed.

Lemma notify_restaurant_offline (orderId : string) (id : Z) (o : Order) (s : Server) :
  can_be_notified (db s) (restaurant_uid o) = false →
  select_order (db s) orderId = Some (id, o) →
  let s' := notify_restaurant orderId (id, o) s in
  orders (db s') = <[id := set_status "pending_restaurant_online" o]> (orders (db s))
  ∧ timeouts s' = timeouts s
  ∧ orderTimers s' = orderTimers s
  ∧ emitted s' = emitted s.
Proof.
  intros H Hsel. unfold notify_restaurant. simpl. rewrite H.
  by rewrite (query_update_found _ _ _ _ _ Hsel).
Qed.

Lemma apply_mapping_found (orderId ps st : string) (notify : bool) (s : Server)
    (id : Z) (o : Order) :
  select_order (db s) orderId = Some (id, o) →
  apply_mapping orderId ps st notify s =
    let orderData := (id, set_status_payment st ps o) in
    let s1 := with_db (with_orders (insert id (set_status_payment st ps o))) s in
    (emit (Emit (customer_room (customer_uid o)) "orderStatusUpdated" orderData)
          (if notify && String.eqb ps "success"
           then notify_restaurant orderId orderData s1 else s1),
     respond 200 true "Webhook processed").
Proof.
  intros Hsel. unfold apply_mapping.
  rewrite (query_update_found _ _ _ _ _ Hsel). cbv beta iota.
  rewrite (select_after_update _ _ _ _ _ Hsel). done.
Qed.


(** ** The webhook on an existing order that is not yet paid *)

Section UnpaidOrder.

Context (body : Body) (s : Server) (orderId : string) (id : Z) (o : Order).

Hypothesis body_not_empty : body_is_empty body = false.
Hypothesis names_the_order : extract_order_id (body_value body) = Some orderId.
Hypothesis order_id_not_empty : orderId ≠ "".
Hypothesis order_found : select_order (db s) orderId = Some (id, o).
Hypothesis not_yet_paid : payment_status o ≠ "success".

(** Such a webhook gets as far as the status mapping. *)
Lemma webhook_with_unpaid (binding : option Validator) :
  webhook_with binding body s =
    match map_payment_status binding (id, o)
            (extract_payment_status (body_value body))
            (extract_payment_amount (body_value body)) with
    | inl err =>
        (s, mkResponse 200 false (Some "Webhook received but processing failed")
                       (Some (exception_message err)))
    | inr Acknowledge => (s, respond 200 true "Payment already processed")
    | inr (Write dbPaymentStatus dbOrderStatus shouldNotifyRestaurant) =>
        apply_mapping orderId dbPaymentStatus dbOrderStatus shouldNotifyRestaurant s
    end.
Proof.
  unfold webhook_with.
  rewrite body_not_empty, names_the_order,
    (String_eqb_neq_false _ _ order_id_not_empty), order_found.
  simpl. by rewrite (String_eqb_neq_false _ _ not_yet_paid).
Qed.

Hypothesis reports_success :
  is_string "SUCCESS" (extract_payment_status (body_value body))
  || is_string "PAID" (extract_payment_status (body_value body)) = true.

(** C10.  A webhook for an existing, not yet paid order whose extracted
    status is [SUCCESS] or [PAID] and whose extracted amount is absent
    (or not a non-zero number) writes [payment_status = success],
    [status = pending] and enters the restaurant-notification block; the
    stored [total_price] is never compared with anything, whatever
    [validatePaymentSecurity] is bound to.  When the restaurant is online
    with notifications on, the order ends [pending] / [success], a timer
    is registered and [newOrder] is emitted to the restaurant (the push is
    requested when [total_price] is a number, so that [toFixed] exists);
    otherwise the block moves the order on to [pending_restaurant_online]
    and sends the restaurant nothing. *)
Theorem webhook_success_without_amount (binding : option Validator) :
  amount_present (extract_payment_amount (body_value body)) = false →
  let paid := set_status_payment "pending" "success" o in
  let s1 := with_db (with_orders (insert id paid)) s in
  let s' := (webhook_with binding body s).1 in
  webhook_with binding body s =
    (emit (Emit (customer_room (customer_uid o)) "orderStatusUpdated" (id, paid))
          (notify_restaurant orderId (id, paid) s1),
     respond 200 true "Webhook processed")
  ∧ (can_be_notified (db s) (restaurant_uid o) = true →
       orders (db s') !! id = Some paid
       ∧ timeouts s' !! next_timeout s = Some orderId
       ∧ orderTimers s' !! KString orderId = Some (next_timeout s)
       ∧ emitted s' =
           emitted s ++ Emit (restaurant_room (restaurant_uid o)) "newOrder" (id, paid)
             :: (if has_toFixed (total_price o)
                 then [Push (restaurant_uid o) ("New Order #" +:+ orderId)
                            (new_order_data orderId)]
                 else [])
             ++ [Emit (customer_room (customer_uid o)) "orderStatusUpdated" (id, paid)])
  ∧ (can_be_notified (db s) (restaurant_uid o) = false →
       orders (db s') !! id = Some (set_status "pending_restaurant_online" paid)
       ∧ timeouts s' = timeouts s
       ∧ orderTimers s' = orderTimers s
       ∧ emitted s' =
           emitted s ++ [Emit (customer_room (customer_uid o)) "orderStatusUpdated" (id, paid)]).
Proof.
  intros Hamt paid s1 s'.
  assert (webhook_with binding body s =
    (emit (Emit (customer_room (customer_uid o)) "orderStatusUpdated" (id, paid))
          (notify_restaurant orderId (id, paid) s1),
     respond 200 true "Webhook processed")) as Hrun.
  { rewrite webhook_with_unpaid.
    unfold map_payment_status. rewrite reports_success, Hamt.
    by rewrite (apply_mapping_found _ _ _ _ _ _ _ order_found). }
  split; [exact Hrun|].
  assert (select_order (db s1) orderId = Some (id, paid)) as Hsel1
    by by apply select_after_update.
  subst s'. rewrite Hrun. simpl. split.
  - intros Hon.
    destruct (notify_restaurant_online orderId (id, paid) s1) as (Hdb & Hto & Hot & Hem);
      [done|].
    rewrite Hdb, Hto, Hot, Hem. simpl.
    rewrite !lookup_insert_eq. repeat split.
    by rewrite <-(assoc_L (++)).
  - intros Hoff.
    destruct (notify_restaurant_offline orderId id paid s1) as (Hdb & Hto & Hot & Hem);
      [done|done|].
    rewrite Hdb, Hto, Hot, Hem. simpl.
    by rewrite lookup_insert_eq.
Qed.

(** Whenever a success webhook carries an amount, the handler calls the
    unbound [validatePaymentSecurity]; the [ReferenceError] lands in the
    handler's [catch], and nothing is written or emitted. *)
Lemma webhook_amount_branch_throws :
  amount_present (extract_payment_amount (body_value body)) = true →
  webhookPaymentEvent body s =
    (s, mkResponse 200 false (Some "Webhook received but processing failed")
                   (Some "validatePaymentSecurity is not defined")).
Proof.
  intros Hamt. unfold webhookPaymentEvent. rewrite webhook_with_unpaid.
  unfold map_payment_status, validatePaymentSecurity.
  by rewrite reports_success, Hamt.
Qed.

(** With the function of the specification bound, the branches the
    handler already has cancel the order and notify no restaurant. *)
Lemma webhook_with_validator_cancels (amount : number) :
  extract_payment_amount (body_value body) = Some amount →
  truthy_number amount = true →
  gt (abs (sub amount (parseFloat (Some (total_price o))))) 0.02 = true →
  let s' := (webhook_with (Some spec_validatePaymentSecurity) body s).1 in
  orders (db s') !! id = Some (set_status_payment "cancelled" "failed" o)
  ∧ timeouts s' = timeouts s
  ∧ emitted s' =
      emitted s ++ [Emit (customer_room (customer_uid o)) "orderStatusUpdated"
                         (id, set_status_payment "cancelled" "failed" o)].
Proof.
  intros Hamt Htr Hgt s'. subst s'. rewrite webhook_with_unpaid.
  unfold map_payment_status. rewrite reports_success, Hamt.
  unfold amount_present. rewrite Htr.
  unfold spec_validatePaymentSecurity.
  cbn [valid alreadyProcessed default from_option snd]. unfold Datatypes.id.
  rewrite Hgt. cbn [negb].
  rewrite (apply_mapping_found _ _ _ _ _ _ _ order_found). simpl.
  by rewrite lookup_insert_eq.
Qed.

End UnpaidOrder.

Lemma webhook_success_without_amount_witness :
  webhook_with None sample_body_without_amount (unpaid_server 1) =
    (emit (Emit (customer_room "cust1") "orderStatusUpdated"
                (7, sample_order "pending" "success"))
          (notify_restaurant "7" (7, sample_order "pending" "success")
             (with_db (with_orders (insert 7 (sample_order "pending" "success")))
                      (unpaid_server 1))),
     respond 200 true "Webhook processed").
Proof.
  refine (proj1 (webhook_success_without_amount sample_body_without_amount
                   (unpaid_server 1) "7" 7 (sample_order "payment_pending" "pending")
                   _ _ _ _ _ _ None _)).
  - reflexivity.
  - reflexivity.
  - discriminate.
  - vm_compute. reflexivity.
  - discriminate.
  - reflexivity.
  - reflexivity.
Defined.

(** ** C2: a success webhook whose amount does not match *)


(** C2 (the code departs from it).  Order 7 is stored with total 529.00
    and awaits payment; the webhook reports [SUCCESS] with an amount of
    100.  The handler answers 200 with the [ReferenceError] and leaves the
    order [payment_pending] / [pending]: it is not cancelled.  Nothing is
    emitted. *)
Theorem webhook_amount_mismatch_leaves_order_untouched :
  extract_payment_status (body_value sample_mismatch_body) = Some (JStr "SUCCESS")
  ∧ extract_payment_amount (body_value sample_mismatch_body) = Some (Fin 100)
  ∧ gt (abs (sub (Fin 100) (parseFloat (Some (total_price (sample_order "payment_pending" "pending"))))))
       0.02 = true
  ∧ webhookPaymentEvent sample_mismatch_body (unpaid_server 1) =
      (unpaid_server 1,
       mkResponse 200 false (Some "Webhook received but processing failed")
                  (Some "validatePaymentSecurity is not defined"))
  ∧ orders (db (webhookPaymentEvent sample_mismatch_body (unpaid_server 1)).1) !! 7
      = Some (sample_order "payment_pending" "pending")
  ∧ emitted (webhookPaymentEvent sample_mismatch_body (unpaid_server 1)).1 = [].
Proof. vm_compute. repeat split. Qed.

(** ** C7: an order whose payment already failed *)

(** [verifyPayment] short-circuits on [failed] and [cancelled]. *)
Lemma verifyPayment_already_failed (orderId : string) (gateway : option json)
    (s : Server) (id : Z) (o : Order) :
  select_order (db s) orderId = Some (id, o) →
  payment_status o = "failed" ∨ payment_status o = "cancelled" →
  verifyPayment orderId gateway s = (s, respond 200 false "Payment has already failed").
Proof.
  intros Hsel [Hps|Hps]; unfold verifyPayment; rewrite Hsel, Hps; done.
Qed.

(** C7 (the code departs from it).  Order 7 is [cancelled] with
    [payment_status = failed].  [verifyPayment] leaves it alone, but the
    webhook has no such guard: a [SUCCESS] event without an amount turns
    the order into [pending] / [success], registers a timer and emits
    [newOrder] to the restaurant; an event with a status it does not know
    resets the order to [payment_pending] / [pending]. *)
Theorem webhook_revives_failed_order :
  verifyPayment "7" None failed_server
    = (failed_server, respond 200 false "Payment has already failed")
  ∧ (let s' := (webhookPaymentEvent sample_body_without_amount failed_server).1 in
     orders (db s') !! 7 = Some (sample_order "pending" "success")
     ∧ timeouts s' !! 0%nat = Some "7"
     ∧ emitted s' =
         [Emit "restaurant_rest1" "newOrder" (7, sample_order "pending" "success");
          Emit "customer_cust1" "orderStatusUpdated" (7, sample_order "pending" "success")])
  ∧ orders (db (webhookPaymentEvent sample_pending_body failed_server).1) !! 7
    = Some (sample_order "payment_pending" "pending").
Proof. vm_compute. repeat split. Qed.

(** ** C3: what happens on a confirmed payment *)


(** C3 (the code departs from it).  [verifyPayment] confirms the payment
    of order 7 while the restaurant is offline: the order becomes
    [pending], not [pending_restaurant_online], and the restaurant is sent
    [newOrder] and a push.  With the restaurant online the same call
    starts no timer.  The webhook, given the same order, does what the
    claim says in both cases. *)
Theorem verifyPayment_skips_restaurant_check :
  can_be_notified (db (unpaid_server 0)) "rest1" = false
  ∧ (let s' := (verifyPayment "7" sample_gateway_success (unpaid_server 0)).1 in
     orders (db s') !! 7 = Some (sample_order "pending" "success")
     ∧ emitted s' =
         [Emit "restaurant_rest1" "newOrder" (7, sample_order "pending" "success");
          Push "rest1" "New Order #7" (new_order_data "7")])
  ∧ can_be_notified (db (unpaid_server 1)) "rest1" = true
  ∧ (let s' := (verifyPayment "7" sample_gateway_success (unpaid_server 1)).1 in
     timeouts s' = ∅ ∧ orderTimers s' = ∅)
  ∧ (let s' := (webhookPaymentEvent sample_body_without_amount (unpaid_server 0)).1 in
     orders (db s') !! 7 = Some (sample_order "pending_restaurant_online" "success")
     ∧ timeouts s' = ∅
     ∧ emitted s' =
         [Emit "customer_cust1" "orderStatusUpdated" (7, sample_order "pending" "success")])
  ∧ (let s' := (webhookPaymentEvent sample_body_without_amount (unpaid_server 1)).1 in
     timeouts s' !! 0%nat = Some "7").
Proof. vm_compute. repeat split. Qed.

(** ** C9: the timer map and the accept / reject actions *)

Lemma parsed_key_not_string (orderId str : string) : parsed_key orderId ≠ KString str.
Proof. unfold parsed_key. by destruct (parseInt orderId). Qed.

Lemma string_keyed_timers (s s' : Server) :
  orderTimers s' = orderTimers s → string_keyed s → string_keyed s'.
Proof. unfold string_keyed. by intros ->. Qed.

Lemma string_keyed_start_timer (orderId : string) (s : Server) :
  string_keyed s → string_keyed (start_timer orderId s).
Proof.
  intros H k. simpl. destruct (decide (k = KString orderId)) as [->|Hne]; [by eauto|].
  rewrite lookup_insert_ne by done. apply H.
Qed.

Lemma string_keyed_delete (k : MapKey) (s s' : Server) :
  orderTimers s' = delete k (orderTimers s) → string_keyed s → string_keyed s'.
Proof.
  intros Hs' H k'. rewrite Hs'. destruct (decide (k = k')) as [->|Hne].
  - rewrite lookup_delete_eq. by intros [? ?].
  - rewrite lookup_delete_ne by done. apply H.
Qed.

Lemma string_keyed_clear_timer (k : MapKey) (s : Server) :
  string_keyed s → string_keyed (clear_timer k s).
Proof.
  intros H. unfold clear_timer. destruct (orderTimers s !! k); [|done].
  by apply (string_keyed_delete k s).
Qed.

Lemma string_keyed_query_update (f : Order → Order) (orderId : string) (s : Server) :
  string_keyed s → string_keyed (query_update f orderId s).1.
Proof.
  apply string_keyed_timers. apply query_update_runtime.
Qed.

Lemma string_keyed_emit (e : Event) (s : Server) :
  string_keyed s → string_keyed (emit e s).
Proof. by apply (string_keyed_timers s). Qed.

Lemma string_keyed_with_db (f : Db → Db) (s : Server) :
  string_keyed s → string_keyed (with_db f s).
Proof. by apply (string_keyed_timers s). Qed.

Lemma string_keyed_forget_timer (k : MapKey) (s : Server) :
  string_keyed s → string_keyed (forget_timer k s).
Proof. by apply (string_keyed_delete k). Qed.

Create HintDb timers.
#[local] Hint Resolve string_keyed_start_timer string_keyed_clear_timer
  string_keyed_emit string_keyed_with_db string_keyed_forget_timer : timers.

(** Splits on every test of a handler; each store update is named and
    comes with the fact [lemma] states about it. *)
Ltac split_handler_with lemma :=
  repeat match goal with
         | |- context [query_update ?f ?o ?s] =>
             let H := fresh "Hupd" in
             pose proof (lemma f o s) as H;
             destruct (query_update f o s) as [? ?]; simpl in H
         | |- context [match ?x with _ => _ end] => destruct x eqn:?
         end.

Ltac split_handler := split_handler_with string_keyed_query_update.

Lemma string_keyed_autoRejectOrder (orderId : string) (s : Server) :
  string_keyed s → string_keyed (autoRejectOrder orderId s).
Proof.
  intros H. unfold autoRejectOrder. split_handler; simpl; eauto 8 with timers.
Qed.

Lemma string_keyed_notify_restaurant (orderId : string) (orderData : Row) (s : Server) :
  string_keyed s → string_keyed (notify_restaurant orderId orderData s).
Proof.
  intros H. unfold notify_restaurant.
  pose proof (string_keyed_query_update (set_status "pending_restaurant_online") orderId s H).
  split_handler; simpl; eauto 8 with timers.
Qed.

(** No operation puts anything but a string key into the timer map. *)
Lemma string_keyed_run_op (op : Op) (s : Server) :
  string_keyed s → string_keyed (run_op op s).
Proof.
  intros H. destruct op; simpl.
  - unfold createOrder. split_handler; simpl; eauto with timers.
  - unfold verifyPayment. split_handler; simpl; eauto 8 with timers.
  - unfold webhookPaymentEvent, webhook_with, apply_mapping.
    split_handler; simpl;
      eauto 8 using string_keyed_notify_restaurant with timers.
  - unfold acceptOrder. split_handler; simpl; eauto 8 with timers.
  - unfold rejectOrder. split_handler; simpl; eauto 8 with timers.
  - unfold updateOrderStatus. split_handler; simpl; eauto 8 with timers.
  - unfold fire. destruct (timeouts s !! h); [|done].
    apply string_keyed_autoRejectOrder. by apply (string_keyed_timers s).
  - by apply string_keyed_with_db.
Qed.

Lemma reachable_string_keyed (s : Server) : reachable s → string_keyed s.
Proof.
  induction 1 as [d|op s _ IH].
  - intros k [? Hk]. simpl in Hk. by rewrite lookup_empty in Hk.
  - by apply string_keyed_run_op.
Qed.

(** In no reachable state does the timer clearing of accept / reject
    find anything: it looks up a number, and the keys are strings. *)
Lemma clear_timer_parsed_key (orderId : string) (s : Server) :
  reachable s → clear_timer (parsed_key orderId) s = s.
Proof.
  intros Hs%reachable_string_keyed. unfold clear_timer.
  destruct (orderTimers s !! parsed_key orderId) as [h|] eqn:E; [|done].
  destruct (Hs (parsed_key orderId)) as [str Hstr]; [by eauto|].
  by apply parsed_key_not_string in Hstr.
Qed.

(** So an accept or a reject, whatever its outcome, leaves every
    scheduled callback and every entry of the timer map in place. *)
Lemma acceptOrder_keeps_timers (orderId : string) (query_restaurant_uid : option string)
    (s : Server) :
  reachable s →
  timeouts (acceptOrder orderId query_restaurant_uid s).1 = timeouts s
  ∧ orderTimers (acceptOrder orderId query_restaurant_uid s).1 = orderTimers s.
Proof.
  intros Hs. unfold acceptOrder. rewrite (clear_timer_parsed_key _ _ Hs).
  split_handler_with query_update_runtime; simpl; done.
Qed.

Lemma rejectOrder_keeps_timers (orderId : string)
    (query_restaurant_uid rejection_reason : option string) (s : Server) :
  reachable s →
  timeouts (rejectOrder orderId query_restaurant_uid rejection_reason s).1 = timeouts s
  ∧ orderTimers (rejectOrder orderId query_restaurant_uid rejection_reason s).1
    = orderTimers s.
Proof.
  intros Hs. unfold rejectOrder. rewrite (clear_timer_parsed_key _ _ Hs).
  split_handler_with query_update_runtime; simpl; done.
Qed.

(** C9 (the code departs from it).  The webhook has registered the timer
    of order 7 under the string ["7"].  The restaurant accepts order 7:
    the handler looks up the number 7, finds no entry, and writes
    [preparing] with the callback still scheduled and the entry still in
    the map.  Reject behaves the same.  When the callback later runs it
    finds the order no longer [pending] and changes nothing. *)
Theorem accept_leaves_timer_running :
  orderTimers notified_server !! KString "7" = Some 0%nat
  ∧ timeouts notified_server !! 0%nat = Some "7"
  ∧ parsed_key "7" = KNumber 7
  ∧ (let '(s', r) := acceptOrder "7" (Some "rest1") notified_server in
     r = respond 200 true "Order accepted successfully"
     ∧ status <$> orders (db s') !! 7 = Some "preparing"
     ∧ timeouts s' !! 0%nat = Some "7"
     ∧ orderTimers s' !! KString "7" = Some 0%nat
     ∧ db (fire 0 s') = db s')
  ∧ (let '(s', r) := rejectOrder "7" (Some "rest1") (Some "closed") notified_server in
     r = respond 200 true "Order rejected successfully"
     ∧ timeouts s' !! 0%nat = Some "7"
     ∧ orderTimers s' !! KString "7" = Some 0%nat).
Proof. vm_compute. repeat split. Qed.

(** ** C8: the auto-reject callback *)

Lemma autoRejectOrder_pending (orderId : string) (s : Server) (id : Z) (o : Order) :
  select_order (db s) orderId = Some (id, o) →
  status o = "pending" →
  let rejected := set_rejected "rejected" auto_reject_reason true o in
  autoRejectOrder orderId s =
    mkServer (with_orders (insert id rejected) (db s))
             (delete (KString orderId) (orderTimers s)) (timeouts s) (next_timeout s)
             (emitted s ++ [Emit (restaurant_room (restaurant_uid o)) "orderAutoRejected" (id, rejected);
                            Emit (customer_room (customer_uid o)) "orderStatusUpdated" (id, rejected)]).
Proof.
  intros Hsel Hst. unfold autoRejectOrder. rewrite Hsel, Hst.
  rewrite (query_update_found _ _ _ _ _ Hsel). cbv beta iota.
  rewrite (select_after_update _ _ _ _ _ Hsel).
  unfold forget_timer, emit. simpl. by rewrite <-(assoc_L (++)).
Qed.

Lemma autoRejectOrder_not_pending (orderId : string) (s : Server) :
  (∀ id o, select_order (db s) orderId = Some (id, o) → status o ≠ "pending") →
  autoRejectOrder orderId s = s.
Proof.
  intros H. unfold autoRejectOrder.
  destruct (select_order (db s) orderId) as [[id o]|] eqn:Hsel; [|done].
  by rewrite (String_eqb_neq_false _ _ (H id o eq_refl)).
Qed.

(** An accept that succeeds found the order [pending] and leaves it
    [preparing]. *)
Lemma acceptOrder_success (orderId : string) (query_restaurant_uid : option string)
    (s s' : Server) (r : Response) :
  acceptOrder orderId query_restaurant_uid s = (s', r) →
  success r = true →
  ∃ id o, select_order (db s) orderId = Some (id, o)
          ∧ status o = "pending"
          ∧ db s' = with_orders (insert id (set_status "preparing" o)) (db s).
Proof.
  unfold acceptOrder. intros Hrun Hok.
  destruct (missing _); [by simplify_eq|].
  destruct (validateRestaurantUid _ _); [by simplify_eq|].
  destruct (select_pending_of _ _ _) as [row|] eqn:Hpending; [|by simplify_eq].
  unfold select_pending_of in Hpending.
  destruct (select_order (db s) orderId) as [[id o]|] eqn:Hsel; [|done].
  destruct (String.eqb (restaurant_uid o) _); [|done].
  destruct (String.eqb (status o) "pending") eqn:Hst; [|done].
  apply String.eqb_eq in Hst.
  assert (select_order (db (clear_timer (parsed_key orderId) s)) orderId = Some (id, o))
    as Hsel1.
  { unfold clear_timer. by destruct (orderTimers s !! _). }
  assert (db (clear_timer (parsed_key orderId) s) = db s) as Hdb.
  { unfold clear_timer. by destruct (orderTimers s !! _). }
  rewrite (query_update_found _ _ _ _ _ Hsel1) in Hrun. cbv beta iota in Hrun.
  rewrite (select_after_update _ _ _ _ _ Hsel1) in Hrun. simpl in Hrun.
  exists id, o. simplify_eq. simpl. by rewrite Hdb.
Qed.

(** C8.  When the scheduled callback of a timer runs, it looks the order
    up again.  If the order is still [pending] it becomes [rejected] with
    [auto_rejected = true] and the fixed reason, and both the restaurant
    and the customer are told.  If the order is no longer [pending], the
    callback changes nothing and emits nothing; in particular after an
    accept that went through, no firing of a timer of that order changes
    the store. *)
Theorem auto_reject_only_when_still_pending (h : nat) (s : Server)
    (orderId : string) (id : Z) (o : Order) :
  timeouts s !! h = Some orderId →
  select_order (db s) orderId = Some (id, o) →
  (status o = "pending" →
     let rejected := set_rejected "rejected" auto_reject_reason true o in
     orders (db (fire h s)) !! id = Some rejected
     ∧ status rejected = "rejected"
     ∧ auto_rejected rejected = true
     ∧ rejection_reason rejected = Some "Order was not accepted within the time limit"
     ∧ emitted (fire h s) =
         emitted s ++ [Emit (restaurant_room (restaurant_uid o)) "orderAutoRejected" (id, rejected);
                       Emit (customer_room (customer_uid o)) "orderStatusUpdated" (id, rejected)]
     ∧ timeouts (fire h s) !! h = None)
  ∧ (status o ≠ "pending" →
     db (fire h s) = db s ∧ emitted (fire h s) = emitted s)
  ∧ (∀ acceptId uid s1 r h1 orderId1,
       acceptOrder acceptId uid s = (s1, r) →
       success r = true →
       id_of_param acceptId = Some id →
       timeouts s1 !! h1 = Some orderId1 →
       id_of_param orderId1 = Some id →
       db (fire h1 s1) = db s1 ∧ emitted (fire h1 s1) = emitted s1).
Proof.
  intros Hh Hsel. split; [|split].
  - intros Hst rejected. unfold fire. rewrite Hh.
    rewrite (autoRejectOrder_pending orderId _ id o) by done. simpl.
    rewrite lookup_insert_eq, lookup_delete_eq. done.
  - intros Hst. unfold fire. rewrite Hh.
    rewrite autoRejectOrder_not_pending; [done|].
    simpl. intros id' o' Hsel'. by simplify_eq.
  - intros acceptId uid s1 r h1 orderId1 Hrun Hok Hacc Hh1 Hid1.
    destruct (acceptOrder_success _ _ _ _ _ Hrun Hok) as (id' & o' & Hsel' & _ & Hdb).
    apply select_order_Some in Hsel' as [Hid' Ho']. simplify_eq.
    unfold fire. rewrite Hh1.
    rewrite autoRejectOrder_not_pending; [done|].
    simpl. intros id2 o2 [Hid2 Ho2]%select_order_Some. simplify_eq.
    rewrite Hdb in Ho2. simpl in Ho2. rewrite lookup_insert_eq in Ho2.
    by simplify_eq.
Qed.

Lemma auto_reject_only_when_still_pending_witness :
  let o := sample_order "pending" "success" in
  let rejected := set_rejected "rejected" auto_reject_reason true o in
  orders (db (fire 0 notified_server)) !! 7 = Some rejected
  ∧ status rejected = "rejected"
  ∧ auto_rejected rejected = true
  ∧ rejection_reason rejected = Some "Order was not accepted within the time limit"
  ∧ emitted (fire 0 notified_server) =
      emitted notified_server
        ++ [Emit (restaurant_room (restaurant_uid o)) "orderAutoRejected" (7, rejected);
            Emit (customer_room (customer_uid o)) "orderStatusUpdated" (7, rejected)]
  ∧ timeouts (fire 0 notified_server) !! 0%nat = None.
Proof.
  refine (proj1 (auto_reject_only_when_still_pending 0 notified_server "7" 7
                   (sample_order "pending" "success") _ _) _).
  - vm_compute. reflexivity.
  - vm_compute. reflexivity.
  - reflexivity.
Defined.

(** ** C4: the generic status update *)

Lemma transition_guard_not_pending (current target : string) :
  current ≠ "pending" → transition_guard current target = None.
Proof.
  intros H. unfold transition_guard. by rewrite (String_eqb_neq_false _ _ H).
Qed.

Lemma transition_guard_to_cancelled (current : string) :
  transition_guard current "cancelled" = None.
Proof. unfold transition_guard. simpl. by rewrite !andb_false_r. Qed.

Lemma transition_guard_pending (target : string) :
  target ≠ "cancelled" → is_Some (transition_guard "pending" target).
Proof.
  intros H. unfold transition_guard. simpl.
  rewrite (String_eqb_neq_false _ _ H). simpl.
  destruct (String.eqb target "preparing"); simpl; [by eauto|].
  destruct (String.eqb target "rejected"); simpl; by eauto.
Qed.

Lemma allowed_has_not_missing (target : string) :
  allowed_has target = true → missing (Some target) = false.
Proof.
  simpl. destruct (String.eqb target "") eqn:E; [|done].
  apply String.eqb_eq in E as ->. done.
Qed.

(** A generic update that passes the guard writes the new status. *)
Lemma updateOrderStatus_unguarded (orderId target : string) (s : Server)
    (id : Z) (o : Order) :
  select_order (db s) orderId = Some (id, o) →
  allowed_has target = true →
  transition_guard (status o) target = None →
  ∃ s', updateOrderStatus orderId (Some target) s = (s', respond 200 true "Status updated")
        ∧ orders (db s') !! id = Some (set_status target o).
Proof.
  intros Hsel Hallowed Hguard. unfold updateOrderStatus.
  rewrite (allowed_has_not_missing _ Hallowed). cbn [default from_option orb negb].
  unfold Datatypes.id. rewrite Hallowed. cbn [negb]. rewrite Hsel, Hguard.
  rewrite (query_update_found _ _ _ _ _ Hsel). cbv beta iota.
  rewrite (select_after_update _ _ _ _ _ Hsel). cbn [Nat.eqb].
  eexists. split; [reflexivity|].
  destruct (_ && _); simpl; apply lookup_insert_eq.
Qed.

(** C4, as the code has it.  The generic update guards only an order
    that is currently [pending]: for it every target but [cancelled] is
    refused with a 400 and nothing is written, so [preparing] and
    [rejected] are reached through accept and reject only.  For an order
    in any other status every target of the allowed set is accepted and
    written. *)
Theorem generic_update_guards_pending_only (orderId target : string) (s : Server)
    (id : Z) (o : Order) :
  select_order (db s) orderId = Some (id, o) →
  allowed_has target = true →
  (status o = "pending" → target ≠ "cancelled" →
     ∃ refusal, updateOrderStatus orderId (Some target) s
                = (s, respond_error 400 false refusal))
  ∧ (status o ≠ "pending" ∨ target = "cancelled" →
     ∃ s', updateOrderStatus orderId (Some target) s
             = (s', respond 200 true "Status updated")
           ∧ orders (db s') !! id = Some (set_status target o)).
Proof.
  intros Hsel Hallowed. split.
  - intros Hst Hne. destruct (transition_guard_pending target Hne) as [refusal Hg].
    exists refusal. unfold updateOrderStatus.
    rewrite (allowed_has_not_missing _ Hallowed). cbn [default from_option orb negb].
    unfold Datatypes.id. rewrite Hallowed. cbn [negb]. by rewrite Hsel, Hst, Hg.
  - intros Hcase. apply updateOrderStatus_unguarded; [done..|].
    destruct Hcase as [Hst| ->].
    + by apply transition_guard_not_pending.
    + apply transition_guard_to_cancelled.
Qed.

Lemma generic_update_guards_pending_only_witness :
  ∃ s', updateOrderStatus "7" (Some "ready") (sample_server (sample_order "preparing" "success") 1)
          = (s', respond 200 true "Status updated")
        ∧ orders (db s') !! 7 = Some (set_status "ready" (sample_order "preparing" "success")).
Proof.
  refine (proj2 (generic_update_guards_pending_only "7" "ready"
                   (sample_server (sample_order "preparing" "success") 1) 7
                   (sample_order "preparing" "success") _ _) _).
  - vm_compute. reflexivity.
  - reflexivity.
  - left. discriminate.
Defined.

(** C4 as stated fails: the generic update takes a delivered order back
    to [pending], moves an unpaid order straight to [preparing], and
    moves a ready order back to [preparing]; the table grants none of
    these. *)
Lemma generic_update_ignores_table :
  (spec_generic_transition "delivered" "pending" = false
   ∧ (updateOrderStatus "7" (Some "pending") delivered_server).2
     = respond 200 true "Status updated"
   ∧ status <$> orders (db (updateOrderStatus "7" (Some "pending") delivered_server).1) !! 7
     = Some "pending")
  ∧ (spec_generic_transition "payment_pending" "preparing" = false
     ∧ (updateOrderStatus "7" (Some "preparing") (unpaid_server 1)).2
       = respond 200 true "Status updated"
     ∧ (λ o, (status o, payment_status o)) <$>
         orders (db (updateOrderStatus "7" (Some "preparing") (unpaid_server 1)).1) !! 7
       = Some ("preparing", "pending"))
  ∧ (spec_generic_transition "ready" "preparing" = false
     ∧ (updateOrderStatus "7" (Some "preparing")
          (sample_server (sample_order "ready" "success") 1)).2
       = respond 200 true "Status updated").
Proof. vm_compute. repeat split. Qed.

(** ** C5 and C6: price verification at order creation *)

Lemma Qle_bool_false (x y : Q) : Qle_bool x y = false ↔ (y < x)%Q.
Proof.
  rewrite <-not_true_iff_false, Qle_bool_iff. split.
  - apply Qnot_le_lt.
  - intros H H'. by apply (Qlt_not_le _ _ H).
Qed.

Lemma deviates_true (a b t : Q) : deviates a b t = true ↔ (t < Qabs (a - b))%Q.
Proof. unfold deviates. rewrite negb_true_iff. apply Qle_bool_false. Qed.

Lemma deviates_false (a b t : Q) : deviates a b t = false ↔ ¬ (t < Qabs (a - b))%Q.
Proof. rewrite <-deviates_true. by destruct (deviates a b t). Qed.

Lemma deviates_far (a b t : Q) : (t < a - b ∨ t < b - a)%Q → deviates a b t = true.
Proof.
  intros H. apply deviates_true. apply Qabs_case; intros; lra.
Qed.

Lemma deviates_near (a b t : Q) : (a - b <= t ∧ b - a <= t)%Q → deviates a b t = false.
Proof.
  intros H. apply deviates_false. apply Qabs_case; intros; lra.
Qed.

Lemma validate_submission_orderable (r : Submission) (d : Db) (calc : Q) :
  orderable r d calc →
  validate_submission (default "" (sub_restaurant_uid r)) (default "" (sub_customer_uid r))
    (default [] (sub_items r)) (sub_subtotal r) (default 0%Q (sub_total_amount r)) d =
  if deviates calc (default 0%Q (sub_subtotal r)) 0.01 then inl (Error "Subtotal mismatch")
  else if deviates (expectedTotal calc (expected_fees calc))
                   (default 0%Q (sub_total_amount r)) 0.02
  then inl (Error "Total mismatch")
  else inr calc.
Proof.
  intros ((rest & Hrest & Hon) & [email Hcust] & Hcalc). unfold validate_submission.
  by rewrite Hrest, Hon, Hcust, Hcalc.
Qed.

(** What the transactional part does with an orderable submission. *)
Lemma insert_validated_order_orderable (r : Submission) (latitude longitude : option json)
    (now : Z) (d : Db) (calc : Q) :
  orderable r d calc →
  insert_validated_order r latitude longitude now d =
  if deviates calc (default 0%Q (sub_subtotal r)) 0.01 then inl (Error "Subtotal mismatch")
  else if deviates (expectedTotal calc (expected_fees calc))
                   (default 0%Q (sub_total_amount r)) 0.02
  then inl (Error "Total mismatch")
  else inr (insert_items (next_order_id d) (default [] (sub_items r))
              (insert_order (new_row r latitude longitude now) d).1,
            next_order_id d).
Proof.
  intros H. unfold insert_validated_order.
  rewrite (validate_submission_orderable _ _ _ H).
  destruct (deviates calc _ _); [done|]. by destruct (deviates (expectedTotal _ _) _ _).
Qed.

Lemma createOrder_well_formed (r : Submission) (latitude longitude : option json)
    (now : Z) (gateway : option (string * string)) (s : Server) :
  well_formed r latitude longitude →
  createOrder r now gateway s =
  match insert_validated_order r latitude longitude now (db s) with
  | inl err => (s, respond_error 500 false (exception_message err))
  | inr (d2, orderId) =>
      match gateway with
      | Some (payment_session_id, cf_order_id) =>
          (with_db (λ _, with_orders (alter (set_payment_session payment_session_id cf_order_id) orderId) d2) s,
           respond 201 true "Order created, proceed to payment")
      | None =>
          (with_db (λ _, with_orders (alter (set_status_payment "cancelled" "failed") orderId) d2) s,
           respond_error 500 false "Payment processing unavailable. Please try again.")
      end
  end.
Proof.
  intros (Hreq & Hphone & Hcoord). unfold createOrder.
  by rewrite Hreq, Hphone, Hcoord.
Qed.

(** A refusal writes nothing: unless the answer is the 201 or the
    failure of the gateway, the server is as before. *)
Lemma createOrder_refusal_writes_nothing (r : Submission) (now : Z)
    (gateway : option (string * string)) (s : Server) :
  http_status (createOrder r now gateway s).2 = 201%nat
  ∨ error (createOrder r now gateway s).2
    = Some "Payment processing unavailable. Please try again."
  ∨ (createOrder r now gateway s).1 = s.
Proof.
  unfold createOrder.
  repeat match goal with
         | |- context [match ?x with _ => _ end] => destruct x
         end; simpl; auto.
Qed.

(** When the gateway fails, the order stays in the store, [cancelled]
    with [payment_status = failed]. *)
Lemma createOrder_gateway_failure (r : Submission) (latitude longitude : option json)
    (now : Z) (s : Server) (d2 : Db) (id : Z) :
  well_formed r latitude longitude →
  insert_validated_order r latitude longitude now (db s) = inr (d2, id) →
  ∃ s' o, createOrder r now None s
            = (s', respond_error 500 false "Payment processing unavailable. Please try again.")
          ∧ orders (db s') !! id = Some o
          ∧ status o = "cancelled" ∧ payment_status o = "failed".
Proof.
  intros Hwf Hins. rewrite (createOrder_well_formed _ _ _ _ _ _ Hwf), Hins.
  unfold insert_validated_order in Hins.
  destruct (validate_submission _ _ _ _ _ _); [done|].
  simpl in Hins. simplify_eq.
  eexists _, _. split; [reflexivity|]. simpl.
  rewrite lookup_alter_eq, lookup_insert_eq. done.
Qed.



Lemma well_formed_with_total (t : Q) (r : Submission) (latitude longitude : option json) :
  well_formed r latitude longitude → well_formed (with_total t r) latitude longitude.
Proof.
  intros (Hreq & Hphone & Hcoord). repeat split; [|done..].
  unfold missing_required_fields in *. simpl.
  repeat (apply orb_false_iff in Hreq as [Hreq ?]).
  repeat (apply orb_false_iff; split); done.
Qed.

Lemma orderable_with_total (t : Q) (r : Submission) (d : Db) (calc : Q) :
  orderable r d calc → orderable (with_total t r) d calc.
Proof. done. Qed.

Lemma orderable_legacy (r : Submission) (d : Db) (calc : Q) :
  orderable r d calc → legacy_orderable r d calc.
Proof. intros ((rest & Hrest & _) & Hcust & Hcalc). repeat split; [by eauto|done..]. Qed.

Lemma legacy_createOrder_orderable (r : Submission) (latitude longitude : option json)
    (session : string * string) (s : Server) (calc : Q) :
  well_formed r latitude longitude →
  legacy_orderable r (db s) calc →
  deviates calc (default 0%Q (sub_subtotal r)) 0.01 = false →
  (Legacy.createOrder r (Some session) s).2 =
    if deviates (expectedTotal calc (Legacy.expected_fees calc))
                (default 0%Q (sub_total_amount r)) 0.02
    then respond_error 500 false "Total amount mismatch"
    else respond 201 true "Order created, proceed to payment".
Proof.
  intros (Hreq & Hphone & _) ([rest Hrest] & [email Hcust] & Hcalc) Hsub.
  unfold Legacy.createOrder, Legacy.insert_validated_order, Legacy.validate_submission.
  rewrite Hreq, Hphone, Hrest, Hcust, Hcalc, Hsub. cbv beta iota. cbn [negb].
  destruct (deviates (expectedTotal _ _) _ _); [done|]. by destruct session.
Qed.

Lemma createOrder_orderable (r : Submission) (latitude longitude : option json) (now : Z)
    (session : string * string) (s : Server) (calc : Q) :
  well_formed r latitude longitude →
  orderable r (db s) calc →
  deviates calc (default 0%Q (sub_subtotal r)) 0.01 = false →
  (createOrder r now (Some session) s).2 =
    if deviates (expectedTotal calc (expected_fees calc))
                (default 0%Q (sub_total_amount r)) 0.02
    then respond_error 500 false "Total mismatch"
    else respond 201 true "Order created, proceed to payment".
Proof.
  intros Hwf Hord Hsub.
  rewrite (createOrder_well_formed _ _ _ _ _ _ Hwf).
  rewrite (insert_validated_order_orderable _ _ _ _ _ _ Hord), Hsub.
  destruct (deviates (expectedTotal _ _) _ _); [done|]. by destruct session.
Qed.

Lemma fees_at_480 (calc : Q) :
  (calc == 480)%Q →
  (expectedDeliveryFee (expected_fees calc) == 0
   ∧ expectedPackingFee (expected_fees calc) == 0
   ∧ expectedGst (expected_fees calc) == 24
   ∧ expectedPlatformFee (expected_fees calc) == 0
   ∧ expectedTotal calc (expected_fees calc) == 504)%Q.
Proof.
  intros H. unfold expectedTotal, expected_fees. simpl.
  destruct (Qgeb calc 500); repeat split; lra.
Qed.

Lemma legacy_fees_at_480 (calc : Q) :
  (calc == 480)%Q →
  (expectedDeliveryFee (Legacy.expected_fees calc) == 20
   ∧ expectedPackingFee (Legacy.expected_fees calc) == 5
   ∧ expectedGst (Legacy.expected_fees calc) == 24
   ∧ expectedPlatformFee (Legacy.expected_fees calc) == 0
   ∧ expectedTotal calc (Legacy.expected_fees calc) == 529)%Q.
Proof.
  intros H. unfold expectedTotal, Legacy.expected_fees, Qgeb. simpl.
  assert (Qle_bool 500 calc = false) as -> by (apply Qle_bool_false; lra).
  assert (Qle_bool 300 calc = true) as -> by (apply Qle_bool_iff; lra).
  repeat split; lra.
Qed.

(** C5, as the code has it.  For a well formed, orderable submission
    whose recomputed subtotal is 480 and whose declared subtotal agrees:
    [server.js] expects delivery 0, packing 0, GST 24, platform 0, total
    504, so a declared total of 504 is accepted and 529 and 520 are
    refused with a total mismatch, the server left as it was; the older
    flow expects 20 + 5 + 24 + 0, total 529, accepts 529 and refuses
    520. *)
Theorem fee_policy_at_480 (r : Submission) (latitude longitude : option json) (now : Z)
    (session : string * string) (s : Server) (calc : Q) :
  well_formed r latitude longitude →
  orderable r (db s) calc →
  (calc == 480)%Q →
  ¬ (0.01 < Qabs (calc - default 0 (sub_subtotal r)))%Q →
  ((expectedDeliveryFee (expected_fees calc) == 0
    ∧ expectedPackingFee (expected_fees calc) == 0
    ∧ expectedGst (expected_fees calc) == 24
    ∧ expectedPlatformFee (expected_fees calc) == 0
    ∧ expectedTotal calc (expected_fees calc) == 504)%Q
   ∧ (createOrder (with_total 504 r) now (Some session) s).2
     = respond 201 true "Order created, proceed to payment"
   ∧ createOrder (with_total 529 r) now (Some session) s
     = (s, respond_error 500 false "Total mismatch")
   ∧ createOrder (with_total 520 r) now (Some session) s
     = (s, respond_error 500 false "Total mismatch"))
  ∧ ((expectedDeliveryFee (Legacy.expected_fees calc) == 20
      ∧ expectedPackingFee (Legacy.expected_fees calc) == 5
      ∧ expectedGst (Legacy.expected_fees calc) == 24
      ∧ expectedPlatformFee (Legacy.expected_fees calc) == 0
      ∧ expectedTotal calc (Legacy.expected_fees calc) == 529)%Q
     ∧ (Legacy.createOrder (with_total 529 r) (Some session) s).2
       = respond 201 true "Order created, proceed to payment"
     ∧ (Legacy.createOrder (with_total 520 r) (Some session) s).2
       = respond_error 500 false "Total amount mismatch").
Proof.
  intros Hwf Hord Hcalc Hsub.
  apply deviates_false in Hsub.
  pose proof (fees_at_480 calc Hcalc) as Hfees.
  pose proof (legacy_fees_at_480 calc Hcalc) as Hlegacy.
  assert (∀ t, (0.02 < 504 - t ∨ 0.02 < t - 504)%Q →
               createOrder (with_total t r) now (Some session) s
               = (s, respond_error 500 false "Total mismatch")) as Hrefused.
  { intros t Ht.
    rewrite (createOrder_well_formed _ _ _ _ _ _ (well_formed_with_total t _ _ _ Hwf)).
    rewrite (insert_validated_order_orderable _ _ _ _ _ _ (orderable_with_total t _ _ _ Hord)).
    simpl. rewrite Hsub.
    rewrite deviates_far; [done|]. destruct Hfees as (_ & _ & _ & _ & ->). lra. }
  split; [split; [exact Hfees|]|split; [exact Hlegacy|]].
  - split; [|split].
    + rewrite (createOrder_orderable _ latitude longitude _ _ _ calc);
        [|by apply well_formed_with_total|done|done].
      simpl. rewrite deviates_near; [done|].
      destruct Hfees as (_ & _ & _ & _ & ->). lra.
    + apply Hrefused. lra.
    + apply Hrefused. lra.
  - split.
    + rewrite (legacy_createOrder_orderable _ latitude longitude _ _ calc);
        [|by apply well_formed_with_total|by apply orderable_legacy|done].
      simpl. rewrite deviates_near; [done|].
      destruct Hlegacy as (_ & _ & _ & _ & ->). lra.
    + rewrite (legacy_createOrder_orderable _ latitude longitude _ _ calc);
        [|by apply well_formed_with_total|by apply orderable_legacy|done].
      simpl. rewrite deviates_far; [done|].
      destruct Hlegacy as (_ & _ & _ & _ & ->). lra.
Qed.

Lemma fee_policy_at_480_witness :
  createOrder (with_total 529 (sample_submission 0)) 0 (Some ("sess", "cf8")) delivered_server
    = (delivered_server, respond_error 500 false "Total mismatch")
  ∧ (Legacy.createOrder (with_total 529 (sample_submission 0)) (Some ("sess", "cf8"))
       delivered_server).2
    = respond 201 true "Order created, proceed to payment".
Proof.
  destruct (fee_policy_at_480 (sample_submission 0) (Some JNull) (Some JNull) 0
              ("sess", "cf8") delivered_server 480) as ((_ & _ & H & _) & _ & H' & _).
  - repeat split.
  - split; [|split].
    + exists (mkRestaurant 1). split; [vm_compute; reflexivity | reflexivity].
    + exists "asha@example.com". vm_compute. reflexivity.
    + vm_compute. reflexivity.
  - reflexivity.
  - vm_compute. discriminate.
  - exact (conj H H').
Defined.

(** C5 as stated fails on [server.js]: two items at 240 give the
    subtotal 480; the handler expects no delivery fee and no packing fee,
    a total of 504, and refuses a declared total of 529.00. *)
Lemma server_fee_policy_refuses_529 :
  calculate_subtotal (db delivered_server) "rest1" [mkItem 1 2] 0 = inr 480%Q
  ∧ expectedDeliveryFee (expected_fees 480) = 0%Q
  ∧ expectedPackingFee (expected_fees 480) = 0%Q
  ∧ (expectedTotal 480 (expected_fees 480) == 504)%Q
  ∧ createOrder (sample_submission 529) 0 (Some ("sess", "cf8")) delivered_server
    = (delivered_server, respond_error 500 false "Total mismatch").
Proof. vm_compute. repeat split. Qed.

(** * Further properties

    What the handlers, and the endpoints around them, guarantee beyond
    the points above. *)

(** ** Strings and decimal numerals *)

Lemma string_app_cons (x : ascii) (a b : string) : String x a +:+ b = String x (a +:+ b).
Proof. reflexivity. Qed.

Lemma string_app_assoc (a b c : string) : (a +:+ b) +:+ c = a +:+ (b +:+ c).
Proof. induction a as [|x a IH]; [done|]. by rewrite !string_app_cons, IH. Qed.

Lemma string_app_empty (a : string) : a +:+ "" = a.
Proof. induction a as [|x a IH]; [done|]. by rewrite string_app_cons, IH. Qed.

Lemma all_digits_app (a b : string) :
  all_digits (a +:+ b) = all_digits a && all_digits b.
Proof.
  induction a as [|x a IH]; [done|]. rewrite string_app_cons. simpl.
  rewrite IH. by rewrite andb_assoc.
Qed.

Lemma digits_to_Z_app (acc : Z) (a b : string) :
  digits_to_Z acc (a +:+ b) = digits_to_Z (digits_to_Z acc a) b.
Proof.
  revert acc. induction a as [|x a IH]; intros acc; [done|].
  rewrite string_app_cons. simpl. apply IH.
Qed.


Lemma pretty_N_char_digit (x : N) :
  (x < 10)%N →
  is_digit (pretty_N_char x) = true ∧ digit_value (pretty_N_char x) = Z.of_N x.
Proof.
  intros H.
  assert (x = 0 ∨ x = 1 ∨ x = 2 ∨ x = 3 ∨ x = 4 ∨ x = 5 ∨ x = 6 ∨ x = 7 ∨ x = 8 ∨ x = 9)%N
    as Hx by lia.
  repeat destruct Hx as [->|Hx]; try subst x; by vm_compute.
Qed.

Lemma pretty_N_go_app (x : N) (s : string) : pretty_N_go x s = pretty_N_go x "" +:+ s.
Proof.
  revert s. induction (N.lt_wf_0 x) as [x _ IH]; intros s.
  assert (x = 0 ∨ 0 < x)%N as [->|Hx] by lia; [done|].
  rewrite (pretty_N_go_step x s), (pretty_N_go_step x "") by done.
  assert (x `div` 10 < x)%N as Hlt by by apply N.div_lt.
  rewrite (IH _ Hlt (String _ s)), (IH _ Hlt (String _ "")).
  by rewrite string_app_assoc.
Qed.

(** The decimal numeral of a natural number consists of digits and
    reads back as the number. *)
Lemma pretty_N_go_digits (x : N) :
  all_digits (pretty_N_go x "") = true
  ∧ digits_to_Z 0 (pretty_N_go x "") = Z.of_N x.
Proof.
  induction (N.lt_wf_0 x) as [x _ IH].
  assert (x = 0 ∨ 0 < x)%N as [->|Hx] by lia; [done|].
  rewrite pretty_N_go_step, pretty_N_go_app by done.
  destruct (IH (x `div` 10)%N) as [IH1 IH2]; [by apply N.div_lt|].
  destruct (pretty_N_char_digit (x `mod` 10)%N) as [Hd Hv]; [by apply N.mod_lt|].
  rewrite all_digits_app, digits_to_Z_app, IH1, IH2. simpl. rewrite Hd, Hv.
  split; [done|].
  rewrite (N.div_mod x 10) at 3 by done. lia.
Qed.

Lemma pretty_N_digits (x : N) :
  all_digits (pretty x) = true ∧ pretty x ≠ "" ∧ digits_to_Z 0 (pretty x) = Z.of_N x.
Proof.
  unfold pretty, pretty_N. destruct (decide (x = 0)%N) as [->|Hx]; [done|].
  destruct (pretty_N_go_digits x) as [H1 H2]. repeat split; try done.
  intros Hempty. rewrite Hempty in H2. simpl in H2. lia.
Qed.

Lemma pretty_Z_digits (z : Z) :
  0 <= z →
  all_digits (pretty z) = true ∧ pretty z ≠ "" ∧ digits_to_Z 0 (pretty z) = z.
Proof.
  intros Hz. destruct z as [|p|p]; [done| |lia].
  destruct (pretty_N_digits (N.pos p)) as (H1 & H2 & H3). done.
Qed.

Lemma span_digits_all (ds rest : string) :
  all_digits ds = true →
  match rest with String c _ => is_digit c = false | EmptyString => True end →
  span_digits (ds +:+ rest) = (ds, rest).
Proof.
  intros Hds Hrest. induction ds as [|c ds IH].
  - destruct rest as [|c rest]; [done|]. simpl. by rewrite Hrest.
  - simpl in Hds. apply andb_true_iff in Hds as [Hc Hds].
    rewrite string_app_cons. simpl. by rewrite Hc, IH.
Qed.

Lemma span_digits_only (ds : string) : all_digits ds = true → span_digits ds = (ds, "").
Proof.
  intros H. rewrite <-(string_app_empty ds) at 1. by apply span_digits_all.
Qed.

Lemma digit_not_space (c : ascii) : is_digit c = true → is_space c = false.
Proof.
  unfold is_digit, is_space. intros [H1 H2]%andb_true_iff.
  apply Nat.leb_le in H1. apply Nat.leb_le in H2.
  apply orb_false_iff. split.
  - apply andb_false_iff. right. apply Nat.leb_gt. lia.
  - apply Nat.eqb_neq. lia.
Qed.

Lemma digit_cases (c : ascii) :
  is_digit c = true →
  In c ["0"; "1"; "2"; "3"; "4"; "5"; "6"; "7"; "8"; "9"]%char.
Proof.
  destruct c as [[] [] [] [] [] [] [] []]; try discriminate; intros _; simpl; tauto.
Qed.

(** Runs [tac] for each of the ten digits [c] can be. *)
Ltac each_digit H tac :=
  apply digit_cases in H; simpl in H;
  repeat (destruct H as [<-|H]; [tac|]); destruct H.

Lemma digit_is_no_sign (c : ascii) (rest : string) :
  is_digit c = true → read_sign (String c rest) = (false, String c rest).
Proof. intros Hc. each_digit Hc ltac:(reflexivity). Qed.


(** A non-empty string of digits: the numeral of [digits_to_Z 0 ds]. *)
Lemma read_numeral (ds : string) :
  all_digits ds = true → ds ≠ "" →
  skip_spaces ds = ds
  ∧ read_sign ds = (false, ds)
  ∧ span_digits ds = (ds, "")
  ∧ String.prefix "0x" ds = false ∧ String.prefix "0X" ds = false
  ∧ String.prefix "Infinity" ds = false.
Proof.
  intros Hds Hne.
  pose proof (span_digits_only ds Hds) as Hspan.
  destruct ds as [|c ds]; [done|]. simpl in Hds.
  apply andb_true_iff in Hds as [Hc Hds].
  repeat split; try done.
  - simpl. by rewrite (digit_not_space _ Hc).
  - by apply digit_is_no_sign.
  - destruct ds as [|c' ds]; [simpl; by case_match|].
    simpl in Hds. apply andb_true_iff in Hds as [Hc' _].
    each_digit Hc' ltac:(simpl; by case_match).
  - destruct ds as [|c' ds]; [simpl; by case_match|].
    simpl in Hds. apply andb_true_iff in Hds as [Hc' _].
    each_digit Hc' ltac:(simpl; by case_match).
  - each_digit Hc ltac:(reflexivity).
Qed.

Lemma read_decimal_numeral (ds : string) :
  all_digits ds = true → ds ≠ "" →
  ∃ q, read_decimal ds = Some q ∧ (q == inject_Z (digits_to_Z 0 ds))%Q.
Proof.
  intros Hds Hne. destruct (read_numeral ds Hds Hne) as (_ & _ & Hspan & _).
  unfold read_decimal. rewrite Hspan.
  rewrite (String_eqb_neq_false _ _ Hne). cbn [andb].
  eexists. split; [reflexivity|]. simpl.
  change (inject_Z (10 ^ Z.of_nat 0)) with 1%Q. field.
Qed.

Lemma id_of_param_numeral (ds : string) :
  all_digits ds = true → ds ≠ "" → id_of_param ds = Some (digits_to_Z 0 ds).
Proof.
  intros Hds Hne. destruct (read_numeral ds Hds Hne) as (Hskip & Hsign & _).
  destruct (read_decimal_numeral ds Hds Hne) as (q & Hq & Heq).
  unfold id_of_param, sql_number. rewrite Hskip, Hsign, Hq.
  rewrite (Qfloor_comp _ _ Heq), Qfloor_Z.
  assert (Qeq_bool (inject_Z (digits_to_Z 0 ds)) q = true) as ->; [|done].
  apply Qeq_bool_iff. by symmetry.
Qed.













Lemma rev_app_app (a b c : string) :
  String.rev_app (a +:+ b) c = String.rev_app b (String.rev_app a c).
Proof.
  revert c. induction a as [|x a IH]; intros c; [done|].
  rewrite string_app_cons. simpl. apply IH.
Qed.

Lemma rev_app_spec (a c : string) : String.rev_app a c = String.rev a +:+ c.
Proof.
  unfold String.rev. revert c. induction a as [|x a IH]; intros c; [done|].
  simpl. rewrite (IH (String x c)), (IH (String x "")).
  by rewrite string_app_assoc.
Qed.

Lemma rev_cons (x : ascii) (a : string) : String.rev (String x a) = String.rev a +:+ String x "".
Proof. unfold String.rev at 1. simpl. apply rev_app_spec. Qed.

Lemma rev_snoc (x : ascii) (a : string) : String.rev (a +:+ String x "") = String x (String.rev a).
Proof.
  unfold String.rev at 1. rewrite rev_app_app. simpl. by rewrite rev_app_spec, string_app_empty.
Qed.

Lemma rev_involutive (a : string) : String.rev (String.rev a) = a.
Proof.
  induction a as [|x a IH]; [done|]. by rewrite rev_cons, rev_snoc, IH.
Qed.

Lemma skip_spaces_idempotent (s : string) : skip_spaces (skip_spaces s) = skip_spaces s.
Proof.
  induction s as [|c s IH]; [done|]. simpl.
  destruct (is_space c) eqn:E; [done|]. simpl. by rewrite E.
Qed.

Lemma skip_spaces_snoc (s : string) (c : ascii) :
  is_space c = false → skip_spaces (s +:+ String c "") = skip_spaces s +:+ String c "".
Proof.
  intros Hc. induction s as [|x s IH].
  - simpl. by rewrite Hc.
  - rewrite string_app_cons. simpl. destruct (is_space x); [done|].
    by rewrite string_app_cons.
Qed.

(** Removing the trailing spaces of a string that starts with none
    leaves it starting with none. *)
Lemma skip_spaces_trailing (u : string) :
  skip_spaces u = u →
  skip_spaces (String.rev (skip_spaces (String.rev u))) = String.rev (skip_spaces (String.rev u)).
Proof.
  destruct u as [|c u]; [done|]. simpl.
  destruct (is_space c) eqn:Hc.
  - intros H. exfalso.
    assert (String.length (skip_spaces u) ≤ String.length u)%nat as Hlen.
    { clear. induction u as [|x u IH]; simpl; [done|]. destruct (is_space x); simpl; lia. }
    rewrite H in Hlen. simpl in Hlen. lia.
  - intros _. rewrite rev_cons, skip_spaces_snoc, rev_snoc by done.
    simpl. by rewrite Hc.
Qed.

Lemma trim_idempotent (s : string) : trim (trim s) = trim s.
Proof.
  unfold trim.
  rewrite (skip_spaces_trailing (skip_spaces s)) by apply skip_spaces_idempotent.
  by rewrite rev_involutive, skip_spaces_idempotent.
Qed.

(** ** The payment paths *)

Lemma db_clear_timer (k : MapKey) (s : Server) : db (clear_timer k s) = db s.
Proof. unfold clear_timer. by destruct (orderTimers s !! k). Qed.

Lemma query_update_other (f : Order → Order) (orderId : string) (s : Server) (id' : Z) :
  id_of_param orderId ≠ Some id' →
  orders (db (query_update f orderId s).1) !! id' = orders (db s) !! id'.
Proof.
  intros H. unfold query_update, update_order.
  destruct (select_order (db s) orderId) as [[id o]|] eqn:Hsel; [|done].
  apply select_order_Some in Hsel as [Hid _]. simpl.
  apply lookup_insert_ne. congruence.
Qed.



Lemma find_success_none (payments : list json) :
  Forall (λ p, p ≠ JNull ∧ is_string "SUCCESS" (prop "payment_status" (Some p)) = false)
         payments →
  find_success payments = inr None.
Proof.
  intros H. unfold find_success.
  assert (existsb is_null payments = false) as ->.
  { induction H as [|p ps [Hp _] _ IH]; [done|]. simpl. rewrite IH. by destruct p. }
  f_equal. induction H as [|p ps [_ Hp] _ IH]; [done|]. cbn [List.find]. by rewrite Hp.
Qed.

(** X2.  [verifyPayment] on an order whose payment is still open, when
    the gateway lists no attempt with [payment_status = SUCCESS] (an empty
    list included): the order is written [cancelled] / [failed], the
    answer is 200 with [success: false], and nothing is emitted and no
    timer is touched. *)
Theorem verifyPayment_without_success (orderId : string) (payments : list json)
    (s : Server) (id : Z) (o : Order) :
  select_order (db s) orderId = Some (id, o) →
  payment_status o ≠ "success" →
  payment_status o ≠ "failed" →
  payment_status o ≠ "cancelled" →
  Forall (λ p, p ≠ JNull ∧ is_string "SUCCESS" (prop "payment_status" (Some p)) = false)
         payments →
  verifyPayment orderId (Some (JArr payments)) s =
    (with_db (with_orders (insert id (set_status_payment "cancelled" "failed" o))) s,
     respond 200 false "Payment verification failed - No successful payment found").
Proof.
  intros Hsel H1 H2 H3 Hp. unfold verifyPayment.
  rewrite Hsel, !String_eqb_neq_false by done. cbn [orb].
  rewrite (find_success_none _ Hp).
  by rewrite (query_update_found _ _ _ _ _ Hsel).
Qed.

Lemma verifyPayment_without_success_witness :
  verifyPayment "7" (Some (JArr [JObj [("payment_status", JStr "FAILED")]])) (unpaid_server 1) =
    (with_db (with_orders (insert 7 (set_status_payment "cancelled" "failed"
                                       (sample_order "payment_pending" "pending"))))
             (unpaid_server 1),
     respond 200 false "Payment verification failed - No successful payment found").
Proof.
  apply (verifyPayment_without_success "7" [JObj [("payment_status", JStr "FAILED")]]
           (unpaid_server 1) 7 (sample_order "payment_pending" "pending")).
  - vm_compute. reflexivity.
  - discriminate.
  - discriminate.
  - discriminate.
  - repeat constructor; discriminate.
Defined.

(** X3.  A webhook that reports [FAILED] or [CANCELLED] for an existing
    order that is not yet paid writes [status = cancelled] with
    [payment_status = failed] or [cancelled], tells the customer's room
    only, and neither notifies the restaurant nor starts a timer,
    whatever [validatePaymentSecurity] is bound to. *)
Theorem webhook_failure_cancels (binding : option Validator) (body : Body) (s : Server)
    (orderId : string) (id : Z) (o : Order) (ps : string) :
  body_is_empty body = false →
  extract_order_id (body_value body) = Some orderId →
  orderId ≠ "" →
  select_order (db s) orderId = Some (id, o) →
  payment_status o ≠ "success" →
  (extract_payment_status (body_value body) = Some (JStr "FAILED") ∧ ps = "failed")
  ∨ (extract_payment_status (body_value body) = Some (JStr "CANCELLED") ∧ ps = "cancelled") →
  webhook_with binding body s =
    (emit (Emit (customer_room (customer_uid o)) "orderStatusUpdated"
                (id, set_status_payment "cancelled" ps o))
          (with_db (with_orders (insert id (set_status_payment "cancelled" ps o))) s),
     respond 200 true "Webhook processed").
Proof.
  intros Hbody Hid Hne Hsel Hps Hst.
  rewrite (webhook_with_unpaid body s orderId id o Hbody Hid Hne Hsel Hps).
  unfold map_payment_status.
  destruct Hst as [[-> ->]|[-> ->]]; simpl;
    by rewrite (apply_mapping_found _ _ _ _ _ _ _ Hsel).
Qed.

Lemma webhook_failure_cancels_witness :
  webhook_with None
    (BodyObject [("order_id", JStr "order_7"); ("payment_status", JStr "FAILED")])
    (unpaid_server 1) =
    (emit (Emit (customer_room "cust1") "orderStatusUpdated"
                (7, sample_order "cancelled" "failed"))
          (with_db (with_orders (insert 7 (sample_order "cancelled" "failed")))
                   (unpaid_server 1)),
     respond 200 true "Webhook processed").
Proof.
  apply (webhook_failure_cancels None
           (BodyObject [("order_id", JStr "order_7"); ("payment_status", JStr "FAILED")])
           (unpaid_server 1) "7" 7 (sample_order "payment_pending" "pending") "failed").
  - reflexivity.
  - reflexivity.
  - discriminate.
  - vm_compute. reflexivity.
  - discriminate.
  - left. split; reflexivity.
Defined.

Ltac split_handler_frame H :=
  repeat match goal with
         | |- context [query_update ?f ?o ?s] =>
             let Hu := fresh "Hupd" in
             pose proof (query_update_other f o s _ H) as Hu;
             destruct (query_update f o s) as [? ?]; simpl in Hu
         | |- context [match ?x with _ => _ end] => destruct x eqn:?
         end.

Lemma notify_restaurant_other (orderId : string) (orderData : Row) (s : Server) (id' : Z) :
  id_of_param orderId ≠ Some id' →
  orders (db (notify_restaurant orderId orderData s)) !! id' = orders (db s) !! id'.
Proof.
  intros H. unfold notify_restaurant.
  pose proof (query_update_other (set_status "pending_restaurant_online") orderId s id' H).
  destruct (can_be_notified _ _); [|done].
  by destruct (has_toFixed _).
Qed.

Lemma handlers_touch_only_their_order (orderId : string) (id' : Z) (s : Server) :
  id_of_param orderId ≠ Some id' →
  (∀ gateway, orders (db (verifyPayment orderId gateway s).1) !! id' = orders (db s) !! id')
  ∧ (∀ uid, orders (db (acceptOrder orderId uid s).1) !! id' = orders (db s) !! id')
  ∧ (∀ uid reason, orders (db (rejectOrder orderId uid reason s).1) !! id'
                   = orders (db s) !! id')
  ∧ (∀ st, orders (db (updateOrderStatus orderId st s).1) !! id' = orders (db s) !! id')
  ∧ orders (db (autoRejectOrder orderId s)) !! id' = orders (db s) !! id'.
Proof.
  intros H. repeat split; intros.
  - unfold verifyPayment. split_handler_frame H; simpl; congruence.
  - unfold acceptOrder. split_handler_frame H; simpl; rewrite ?db_clear_timer in *; congruence.
  - unfold rejectOrder. split_handler_frame H; simpl; rewrite ?db_clear_timer in *; congruence.
  - unfold updateOrderStatus. split_handler_frame H; simpl; congruence.
  - unfold autoRejectOrder. split_handler_frame H; simpl; congruence.
Qed.

Lemma webhook_touches_only_its_order (binding : option Validator) (body : Body)
    (s : Server) (id' : Z) :
  call_target (WebhookCall body) ≠ Some id' →
  orders (db (webhook_with binding body s).1) !! id' = orders (db s) !! id'.
Proof.
  unfold call_target, webhook_with. intros H.
  destruct (body_is_empty body); [done|].
  destruct (extract_order_id (body_value body)) as [orderId|]; [|done].
  simpl in H.
  destruct (String.eqb orderId ""); [done|].
  destruct (select_order (db s) orderId) as [order|]; [|done].
  destruct (String.eqb _ "success"); [done|].
  destruct (map_payment_status _ _ _ _) as [|[|ps st notify]]; [done|done|].
  unfold apply_mapping.
  pose proof (query_update_other (set_status_payment st ps) orderId s id' H) as Hu.
  destruct (query_update _ orderId s) as [s1 n]. simpl in Hu.
  destruct (0 <? n)%nat; [|done].
  destruct (select_order (db s1) orderId) as [orderData|]; [|done].
  simpl. destruct (notify && String.eqb ps "success"); [|done].
  by rewrite notify_restaurant_other.
Qed.

(** X4.  The handlers that take an order id (verify-payment, accept,
    reject, the generic status update, the auto-reject callback) and the
    webhook leave every order other than the one their parameter selects
    exactly as it was; no order is ever removed. *)
Theorem confirmation_touches_only_its_order (id' : Z) (s : Server) :
  (∀ orderId, id_of_param orderId ≠ Some id' →
     (∀ gateway, orders (db (verifyPayment orderId gateway s).1) !! id' = orders (db s) !! id')
     ∧ (∀ uid, orders (db (acceptOrder orderId uid s).1) !! id' = orders (db s) !! id')
     ∧ (∀ uid reason, orders (db (rejectOrder orderId uid reason s).1) !! id'
                      = orders (db s) !! id')
     ∧ (∀ st, orders (db (updateOrderStatus orderId st s).1) !! id' = orders (db s) !! id')
     ∧ orders (db (autoRejectOrder orderId s)) !! id' = orders (db s) !! id')
  ∧ (∀ binding body, call_target (WebhookCall body) ≠ Some id' →
       orders (db (webhook_with binding body s).1) !! id' = orders (db s) !! id').
Proof.
  split.
  - intros orderId H. by apply handlers_touch_only_their_order.
  - intros binding body H. by apply webhook_touches_only_its_order.
Qed.

Lemma confirmation_touches_only_its_order_witness :
  orders (db (webhook_with None sample_body_without_amount (unpaid_server 1)).1) !! 3
  = orders (db (unpaid_server 1)) !! 3.
Proof.
  apply (proj2 (confirmation_touches_only_its_order 3 (unpaid_server 1)) None
           sample_body_without_amount).
  vm_compute. discriminate.
Defined.

(** ** The restaurant's side of the lifecycle *)

Lemma query_update_columns (f : Order → Order) (orderId : string) (s : Server) (id : Z) :
  (∀ o, payment_columns (f o) = payment_columns o) →
  payment_columns <$> orders (db (query_update f orderId s).1) !! id
  = payment_columns <$> orders (db s) !! id.
Proof.
  intros Hf. unfold query_update, update_order.
  destruct (select_order (db s) orderId) as [[id0 o]|] eqn:Hsel; [|done].
  apply select_order_Some in Hsel as [_ Ho]. simpl.
  destruct (decide (id0 = id)) as [->|Hne].
  - rewrite lookup_insert_eq, Ho. simpl. by rewrite Hf.
  - by rewrite lookup_insert_ne.
Qed.

Ltac split_handler_columns id :=
  repeat match goal with
         | |- context [query_update ?f ?o ?s] =>
             let Hu := fresh "Hupd" in
             pose proof (query_update_columns f o s id (λ _, eq_refl)) as Hu;
             destruct (query_update f o s) as [? ?]; simpl in Hu
         | |- context [match ?x with _ => _ end] => destruct x eqn:?
         end.

Lemma autoRejectOrder_columns (orderId : string) (s : Server) (id : Z) :
  payment_columns <$> orders (db (autoRejectOrder orderId s)) !! id
  = payment_columns <$> orders (db s) !! id.
Proof. unfold autoRejectOrder. split_handler_columns id; simpl; congruence. Qed.

(** X5.  Accept, reject, the generic status update and a firing timer
    never change [payment_status], [total_price], [payment_session_id] or
    [payment_id] of any order, and never add or remove an order. *)
Theorem restaurant_side_keeps_payment_columns (op : Op) (s : Server) (id : Z) :
  restaurant_side op = true →
  payment_columns <$> orders (db (run_op op s)) !! id
  = payment_columns <$> orders (db s) !! id.
Proof.
  destruct op; try done; intros _; simpl.
  - unfold acceptOrder. split_handler_columns id; simpl; rewrite ?db_clear_timer in *; congruence.
  - unfold rejectOrder. split_handler_columns id; simpl; rewrite ?db_clear_timer in *; congruence.
  - unfold updateOrderStatus. split_handler_columns id; simpl; congruence.
  - unfold fire. destruct (timeouts s !! h); [|done].
    by rewrite autoRejectOrder_columns.
Qed.

Lemma restaurant_side_keeps_payment_columns_witness :
  payment_columns <$> orders (db (run_op (OpAccept "7" (Some "rest1")) paid_server)) !! 7
  = payment_columns <$> orders (db paid_server) !! 7.
Proof.
  apply (restaurant_side_keeps_payment_columns (OpAccept "7" (Some "rest1")) paid_server 7).
  reflexivity.
Defined.



(** X8.  The generic status update has two outcomes.  Either it fails
    and the whole server is as before; or the target is one of the seven
    allowed statuses, the order exists, a [pending] order is only moved to
    [cancelled], exactly the [status] column is written, both rooms get
    [orderStatusUpdated], and a push is requested exactly when the target
    is [delivered] and the restaurant has not set its notifications
    to 0. *)
Theorem updateOrderStatus_outcomes (orderId : string) (new_status : option string)
    (s : Server) :
  ((updateOrderStatus orderId new_status s).1 = s
   ∧ success (updateOrderStatus orderId new_status s).2 = false)
  ∨ ∃ target id o,
      new_status = Some target
      ∧ In target allowed
      ∧ select_order (db s) orderId = Some (id, o)
      ∧ (status o = "pending" → target = "cancelled")
      ∧ updateOrderStatus orderId new_status s =
          (let updated := (id, set_status target o) in
           let uid := restaurant_uid o in
           let s3 :=
             emit (Emit (customer_room (customer_uid o)) "orderStatusUpdated" updated)
               (emit (Emit (restaurant_room uid) "orderStatusUpdated" updated)
                  (with_db (with_orders (insert id (set_status target o))) s)) in
           if String.eqb target "delivered"
              && negb (default 1 (restaurant_preferences (db s) !! uid) =? 0)%Z
           then emit (Push uid ("Order #" +:+ pretty id +:+ " Delivered")
                           [("type", "orderStatusUpdated"); ("orderId", pretty id);
                            ("status", "delivered")]) s3
           else s3,
           respond 200 true "Status updated").
Proof.
  unfold updateOrderStatus.
  destruct new_status as [target|]; [|by left].
  cbn [missing default from_option]. unfold Datatypes.id.
  destruct (String.eqb target ""); [by left|].
  destruct (allowed_has target) eqn:Hal; [|by left].
  cbn [orb negb].
  destruct (select_order (db s) orderId) as [[id o]|] eqn:Hsel; [|by left].
  destruct (transition_guard (status o) target) eqn:Hg; [by left|].
  right. exists target, id, o. repeat split; try done.
  - unfold allowed_has in Hal. apply existsb_exists in Hal as (x & Hin & Hx).
    apply String.eqb_eq in Hx. by subst.
  - intros Hst. unfold transition_guard in Hg. rewrite Hst in Hg. simpl in Hg.
    destruct (String.eqb target "preparing") eqn:E1; [done|].
    destruct (String.eqb target "rejected") eqn:E2; [done|].
    destruct (String.eqb target "cancelled") eqn:E3; [|done].
    by apply String.eqb_eq.
  - rewrite (query_update_found _ _ _ _ _ Hsel). cbv beta iota.
    rewrite (select_after_update _ _ _ _ _ Hsel). done.
Qed.

(** X9.  Running the auto-reject callback twice is the same as running
    it once: the second run finds the order no longer [pending] and
    neither writes nor emits. *)
Theorem autoRejectOrder_idempotent (orderId : string) (s : Server) :
  autoRejectOrder orderId (autoRejectOrder orderId s) = autoRejectOrder orderId s.
Proof.
  destruct (select_order (db s) orderId) as [[id o]|] eqn:Hsel.
  - destruct (String.eqb (status o) "pending") eqn:Hst.
    + apply String.eqb_eq in Hst.
      rewrite (autoRejectOrder_pending _ _ _ _ Hsel Hst).
      apply autoRejectOrder_not_pending. intros id' o' Hsel'.
      apply select_order_Some in Hsel' as [Hid' Ho'].
      apply select_order_Some in Hsel as [Hid Ho].
      simpl in Ho'. assert (id' = id) as -> by congruence.
      rewrite lookup_insert_eq in Ho'. by simplify_eq.
    + assert (autoRejectOrder orderId s = s) as ->; [|].
      2: { unfold autoRejectOrder. by rewrite Hsel, Hst. }
      unfold autoRejectOrder. by rewrite Hsel, Hst.
  - assert (autoRejectOrder orderId s = s) as ->;
      unfold autoRejectOrder; by rewrite Hsel.
Qed.

(** ** Order creation *)

(** X10.  What [createOrder] can touch.  Unless it answers 201 or the
    failure of the gateway, the server is as before.  In every case it
    emits nothing and schedules nothing (the restaurant hears of an order
    only once it is paid), it leaves the restaurants, their preferences,
    the menu and the customers alone, and it leaves every existing order
    alone: the only row it can write is the one of the next id. *)
Theorem createOrder_footprint (r : Submission) (now : Z)
    (gateway : option (string * string)) (s : Server) :
  let s' := (createOrder r now gateway s).1 in
  (http_status (createOrder r now gateway s).2 = 201%nat
   ∨ error (createOrder r now gateway s).2
     = Some "Payment processing unavailable. Please try again."
   ∨ s' = s)
  ∧ emitted s' = emitted s
  ∧ timeouts s' = timeouts s
  ∧ orderTimers s' = orderTimers s
  ∧ restaurant_owners (db s') = restaurant_owners (db s)
  ∧ restaurant_preferences (db s') = restaurant_preferences (db s)
  ∧ menu_items1 (db s') = menu_items1 (db s)
  ∧ customers (db s') = customers (db s)
  ∧ ∀ id, id ≠ next_order_id (db s) → orders (db s') !! id = orders (db s) !! id.
Proof.
  intros s'. split; [apply createOrder_refusal_writes_nothing|].
  subst s'. unfold createOrder.
  destruct (missing_required_fields r); [done|].
  destruct (negb (valid_phone _)); [done|].
  destruct (read_coordinates _) as [|[la lo]]; [done|].
  unfold insert_validated_order.
  destruct (validate_submission _ _ _ _ _ _); [done|].
  destruct gateway as [[session cf]|]; simpl; repeat split; try done;
    intros id Hid; by rewrite lookup_alter_ne, lookup_insert_ne.
Qed.

(** X11.  When the checks pass and the gateway then fails, the order
    stays in the store under the next id, [cancelled] with
    [payment_status = failed] and with its line items; nothing is
    emitted; and a later [verifyPayment] for that order short-circuits
    with "Payment has already failed". *)
Theorem gateway_failure_cancels_the_order (r : Submission) (latitude longitude : option json)
    (now : Z) (s : Server) (d2 : Db) (id : Z) :
  well_formed r latitude longitude →
  insert_validated_order r latitude longitude now (db s) = inr (d2, id) →
  ∃ s' o, createOrder r now None s
            = (s', respond_error 500 false "Payment processing unavailable. Please try again.")
          ∧ id = next_order_id (db s)
          ∧ orders (db s') !! id = Some o
          ∧ status o = "cancelled" ∧ payment_status o = "failed"
          ∧ order_items (db s') = order_items d2
          ∧ emitted s' = emitted s
          ∧ (0 <= id → ∀ gateway,
               verifyPayment (pretty id) gateway s'
               = (s', respond 200 false "Payment has already failed")).
Proof.
  intros Hwf Hins.
  destruct (createOrder_gateway_failure _ _ _ _ _ _ _ Hwf Hins) as (s' & o & Hrun & Ho & Hst & Hps).
  exists s', o. repeat split; try done.
  - unfold insert_validated_order in Hins.
    destruct (validate_submission _ _ _ _ _ _); [done|]. simpl in Hins. by simplify_eq.
  - rewrite (createOrder_well_formed _ _ _ _ _ _ Hwf), Hins in Hrun. by simplify_eq.
  - rewrite (createOrder_well_formed _ _ _ _ _ _ Hwf), Hins in Hrun. by simplify_eq.
  - intros Hid gateway. apply verifyPayment_already_failed with (id := id) (o := o); [|by left].
    apply select_order_Some. split; [|done].
    destruct (pretty_Z_digits id Hid) as (Hds & Hne & Hval).
    by rewrite id_of_param_numeral, Hval.
Qed.

Lemma gateway_failure_cancels_the_order_witness :
  ∃ s' o, createOrder (sample_submission 504) 0 None (unpaid_server 1)
            = (s', respond_error 500 false "Payment processing unavailable. Please try again.")
          ∧ 8 = next_order_id (db (unpaid_server 1))
          ∧ orders (db s') !! 8 = Some o
          ∧ status o = "cancelled" ∧ payment_status o = "failed"
          ∧ order_items (db s') =
              order_items (insert_items 8 [mkItem 1 2]
                             (insert_order (new_row (sample_submission 504) (Some JNull)
                                                    (Some JNull) 0)
                                           (db (unpaid_server 1))).1)
          ∧ emitted s' = emitted (unpaid_server 1)
          ∧ (0 <= 8 → ∀ gateway,
               verifyPayment (pretty 8) gateway s'
               = (s', respond 200 false "Payment has already failed")).
Proof.
  apply (gateway_failure_cancels_the_order (sample_submission 504) (Some JNull) (Some JNull) 0
           (unpaid_server 1)
           (insert_items 8 [mkItem 1 2]
              (insert_order (new_row (sample_submission 504) (Some JNull) (Some JNull) 0)
                            (db (unpaid_server 1))).1) 8).
  - repeat split.
  - vm_compute. reflexivity.
Defined.


(** X12.  Whenever [createOrder] answers 201, the gateway had opened a
    session and the store holds, under the id that was next, a row in
    [payment_pending] / [pending] with that session, the declared total
    rounded to two places, a phone number of 10 to 15 digits, a
    restaurant that exists and is online, a customer that exists, and
    coordinates that are null or a latitude in [-90, 90] with a longitude
    in [-180, 180]; the line items are appended and the next id moves on
    by one. *)
Theorem created_order_row (r : Submission) (now : Z)
    (gateway : option (string * string)) (s : Server) :
  http_status (createOrder r now gateway s).2 = 201%nat →
  ∃ o session cf,
    gateway = Some (session, cf)
    ∧ orders (db (createOrder r now gateway s).1) !! next_order_id (db s) = Some o
    ∧ next_order_id (db (createOrder r now gateway s).1) = next_order_id (db s) + 1
    ∧ order_items (db (createOrder r now gateway s).1) =
        order_items (db s)
        ++ map (λ i, mkOrderItem (next_order_id (db s)) (item_menu_item_id i) (item_quantity i))
               (default [] (sub_items r))
    ∧ status o = "payment_pending" ∧ payment_status o = "pending"
    ∧ payment_session_id o = Some session ∧ payment_id o = Some cf
    ∧ total_price o = decimal_column (default 0%Q (sub_total_amount r))
    ∧ valid_phone (phone_number (details o)) = true
    ∧ is_online <$> restaurant_owners (db s) !! restaurant_uid o = Some 1
    ∧ is_Some (customers (db s) !! customer_uid o)
    ∧ (delivery_latitude (details o) = Some JNull
       ∨ delivery_longitude (details o) = Some JNull
       ∨ ∃ la lo, delivery_latitude (details o) = Some (JNum la)
                  ∧ delivery_longitude (details o) = Some (JNum lo)
                  ∧ (-90 <= la <= 90)%Q ∧ (-180 <= lo <= 180)%Q).
Proof.
  unfold createOrder.
  destruct (missing_required_fields r); [done|].
  destruct (valid_phone _) eqn:Hphone; [|done]. cbn [negb].
  destruct (read_coordinates _) as [|[la lo]] eqn:Hcoord; [done|].
  unfold insert_validated_order.
  destruct (validate_submission _ _ _ _ _ _) eqn:Hval; [done|].
  destruct gateway as [[session cf]|]; [|done]. intros _.
  eexists _, session, cf. split; [done|]. simpl.
  rewrite lookup_alter_eq, lookup_insert_eq. simpl.
  repeat split; try done.
  - unfold validate_submission in Hval.
    destruct (restaurant_owners (db s) !! _) as [rest|]; [|done]. simpl.
    destruct (is_online rest =? 1)%Z eqn:Hon; [|done].
    apply Z.eqb_eq in Hon. by rewrite Hon.
  - unfold validate_submission in Hval.
    destruct (restaurant_owners (db s) !! _) as [rest|]; [|done].
    destruct (negb _); [done|].
    by destruct (customers (db s) !! _).
  - unfold read_coordinates in Hcoord.
    repeat match type of Hcoord with
           | context [match ?x with _ => _ end] => destruct x eqn:?
           end; simplify_eq; auto.
    all: right; right; eexists _, _; repeat split; try done.
    all: repeat match goal with
                | H : _ || _ = false |- _ => apply orb_false_elim in H as [? ?]
                | H : negb _ = false |- _ => apply negb_false_iff in H
                | H : Qle_bool _ _ = true |- _ => apply Qle_bool_iff in H
                end; done.
Qed.

Lemma created_order_row_witness :
  ∃ o session cf,
    Some ("sess", "cf8") = Some (session, cf)
    ∧ orders (db (createOrder (sample_submission 504) 0 (Some ("sess", "cf8"))
                    (unpaid_server 1)).1) !! next_order_id (db (unpaid_server 1)) = Some o
    ∧ next_order_id (db (createOrder (sample_submission 504) 0 (Some ("sess", "cf8"))
                           (unpaid_server 1)).1) = next_order_id (db (unpaid_server 1)) + 1
    ∧ order_items (db (createOrder (sample_submission 504) 0 (Some ("sess", "cf8"))
                         (unpaid_server 1)).1) =
        order_items (db (unpaid_server 1))
        ++ map (λ i, mkOrderItem (next_order_id (db (unpaid_server 1)))
                                 (item_menu_item_id i) (item_quantity i))
               (default [] (sub_items (sample_submission 504)))
    ∧ status o = "payment_pending" ∧ payment_status o = "pending"
    ∧ payment_session_id o = Some session ∧ payment_id o = Some cf
    ∧ total_price o = decimal_column (default 0%Q (sub_total_amount (sample_submission 504)))
    ∧ valid_phone (phone_number (details o)) = true
    ∧ is_online <$> restaurant_owners (db (unpaid_server 1)) !! restaurant_uid o = Some 1
    ∧ is_Some (customers (db (unpaid_server 1)) !! customer_uid o)
    ∧ (delivery_latitude (details o) = Some JNull
       ∨ delivery_longitude (details o) = Some JNull
       ∨ ∃ la lo, delivery_latitude (details o) = Some (JNum la)
                  ∧ delivery_longitude (details o) = Some (JNum lo)
                  ∧ (-90 <= la <= 90)%Q ∧ (-180 <= lo <= 180)%Q).
Proof.
  apply (created_order_row (sample_submission 504) 0 (Some ("sess", "cf8")) (unpaid_server 1)).
  vm_compute. reflexivity.
Defined.











(** ** The restaurant's settings *)

Lemma zero_or_one_cases (v : option json) (z : Z) :
  zero_or_one v = Some z → z = 0 ∨ z = 1.
Proof.
  destruct v as [[| |q| | |]|]; try done. simpl.
  destruct (Qeq_bool q 0); [intros [= <-]; by left|].
  destruct (Qeq_bool q 1); [intros [= <-]; by right|done].
Qed.

(** X17.  A notification preference that was stored is the one read
    back: after a successful PUT of [order_notifications] (0 or 1, nothing
    else is accepted), the GET for the same [uid] answers that value. *)
Theorem notification_preferences_round_trip (uid : string) (v : option json) (s : Server) :
  success (updateNotificationPreferences uid v s).2 = true →
  ∃ z, zero_or_one v = Some z
       ∧ getNotificationPreferences uid (updateNotificationPreferences uid v s).1
         = (mkResponse 200 true None None, Some z).
Proof.
  unfold updateNotificationPreferences, getNotificationPreferences.
  destruct (zero_or_one v) as [z|] eqn:Hz; [|done].
  destruct (validateRestaurantUid_guarded (trim uid) (db s)) eqn:Hval; [done|].
  intros _. exists z. split; [done|]. simpl.
  assert (validateRestaurantUid_guarded (trim uid)
            (with_preferences (insert (trim uid) z) (db s)) = inr u) as ->
    by exact Hval.
  rewrite lookup_insert_eq.
  by destruct (zero_or_one_cases _ _ Hz) as [-> | ->].
Qed.

Lemma notification_preferences_round_trip_witness :
  ∃ z, zero_or_one (Some (JNum 0)) = Some z
       ∧ getNotificationPreferences " rest1"
           (updateNotificationPreferences " rest1" (Some (JNum 0)) (unpaid_server 1)).1
         = (mkResponse 200 true None None, Some z).
Proof.
  apply (notification_preferences_round_trip " rest1" (Some (JNum 0)) (unpaid_server 1)).
  reflexivity.
Defined.

Lemma muted_cannot_be_notified (uid : string) (s : Server) :
  success (updateNotificationPreferences uid (Some (JNum 0)) s).2 = true →
  can_be_notified (db (updateNotificationPreferences uid (Some (JNum 0)) s).1) (trim uid)
  = false.
Proof.
  unfold updateNotificationPreferences. simpl.
  destruct (validateRestaurantUid_guarded _ _); [done|]. intros _.
  unfold can_be_notified, restaurant_status. simpl.
  destruct (restaurant_owners (db s) !! trim uid) as [r|]; [|done]. simpl.
  rewrite lookup_insert_eq. simpl. apply andb_false_r.
Qed.

Lemma offline_cannot_be_notified (uid : string) (v : json) (s : Server) :
  truthy (Some v) = false →
  success (updateRestaurantStatus uid (Some v) s).2 = true →
  restaurant_owners (db (updateRestaurantStatus uid (Some v) s).1) !! trim uid
  = Some (mkRestaurant 0)
  ∧ can_be_notified (db (updateRestaurantStatus uid (Some v) s).1) (trim uid) = false.
Proof.
  intros Hv. unfold updateRestaurantStatus.
  destruct v; try done; rewrite ?Hv.
  all: destruct (restaurant_owners (db s) !! trim uid) as [r|] eqn:Hr; [|done]; intros _.
  all: unfold can_be_notified, restaurant_status; simpl.
  all: by rewrite lookup_insert_eq.
Qed.

(** X18.  After a restaurant has set [order_notifications] to 0, or has
    gone offline through the status endpoint, a webhook that confirms the
    payment of one of its orders writes the payment, parks the order in
    [pending_restaurant_online], starts no timer, and emits to the
    customer only. *)
Theorem silenced_restaurant_is_not_notified (binding : option Validator) (body : Body)
    (s s1 : Server) (uid orderId : string) (id : Z) (o : Order) :
  (s1 = (updateNotificationPreferences uid (Some (JNum 0)) s).1
   ∧ success (updateNotificationPreferences uid (Some (JNum 0)) s).2 = true)
  ∨ (∃ v, truthy (Some v) = false
          ∧ s1 = (updateRestaurantStatus uid (Some v) s).1
          ∧ success (updateRestaurantStatus uid (Some v) s).2 = true) →
  trim uid = restaurant_uid o →
  body_is_empty body = false →
  extract_order_id (body_value body) = Some orderId →
  orderId ≠ "" →
  select_order (db s1) orderId = Some (id, o) →
  payment_status o ≠ "success" →
  is_string "SUCCESS" (extract_payment_status (body_value body))
  || is_string "PAID" (extract_payment_status (body_value body)) = true →
  amount_present (extract_payment_amount (body_value body)) = false →
  let s' := (webhook_with binding body s1).1 in
  let paid := set_status_payment "pending" "success" o in
  orders (db s') !! id = Some (set_status "pending_restaurant_online" paid)
  ∧ timeouts s' = timeouts s1
  ∧ orderTimers s' = orderTimers s1
  ∧ emitted s' =
      emitted s1 ++ [Emit (customer_room (customer_uid o)) "orderStatusUpdated" (id, paid)].
Proof.
  intros Hs1 Huid Hbody Hid Hne Hsel Hps Hst Hamt s' paid.
  assert (can_be_notified (db s1) (restaurant_uid o) = false) as Hoff.
  { rewrite <-Huid. destruct Hs1 as [[-> Hok]|(v & Hv & -> & Hok)].
    - by apply muted_cannot_be_notified.
    - by apply offline_cannot_be_notified. }
  subst s'.
  rewrite (webhook_with_unpaid body s1 orderId id o Hbody Hid Hne Hsel Hps).
  unfold map_payment_status. rewrite Hst, Hamt.
  rewrite (apply_mapping_found _ _ _ _ _ _ _ Hsel).
  pose proof (select_after_update (set_status_payment "pending" "success") _ _ _ _ Hsel) as Hsel1.
  destruct (notify_restaurant_offline orderId id paid
              (with_db (with_orders (insert id paid)) s1) Hoff Hsel1) as (Hdb & Hto & Hot & Hem).
  change (true && String.eqb "success" "success") with true. cbv zeta. fold paid.
  set (parked := notify_restaurant orderId (id, paid) _) in *.
  simpl. rewrite Hdb, Hto, Hot, Hem. simpl.
  by rewrite lookup_insert_eq.
Qed.

Lemma silenced_restaurant_is_not_notified_witness :
  let s1 := (updateNotificationPreferences "rest1" (Some (JNum 0)) (unpaid_server 1)).1 in
  let s' := (webhook_with None sample_body_without_amount s1).1 in
  let paid := set_status_payment "pending" "success" (sample_order "payment_pending" "pending") in
  orders (db s') !! 7 = Some (set_status "pending_restaurant_online" paid)
  ∧ timeouts s' = timeouts s1
  ∧ orderTimers s' = orderTimers s1
  ∧ emitted s' =
      emitted s1 ++ [Emit (customer_room (customer_uid (sample_order "payment_pending" "pending")))
                          "orderStatusUpdated" (7, paid)].
Proof.
  apply (silenced_restaurant_is_not_notified None sample_body_without_amount
           (unpaid_server 1)
           (updateNotificationPreferences "rest1" (Some (JNum 0)) (unpaid_server 1)).1
           "rest1" "7" 7 (sample_order "payment_pending" "pending")).
  - left. split; reflexivity.
  - reflexivity.
  - reflexivity.
  - reflexivity.
  - discriminate.
  - vm_compute. reflexivity.
  - discriminate.
  - reflexivity.
  - reflexivity.
Defined.

(** X19.  After a restaurant has gone offline through the status
    endpoint, [createOrder] for it fails and writes nothing; a submission
    that passes the request checks is answered "Restaurant is currently
    offline". *)
Theorem offline_restaurant_takes_no_orders (uid : string) (v : json) (s : Server)
    (r : Submission) (now : Z) (gateway : option (string * string)) :
  truthy (Some v) = false →
  success (updateRestaurantStatus uid (Some v) s).2 = true →
  sub_restaurant_uid r = Some (trim uid) →
  let s1 := (updateRestaurantStatus uid (Some v) s).1 in
  (createOrder r now gateway s1).1 = s1
  ∧ success (createOrder r now gateway s1).2 = false
  ∧ ∀ la lo, well_formed r la lo →
             error (createOrder r now gateway s1).2 = Some "Restaurant is currently offline".
Proof.
  intros Hv Hok Hr s1.
  destruct (offline_cannot_be_notified uid v s Hv Hok) as [Hrest _]. fold s1 in Hrest.
  assert (∀ la lo, insert_validated_order r la lo now (db s1)
                   = inl (Error "Restaurant is currently offline")) as Hins.
  { intros la lo. unfold insert_validated_order, validate_submission.
    rewrite Hr. cbn [default from_option]. unfold Datatypes.id. by rewrite Hrest. }
  repeat split.
  - unfold createOrder. destruct (missing_required_fields r); [done|].
    destruct (negb _); [done|]. destruct (read_coordinates _) as [|[la lo]]; [done|].
    by rewrite Hins.
  - unfold createOrder. destruct (missing_required_fields r); [done|].
    destruct (negb _); [done|]. destruct (read_coordinates _) as [|[la lo]]; [done|].
    by rewrite Hins.
  - intros la lo Hwf. by rewrite (createOrder_well_formed _ _ _ _ _ _ Hwf), Hins.
Qed.

Lemma offline_restaurant_takes_no_orders_witness :
  let s1 := (updateRestaurantStatus "rest1" (Some (JBool false)) (unpaid_server 1)).1 in
  (createOrder (sample_submission 504) 0 None s1).1 = s1
  ∧ success (createOrder (sample_submission 504) 0 None s1).2 = false
  ∧ ∀ la lo, well_formed (sample_submission 504) la lo →
             error (createOrder (sample_submission 504) 0 None s1).2
             = Some "Restaurant is currently offline".
Proof.
  apply (offline_restaurant_takes_no_orders "rest1" (JBool false) (unpaid_server 1)
           (sample_submission 504) 0 None).
  - reflexivity.
  - reflexivity.
  - reflexivity.
Defined.

(** ** The menu *)

Lemma update_menu_item_lookup (f : MenuItem → MenuItem) (live : bool)
    (id restaurant : string) (d : Db) (j : Z) :
  menu_items1 (update_menu_item f live id restaurant d).1 !! j = menu_items1 d !! j
  ∨ (id_of_param id = Some j
     ∧ ∃ m, menu_items1 d !! j = Some m
            ∧ item_restaurant_uid m = restaurant
            ∧ (live = true → is_deleted m = 0)
            ∧ update_menu_item f live id restaurant d = (with_menu (insert j (f m)) d, 1%nat)).
Proof.
  unfold update_menu_item.
  destruct (id_of_param id) as [i|]; [|by left].
  destruct (menu_items1 d !! i) as [m|] eqn:Hm; [|by left].
  destruct (String.eqb (item_restaurant_uid m) restaurant) eqn:Hr; [|by left].
  destruct (negb live || (is_deleted m =? 0)%Z) eqn:Hl; [|by left].
  simpl.
  destruct (decide (i = j)) as [->|Hij]; [|left; by rewrite lookup_insert_ne].
  right. split; [done|]. exists m. apply String.eqb_eq in Hr. repeat split; try done.
  intros ->. simpl in Hl. by apply Z.eqb_eq.
Qed.

Lemma updateAvailability_lookup (id : string) (v : option json) (uid : option string)
    (s : Server) (j : Z) :
  menu_items1 (db (updateAvailability id v uid s).1) !! j = menu_items1 (db s) !! j
  ∨ (id_of_param id = Some j
     ∧ ∃ m u, menu_items1 (db s) !! j = Some m
              ∧ uid = Some u
              ∧ item_restaurant_uid m = trim u
              ∧ is_deleted m = 0).
Proof.
  unfold updateAvailability.
  destruct uid as [u|]; [|left; by destruct (negb _)].
  destruct (negb _ || _); [by left|]. cbn [fmap option_fmap option_map default from_option].
  unfold Datatypes.id.
  destruct (validateRestaurantUid _ _); [by left|].
  destruct (update_menu_item_lookup (set_available (if truthy v then 1 else 0)) true id
              (trim u) (db s) j) as [H|(Hid & m & Hm & Hr & Hl & Hupd)].
  - destruct (update_menu_item _ true id (trim u) (db s)) as [d n].
    destruct (n =? 0)%nat; left; [done|]. exact H.
  - right. split; [done|]. exists m, u. auto.
Qed.

Lemma deleteMenuItem_lookup (id : string) (uid : option string) (s : Server) (j : Z) :
  menu_items1 (db (deleteMenuItem id uid s).1) !! j = menu_items1 (db s) !! j
  ∨ (id_of_param id = Some j
     ∧ ∃ m u, menu_items1 (db s) !! j = Some m
              ∧ uid = Some u
              ∧ item_restaurant_uid m = trim u
              ∧ is_deleted m = 0).
Proof.
  unfold deleteMenuItem.
  destruct uid as [u|]; [|by left].
  destruct (missing _); [by left|]. cbn [fmap option_fmap option_map default from_option].
  unfold Datatypes.id.
  destruct (validateRestaurantUid _ _); [by left|].
  destruct (select_live_item (db s) id (trim u)) as [[i m]|] eqn:Hlive; [|by left].
  unfold select_live_item in Hlive.
  destruct (id_of_param id) as [i'|] eqn:Hid; [|done]. simpl in Hlive.
  destruct (menu_items1 (db s) !! i') as [m'|] eqn:Hm; [|done]. simpl in Hlive.
  destruct (String.eqb (item_restaurant_uid m') (trim u)) eqn:Hr; [|done].
  destruct (is_deleted m' =? 0)%Z eqn:Hdel; [|done].
  simpl in Hlive. simplify_eq.
  destruct (update_menu_item_lookup set_deleted false id (trim u) (db s) j)
    as [H|(Hid' & m' & Hm' & Hr' & _)].
  - destruct (update_menu_item _ false id (trim u) (db s)) as [d n].
    destruct (n =? 0)%nat; left; [done|]. exact H.
  - right. rewrite Hid in Hid'. simplify_eq. split; [done|].
    exists m, u. apply Z.eqb_eq in Hdel. auto.
Qed.



(** An item marked deleted is left as it is by both endpoints. *)
Lemma deleted_is_kept (c : MenuCall) (s : Server) (i : Z) (m : MenuItem) :
  menu_items1 (db s) !! i = Some m → is_deleted m = 1 →
  menu_items1 (db (run_menu_call c s)) !! i = Some m.
Proof.
  intros Hm Hdel. rewrite <-Hm.
  destruct c as [id v uid|id uid]; simpl.
  - destruct (updateAvailability_lookup id v uid s i)
      as [H|(_ & m' & u & Hm' & _ & _ & Hd)]; [done|].
    rewrite Hm in Hm'. simplify_eq. lia.
  - destruct (deleteMenuItem_lookup id uid s i)
      as [H|(_ & m' & u & Hm' & _ & _ & Hd)]; [done|].
    rewrite Hm in Hm'. simplify_eq. lia.
Qed.

Lemma deleted_is_kept_by_calls (cs : list MenuCall) (s : Server) (i : Z) (m : MenuItem) :
  menu_items1 (db s) !! i = Some m → is_deleted m = 1 →
  menu_items1 (db (run_menu_calls cs s)) !! i = Some m.
Proof.
  revert s. induction cs as [|c cs IH]; intros s Hm Hdel; [done|].
  simpl. apply IH; [|done]. by apply deleted_is_kept.
Qed.

Lemma calculate_subtotal_unavailable (d : Db) (restaurant : string) (items : list Item)
    (acc : Q) (item : Item) :
  In item items →
  select_menu_item d (item_menu_item_id item) restaurant = None →
  ∃ e, calculate_subtotal d restaurant items acc = inl e.
Proof.
  revert acc. induction items as [|x items IH]; intros acc Hin Hnone; [done|].
  simpl. destruct (select_menu_item d (item_menu_item_id x) restaurant) as [m|] eqn:Hx.
  - destruct Hin as [->|Hin]; [congruence|]. by apply IH.
  - by eexists.
Qed.

(** X21.  Once a menu item has been deleted, no later call of the
    availability or delete endpoints brings it back: no restaurant can
    select it, and every order that lists it fails and writes nothing. *)
Theorem deleted_item_stays_unorderable (id : string) (uid : option string) (s : Server)
    (cs : list MenuCall) (i : Z) :
  success (deleteMenuItem id uid s).2 = true →
  id_of_param id = Some i →
  let s' := run_menu_calls cs (deleteMenuItem id uid s).1 in
  (∀ restaurant, select_menu_item (db s') i restaurant = None)
  ∧ ∀ r now gateway quantity,
      In (mkItem i quantity) (default [] (sub_items r)) →
      success (createOrder r now gateway s').2 = false ∧ (createOrder r now gateway s').1 = s'.
Proof.
  intros Hok Hid s'.
  assert (∃ m, menu_items1 (db (deleteMenuItem id uid s).1) !! i = Some m ∧ is_deleted m = 1)
    as (m & Hm & Hdel).
  { unfold deleteMenuItem in *.
    destruct (missing _); [done|].
    destruct (validateRestaurantUid _ _); [done|].
    destruct (select_live_item _ _ _) as [[i' m']|]; [|done].
    unfold update_menu_item in *. rewrite Hid in *.
    destruct (menu_items1 (db s) !! i) as [m|]; [|done].
    destruct (_ && _); [|done]. simpl.
    exists (set_deleted m). by rewrite lookup_insert_eq. }
  assert (∀ restaurant, select_menu_item (db s') i restaurant = None) as Hsel.
  { intros restaurant. unfold select_menu_item, s'.
    rewrite (deleted_is_kept_by_calls cs _ i m Hm Hdel), Hdel.
    by rewrite andb_false_r. }
  split; [done|].
  intros r now gateway quantity Hin.
  destruct (calculate_subtotal_unavailable (db s') (default "" (sub_restaurant_uid r))
              _ 0%Q _ Hin (Hsel _)) as [e He].
  assert (∀ la lo, ∃ e', insert_validated_order r la lo now (db s') = inl e') as Hins.
  { intros la lo. unfold insert_validated_order, validate_submission.
    destruct (restaurant_owners (db s') !! _); [|by eexists].
    destruct (negb _); [by eexists|].
    destruct (customers (db s') !! _); [|by eexists].
    rewrite He. by eexists. }
  unfold createOrder.
  destruct (missing_required_fields r); [done|].
  destruct (negb (valid_phone _)); [done|].
  destruct (read_coordinates _) as [|[la lo]]; [done|].
  destruct (Hins la lo) as [e' ->]. done.
Qed.

Lemma deleted_item_stays_unorderable_witness :
  let s' := run_menu_calls [AvailabilityCall "1" (Some (JBool true)) (Some "rest1")]
              (deleteMenuItem "1" (Some "rest1") (unpaid_server 1)).1 in
  (∀ restaurant, select_menu_item (db s') 1 restaurant = None)
  ∧ ∀ r now gateway quantity,
      In (mkItem 1 quantity) (default [] (sub_items r)) →
      success (createOrder r now gateway s').2 = false ∧ (createOrder r now gateway s').1 = s'.
Proof.
  apply (deleted_item_stays_unorderable "1" (Some "rest1") (unpaid_server 1)
           [AvailabilityCall "1" (Some (JBool true)) (Some "rest1")] 1).
  - reflexivity.
  - reflexivity.
Defined.

(** ** Customers and their addresses *)

Lemma validate_each_result (i : nat) (items : list json) (l : list string) :
  Customers.validate_each i items = inr l →
  length l = length items
  ∧ Forall (λ a, a ≠ "" ∧ trim a = a) l
  ∧ Forall2 (λ v a, ∃ raw, v = JStr raw ∧ a = trim raw) items l
  ∧ ∀ j, Customers.validate_each j (JStr <$> l) = inr l.
Proof.
  revert i l. induction items as [|v items IH]; intros i l; simpl.
  - intros [= <-]. repeat split; by constructor.
  - destruct v as [| | |a| |]; try done.
    destruct (String.eqb (trim a) "") eqn:Ha; [done|]. apply String.eqb_neq in Ha.
    destruct (Customers.validate_each (S i) items) as [|l'] eqn:Hrest; [done|].
    intros [= <-]. destruct (IH _ _ Hrest) as (Hlen & Hall & Hrel & Hagain).
    repeat split.
    + simpl. by rewrite Hlen.
    + constructor; [|done]. split; [done|]. apply trim_idempotent.
    + constructor; [by eexists|done].
    + intros j. simpl. rewrite trim_idempotent.
      rewrite (String_eqb_neq_false _ _ Ha). by rewrite Hagain.
Qed.

Lemma validateAddresses_inr (addresses : option json) (l : list string) :
  Customers.validateAddresses addresses = inr l →
  (length l ≤ 3)%nat
  ∧ Forall (λ a, a ≠ "" ∧ trim a = a) l
  ∧ (∀ items, addresses = Some (JArr items) →
              Forall2 (λ v a, ∃ raw, v = JStr raw ∧ a = trim raw) items l)
  ∧ Customers.validateAddresses (Some (JArr (JStr <$> l))) = inr l.
Proof.
  unfold Customers.validateAddresses.
  destruct addresses as [[| | | |items|]|]; try done.
  - destruct (3 <? length items)%nat eqn:Hlen; [done|]. apply Nat.ltb_ge in Hlen.
    intros (Hl & Hall & Hrel & Hagain)%validate_each_result.
    repeat split; try done.
    + lia.
    + intros items' [= <-]. done.
    + rewrite length_fmap. assert ((3 <? length l)%nat = false) as -> by (apply Nat.ltb_ge; lia).
      apply Hagain.
  - intros [= <-]. repeat split; [simpl; lia|constructor|done].
Qed.



Lemma bounded_insert (t : gmap string Customers.Customer) (uid : string) (c : Customers.Customer) :
  Customers.bounded t →
  (∀ items, Customers.address c = Some (JArr items) → (length items ≤ 3)%nat) →
  Customers.bounded (<[uid := c]> t).
Proof.
  intros Ht Hc uid' c' items. destruct (decide (uid = uid')) as [->|Hne].
  - rewrite lookup_insert_eq. intros [= <-]. apply Hc.
  - rewrite lookup_insert_ne by done. apply Ht.
Qed.

Lemma sample_customers_bounded : Customers.bounded sample_customers.
Proof.
  intros uid c items H. unfold sample_customers in H.
  apply lookup_singleton_Some in H as [<- <-]. intros [= <-]. simpl. lia.
Qed.

(** X23.  No customer ever has more than three saved addresses: each
    of the four endpoints that write the [address] column keeps that
    bound. *)
Theorem addresses_stay_bounded (q : Customers.Request) (t : gmap string Customers.Customer) :
  Customers.bounded t → Customers.bounded (Customers.handle q t).1.
Proof.
  intros Ht. destruct q as [uid name email phone addresses|uid a|uid index|uid addresses]; simpl.
  - unfold Customers.registerCustomer.
    destruct (_ || _); [done|].
    destruct (Customers.validateAddresses _) as [|l] eqn:Hval; [done|].
    apply validateAddresses_inr in Hval as (Hlen & _).
    destruct (t !! default "" uid); simpl; apply bounded_insert; try done;
      simpl; intros items [= <-]; by rewrite length_fmap.
  - unfold Customers.addAddress.
    destruct a as [[| | |a| |]|]; try done.
    destruct (String.eqb (trim a) ""); [done|].
    destruct (t !! uid) as [c|]; [|done].
    destruct (Customers.parseJsonSafe _ _) as [| | | |current|]; try done.
    destruct (3 <=? length current)%nat eqn:Hlen; [done|]. apply Nat.leb_gt in Hlen.
    simpl. apply bounded_insert; [done|]. simpl. intros items [= <-].
    rewrite length_app. simpl. lia.
  - unfold Customers.removeAddress.
    destruct (Customers.parseInt10 index) as [idx|]; [|done].
    destruct (idx <? 0)%Z eqn:Hneg; [done|].
    destruct (t !! uid) as [c|] eqn:Hc; [|done].
    destruct (Customers.parseJsonSafe _ _) as [| | | |current|] eqn:Hcur; try done.
    destruct (Z.of_nat (length current) <=? idx)%Z eqn:Hidx; [done|].
    simpl. apply bounded_insert; [done|]. simpl. intros items [= <-].
    assert (length current ≤ 3)%nat as Hlen.
    { unfold Customers.parseJsonSafe in Hcur.
      destruct (Customers.address c) as [v|] eqn:Hv; simpl in Hcur; subst.
      - by apply (Ht uid c).
      - simplify_eq. simpl. lia. }
    rewrite length_delete; [lia|]. apply lookup_lt_is_Some. lia.
  - unfold Customers.replaceAddresses.
    destruct addresses as [[| | | |items|]|]; try done.
    destruct (3 <? length items)%nat eqn:Hlen; [done|]. apply Nat.ltb_ge in Hlen.
    destruct (t !! trim uid) as [c|]; [|done].
    simpl. apply bounded_insert; [done|]. simpl. by intros items' [= <-].
Qed.

Lemma addresses_stay_bounded_witness :
  Customers.bounded
    (Customers.handle (Customers.AddAddress "cust1" (Some (JStr "Flat 4"))) sample_customers).1
  ∧ success
      (Customers.handle (Customers.AddAddress "cust1" (Some (JStr "Flat 4"))) sample_customers).2
    = true.
Proof.
  split; [|reflexivity].
  apply (addresses_stay_bounded (Customers.AddAddress "cust1" (Some (JStr "Flat 4")))
           sample_customers).
  exact sample_customers_bounded.
Defined.




(** ** Verification of a restaurant *)

Lemma documented_handle (q : Verification.Request) (t : gmap string Verification.Status) :
  Verification.documented t → Verification.documented (Verification.handle q t).
Proof.
  intros Ht. destruct q as [uid|uid new_status notes]; simpl.
  - unfold Verification.documentsSubmitted.
    destruct (t !! trim uid) as [st|]; [|done]. simpl.
    intros uid' st'. destruct (decide (trim uid = uid')) as [<-|Hne].
    + rewrite lookup_insert_eq. by intros [= <-].
    + rewrite lookup_insert_ne by done. apply Ht.
  - unfold Verification.adminVerification.
    destruct new_status as [[| | |status| |]|]; try done.
    destruct (_ || _); [|done].
    destruct (t !! trim uid) as [st|]; [|done].
    destruct (Verification.documents_submitted st =? 1)%Z eqn:Hdocs; [|done].
    apply Z.eqb_eq in Hdocs. simpl.
    intros uid' st'. destruct (decide (trim uid = uid')) as [<-|Hne].
    + rewrite lookup_insert_eq. by intros [= <-].
    + rewrite lookup_insert_ne by done. apply Ht.
Qed.

Lemma sample_verification_documented : Verification.documented sample_verification.
Proof.
  intros uid st H. unfold sample_verification in H.
  apply lookup_singleton_Some in H as [<- <-]. discriminate.
Qed.

(** X25.  Through the documents-submitted and admin-verification
    endpoints a restaurant never becomes [verified] without documents on
    file: after any sequence of such requests, whenever the
    verification-status endpoint answers [can_access_dashboard: true] it
    answers [documents_submitted: true] as well. *)
Theorem verified_restaurants_are_documented (qs : list Verification.Request)
    (t : gmap string Verification.Status) (uid : string) :
  Verification.documented t →
  let t' := fold_left (λ t q, Verification.handle q t) qs t in
  Verification.documented t'
  ∧ ∀ data, (Verification.verificationStatus uid t').2 = Some data →
            Verification.can_access_dashboard data = true →
            Verification.data_documents_submitted data = true.
Proof.
  intros Ht t'.
  assert (Verification.documented t') as Ht'.
  { subst t'. revert t Ht. induction qs as [|q qs IH]; intros t Ht; [done|].
    simpl. apply IH. by apply documented_handle. }
  split; [done|].
  unfold Verification.verificationStatus.
  destruct (t' !! trim uid) as [st|] eqn:Hst; [|done]. simpl.
  intros data [= <-]. simpl. intros Hv%String.eqb_eq.
  apply Z.eqb_eq. by apply (Ht' (trim uid)).
Qed.

Lemma verified_restaurants_are_documented_witness :
  let t' := fold_left (λ t q, Verification.handle q t)
              [Verification.AdminVerification "rest1" (Some (JStr "verified")) None;
               Verification.DocumentsSubmitted "rest1";
               Verification.AdminVerification "rest1" (Some (JStr "verified")) None]
              sample_verification in
  Verification.documented t'
  ∧ ∀ data, (Verification.verificationStatus "rest1" t').2 = Some data →
            Verification.can_access_dashboard data = true →
            Verification.data_documents_submitted data = true.
Proof.
  apply (verified_restaurants_are_documented
           [Verification.AdminVerification "rest1" (Some (JStr "verified")) None;
            Verification.DocumentsSubmitted "rest1";
            Verification.AdminVerification "rest1" (Some (JStr "verified")) None]
           sample_verification "rest1").
  exact sample_verification_documented.
Defined.

(** ** The older payment paths and status update *)

Lemma legacy_select_unpaid (d : Db) (orderId : string) (id : Z) (o : Order) :
  select_order d orderId = Some (id, o) → payment_status o = "pending" →
  LegacyFlow.select_unpaid d orderId = Some (id, o).
Proof. intros Hsel Hps. unfold LegacyFlow.select_unpaid. by rewrite Hsel, Hps. Qed.

Lemma legacy_find_success_none (payments : list json) :
  Forall (λ p, p ≠ JNull ∧ is_string "SUCCESS" (prop "payment_status" (Some p)) = false)
         payments →
  LegacyFlow.find_success payments = inr None.
Proof.
  induction 1 as [|p ps [Hnull Hp] _ IH]; [done|].
  cbn [LegacyFlow.find_success]. rewrite Hp, IH. by destruct p.
Qed.

(** X26.  The older verify-payment never reads the amount: one
    successful attempt of any amount confirms an order whose payment is
    [pending] and emits [newOrder]; and without a successful attempt it
    writes nothing (the order is not cancelled). *)
Theorem legacy_verifyPayment_ignores_amount (orderId : string) (amount : json)
    (payments : list json) (s : Server) (id : Z) (o : Order) :
  select_order (db s) orderId = Some (id, o) →
  payment_status o = "pending" →
  Forall (λ p, p ≠ JNull ∧ is_string "SUCCESS" (prop "payment_status" (Some p)) = false)
         payments →
  let paid := set_status_payment "pending" "success" o in
  LegacyFlow.verifyPayment orderId
    (Some (JArr (payments ++
                 [JObj [("payment_status", JStr "SUCCESS"); ("payment_amount", amount)]]))) s
  = (emit (Emit (restaurant_room (restaurant_uid o)) "newOrder" (id, paid))
          (with_db (with_orders (insert id paid)) s),
     respond 200 true "Payment verified successfully")
  ∧ LegacyFlow.verifyPayment orderId (Some (JArr payments)) s
    = (s, respond 200 false "Payment not completed").
Proof.
  intros Hsel Hps Hpayments paid. unfold LegacyFlow.verifyPayment.
  rewrite (legacy_select_unpaid _ _ _ _ Hsel Hps). split.
  - assert (∃ p, LegacyFlow.find_success
               (payments ++ [JObj [("payment_status", JStr "SUCCESS");
                                   ("payment_amount", amount)]]) = inr (Some p)) as [p ->].
    { clear -Hpayments. induction Hpayments as [|p ps [Hnull Hp] _ IH]; [by eexists|].
      rewrite <-app_comm_cons. cbn [LegacyFlow.find_success]. rewrite Hp.
      destruct IH as [p' ->]. exists p'. by destruct p. }
    rewrite (query_update_found _ _ _ _ _ Hsel). cbv beta iota.
    by rewrite (select_after_update _ _ _ _ _ Hsel).
  - by rewrite (legacy_find_success_none _ Hpayments).
Qed.

Lemma legacy_verifyPayment_ignores_amount_witness :
  let paid := set_status_payment "pending" "success" (sample_order "payment_pending" "pending") in
  LegacyFlow.verifyPayment "7"
    (Some (JArr ([JObj [("payment_status", JStr "FAILED")]] ++
                 [JObj [("payment_status", JStr "SUCCESS"); ("payment_amount", JNum 1)]])))
    (unpaid_server 1)
  = (emit (Emit (restaurant_room (restaurant_uid (sample_order "payment_pending" "pending")))
                "newOrder" (7, paid))
          (with_db (with_orders (insert 7 paid)) (unpaid_server 1)),
     respond 200 true "Payment verified successfully")
  ∧ LegacyFlow.verifyPayment "7" (Some (JArr [JObj [("payment_status", JStr "FAILED")]]))
      (unpaid_server 1)
    = (unpaid_server 1, respond 200 false "Payment not completed").
Proof.
  apply (legacy_verifyPayment_ignores_amount "7" (JNum 1)
           [JObj [("payment_status", JStr "FAILED")]] (unpaid_server 1) 7
           (sample_order "payment_pending" "pending")).
  - vm_compute. reflexivity.
  - reflexivity.
  - repeat constructor; discriminate.
Defined.

(** X27.  The older webhook has no guard at all: for every existing
    order, paid or not, it overwrites [payment_status] and [status] with
    what the reported status maps to ([pending] / [pending] for a status
    it does not know) and emits [orderStatusUpdated] to both rooms. *)
Theorem legacy_webhook_has_no_guard (body : Body) (s : Server) (orderId : string)
    (id : Z) (o : Order) :
  body_is_empty body = false →
  extract_order_id (body_value body) = Some orderId →
  orderId ≠ "" →
  select_order (db s) orderId = Some (id, o) →
  let mapped := LegacyFlow.map_payment_status (extract_payment_status (body_value body)) in
  let written := set_status_payment mapped.2 mapped.1 o in
  LegacyFlow.webhookPaymentEvent body s =
    (emit (Emit (customer_room (customer_uid o)) "orderStatusUpdated" (id, written))
       (emit (Emit (restaurant_room (restaurant_uid o)) "orderStatusUpdated" (id, written))
          (with_db (with_orders (insert id written)) s)),
     respond 200 true "Webhook processed").
Proof.
  intros Hbody Hid Hne Hsel mapped written. unfold LegacyFlow.webhookPaymentEvent.
  rewrite Hbody, Hid, (String_eqb_neq_false _ _ Hne).
  subst written mapped.
  destruct (LegacyFlow.map_payment_status _) as [ps st]. simpl.
  rewrite (query_update_found _ _ _ _ _ Hsel). cbv beta iota.
  change (0 <? 1)%nat with true. cbv beta iota.
  by rewrite (select_after_update _ _ _ _ _ Hsel).
Qed.

Lemma legacy_webhook_has_no_guard_witness :
  let mapped := LegacyFlow.map_payment_status
                  (extract_payment_status (body_value sample_failed_body)) in
  let written := set_status_payment mapped.2 mapped.1 (sample_order "pending" "success") in
  LegacyFlow.webhookPaymentEvent sample_failed_body paid_server =
    (emit (Emit (customer_room (customer_uid (sample_order "pending" "success")))
                "orderStatusUpdated" (7, written))
       (emit (Emit (restaurant_room (restaurant_uid (sample_order "pending" "success")))
                   "orderStatusUpdated" (7, written))
          (with_db (with_orders (insert 7 written)) paid_server)),
     respond 200 true "Webhook processed").
Proof.
  apply (legacy_webhook_has_no_guard sample_failed_body paid_server "7" 7
           (sample_order "pending" "success")).
  - reflexivity.
  - reflexivity.
  - discriminate.
  - vm_compute. reflexivity.
Defined.

(** X28.  The older status update accepts every move between its six
    statuses, from whatever status the order is in, and refuses every
    other target ([rejected] included) without writing. *)
Theorem legacy_updateOrderStatus_unguarded (orderId target : string) (s : Server)
    (id : Z) (o : Order) :
  select_order (db s) orderId = Some (id, o) →
  (In target LegacyFlow.allowed →
   LegacyFlow.updateOrderStatus orderId (Some target) s =
     (emit (Emit (customer_room (customer_uid o)) "orderStatusUpdated" (id, set_status target o))
        (emit (Emit (restaurant_room (restaurant_uid o)) "orderStatusUpdated"
                    (id, set_status target o))
           (with_db (with_orders (insert id (set_status target o))) s)),
      respond 200 true "Status updated"))
  ∧ (¬ In target LegacyFlow.allowed →
     LegacyFlow.updateOrderStatus orderId (Some target) s =
       (s, respond_error 400 false "Invalid or missing status")).
Proof.
  intros Hsel. unfold LegacyFlow.updateOrderStatus.
  cbn [missing default from_option]. unfold Datatypes.id.
  split; intros Hin.
  - assert (existsb (String.eqb target) LegacyFlow.allowed = true) as ->.
    { apply existsb_exists. exists target. split; [done|]. apply String.eqb_refl. }
    assert (String.eqb target "" = false) as ->.
    { apply String.eqb_neq. intros ->. simpl in Hin. intuition discriminate. }
    cbn [orb negb]. rewrite Hsel.
    rewrite (query_update_found _ _ _ _ _ Hsel). cbv beta iota.
    change (1 =? 0)%nat with false. cbv beta iota.
    by rewrite (select_after_update _ _ _ _ _ Hsel).
  - assert (existsb (String.eqb target) LegacyFlow.allowed = false) as ->.
    { apply not_true_iff_false. intros (x & Hx & ->%String.eqb_eq)%existsb_exists. done. }
    by rewrite orb_true_r.
Qed.

Lemma legacy_updateOrderStatus_unguarded_witness :
  (In "pending" LegacyFlow.allowed →
   LegacyFlow.updateOrderStatus "7" (Some "pending") delivered_server =
     (emit (Emit (customer_room (customer_uid (sample_order "delivered" "success")))
                 "orderStatusUpdated" (7, set_status "pending" (sample_order "delivered" "success")))
        (emit (Emit (restaurant_room (restaurant_uid (sample_order "delivered" "success")))
                    "orderStatusUpdated"
                    (7, set_status "pending" (sample_order "delivered" "success")))
           (with_db (with_orders (insert 7 (set_status "pending"
                                              (sample_order "delivered" "success"))))
                    delivered_server)),
      respond 200 true "Status updated"))
  ∧ (¬ In "pending" LegacyFlow.allowed →
     LegacyFlow.updateOrderStatus "7" (Some "pending") delivered_server =
       (delivered_server, respond_error 400 false "Invalid or missing status")).
Proof.
  apply (legacy_updateOrderStatus_unguarded "7" "pending" delivered_server 7
           (sample_order "delivered" "success")).
  vm_compute. reflexivity.
Defined.

(** ** Push notifications *)

Lemma valid_tokens_In (rows : list Notifications.DeviceToken) (t : string) :
  In t (Notifications.valid_tokens rows) →
  t ≠ "" ∧ ∃ r, In r rows ∧ Notifications.token r = Some t.
Proof.
  unfold Notifications.valid_tokens. induction rows as [|r rows IH]; [done|].
  simpl. destruct (Notifications.token r) as [t'|] eqn:Ht.
  - destruct (String.eqb t' "") eqn:He; simpl.
    + intros (Hne & r' & Hin & Hr')%IH. eauto.
    + intros [<-|(Hne & r' & Hin & Hr')%IH]; [|by eauto].
      apply String.eqb_neq in He. eauto.
  - simpl. intros (Hne & r' & Hin & Hr')%IH. eauto.
Qed.

Lemma normalize_keys (data : list (string * json)) :
  is_Some (Notifications.normalize data !! "orderId")
  ∧ is_Some (Notifications.normalize data !! "type")
  ∧ is_Some (Notifications.normalize data !! "status").
Proof.
  unfold Notifications.normalize, Notifications.ensure_key. repeat split.
  - rewrite lookup_insert_ne, lookup_insert_ne, lookup_insert_eq by done. by eexists.
  - rewrite lookup_insert_ne, lookup_insert_eq by done. by eexists.
  - rewrite lookup_insert_eq. by eexists.
Qed.

(** X29.  Every message [sendFCMNotification] hands to the messaging
    service is addressed to at least one token, each of them a non-empty
    token registered for that restaurant, and its data carries the keys
    [orderId], [type] and [status]. *)
Theorem push_reaches_only_registered_devices (restaurantUid title body : string)
    (data : list (string * json)) (answer : Exception + Notifications.BatchResponse)
    (table : list Notifications.DeviceToken) (m : Notifications.Message) :
  In m (Notifications.sendFCMNotification restaurantUid title body data answer table).1 →
  Notifications.recipients m ≠ []
  ∧ (∀ t, In t (Notifications.recipients m) →
          t ≠ "" ∧ In (Notifications.mkDeviceToken restaurantUid (Some t)) table)
  ∧ is_Some (Notifications.message_data m !! "orderId")
  ∧ is_Some (Notifications.message_data m !! "type")
  ∧ is_Some (Notifications.message_data m !! "status").
Proof.
  unfold Notifications.sendFCMNotification.
  set (rows := List.filter _ table).
  assert (∀ t, In t (Notifications.valid_tokens rows) →
               t ≠ "" ∧ In (Notifications.mkDeviceToken restaurantUid (Some t)) table) as Hvalid.
  { intros t (Hne & [uid' tok] & Hin & Htok)%valid_tokens_In. split; [done|].
    subst rows. apply filter_In in Hin as [Hin Huid]. simpl in *.
    apply String.eqb_eq in Huid. by subst. }
  destruct (length rows =? 0)%nat; [done|].
  destruct (Notifications.valid_tokens rows) as [|t1 [|t2 tokens]] eqn:Htokens; [done| |].
  - simpl. intros [<-|[]]. simpl. split; [done|]. split; [|apply normalize_keys].
    intros t [<-|[]]. apply Hvalid. by left.
  - assert (In m [Notifications.Multicast (t1 :: t2 :: tokens) title body
                    (Notifications.normalize data)] →
            Notifications.recipients m ≠ []
            ∧ (∀ t, In t (Notifications.recipients m) →
                    t ≠ "" ∧ In (Notifications.mkDeviceToken restaurantUid (Some t)) table)
            ∧ is_Some (Notifications.message_data m !! "orderId")
            ∧ is_Some (Notifications.message_data m !! "type")
            ∧ is_Some (Notifications.message_data m !! "status")) as Hm.
    { intros [<-|[]]. simpl. split; [done|]. split; [exact Hvalid|apply normalize_keys]. }
    destruct answer as [|response]; [exact Hm|].
    destruct (0 <? Notifications.failureCount response)%nat; [|exact Hm].
    destruct (0 <? length _)%nat; exact Hm.
Qed.

Lemma push_reaches_only_registered_devices_witness :
  let m := Notifications.Multicast ["tokA"; "tokB"] "New Order #7" "Please accept or reject."
             (Notifications.normalize [("orderId", JNum 7)]) in
  Notifications.recipients m ≠ []
  ∧ (∀ t, In t (Notifications.recipients m) →
          t ≠ "" ∧ In (Notifications.mkDeviceToken "rest1" (Some t)) sample_device_tokens)
  ∧ is_Some (Notifications.message_data m !! "orderId")
  ∧ is_Some (Notifications.message_data m !! "type")
  ∧ is_Some (Notifications.message_data m !! "status").
Proof.
  apply (push_reaches_only_registered_devices "rest1" "New Order #7" "Please accept or reject."
           [("orderId", JNum 7)] (inl (Error "unavailable")) sample_device_tokens).
  left. reflexivity.
Defined.

Lemma failed_tokens_In (tokens : list string) (i : nat)
    (rs : list Notifications.SendResponse) (t : string) :
  In t (Notifications.failed_tokens tokens i rs) →
  ∃ j r, rs !! j = Some r
         ∧ Notifications.delivered r = false
         ∧ Notifications.error_code r = Some Notifications.not_registered
         ∧ tokens !! (i + j)%nat = Some t.
Proof.
  revert i. induction rs as [|r rs IH]; intros i; [done|].
  cbn [Notifications.failed_tokens].
  assert (In t (Notifications.failed_tokens tokens (S i) rs) →
          ∃ j r', (r :: rs) !! j = Some r'
                  ∧ Notifications.delivered r' = false
                  ∧ Notifications.error_code r' = Some Notifications.not_registered
                  ∧ tokens !! (i + j)%nat = Some t) as Hlater.
  { intros (j & r' & Hj & Hd & He & Ht)%IH. exists (S j), r'.
    repeat split; try done. by rewrite <-Nat.add_succ_comm. }
  destruct (negb (Notifications.delivered r)) eqn:Hd; [|exact Hlater].
  destruct (bool_decide _) eqn:He; [|exact Hlater]. simpl.
  apply bool_decide_eq_true in He. apply negb_true_iff in Hd.
  destruct (tokens !! i) as [t'|] eqn:Ht; [|exact Hlater].
  intros [<-|Hin]; [|by apply Hlater].
  exists 0%nat, r. rewrite Nat.add_0_r. done.
Qed.

(** X30.  [sendFCMNotification] only ever removes rows of
    [device_tokens]: a row disappears only if the multicast answered, for
    the index of its token, a failure with the code
    [messaging/registration-token-not-registered]; with at most one valid
    token (the single [send]) the table is never changed. *)
Theorem only_unregistered_tokens_are_pruned (restaurantUid title body : string)
    (data : list (string * json)) (answer : Exception + Notifications.BatchResponse)
    (table : list Notifications.DeviceToken) :
  let tokens :=
    Notifications.valid_tokens
      (List.filter (λ r, String.eqb (Notifications.token_restaurant_uid r) restaurantUid)
                   table) in
  let table' :=
    (Notifications.sendFCMNotification restaurantUid title body data answer table).2 in
  (∀ r, In r table' → In r table)
  ∧ (∀ r, In r table → ¬ In r table' →
          ∃ t response j resp,
            Notifications.token r = Some t
            ∧ answer = inr response
            ∧ Notifications.responses response !! j = Some resp
            ∧ Notifications.delivered resp = false
            ∧ Notifications.error_code resp = Some Notifications.not_registered
            ∧ tokens !! j = Some t)
  ∧ ((length tokens ≤ 1)%nat → table' = table).
Proof.
  intros tokens table'. subst table'. unfold Notifications.sendFCMNotification.
  fold tokens.
  destruct (length _ =? 0)%nat; [by repeat split|].
  destruct tokens as [|t1 [|t2 rest]] eqn:Htokens; [by repeat split|by repeat split|].
  destruct answer as [|response]; [by repeat split|].
  destruct (0 <? Notifications.failureCount response)%nat; [|by repeat split].
  destruct (0 <? length _)%nat; [|by repeat split].
  cbn [snd]. repeat split.
  - intros r Hin. unfold Notifications.delete_tokens in Hin.
    by apply filter_In in Hin as [Hin _].
  - intros r Hin Hout.
    destruct (Notifications.token r) as [t|] eqn:Ht.
    + destruct (existsb (String.eqb t)
                  (Notifications.failed_tokens (t1 :: t2 :: rest) 0
                     (Notifications.responses response))) eqn:Hfailed.
      * apply existsb_exists in Hfailed as (t' & Hin' & <-%String.eqb_eq).
        apply failed_tokens_In in Hin' as (j & resp & Hj & Hd & He & Htok).
        exists t, response, j, resp. done.
      * exfalso. apply Hout. apply filter_In. split; [done|]. by rewrite Ht, Hfailed.
    + exfalso. apply Hout. apply filter_In. split; [done|]. by rewrite Ht.
  - simpl. lia.
Qed.
